(** * Moltpad CLI: chapter validation, markup rendering, book cache and
      stale chapter-id recovery

    Shallow embedding of [skills/moltpad/tools/moltpad_cli.py].

    Python values are modelled as the interpreter has them: a [str] is a
    sequence of Unicode code points, a parsed JSON document is a tree of
    [None], [bool], [int], [float], [str], [list] and [dict] values, and a
    failing operation raises an exception that propagates to the caller.
    The commands that print, touch the cache directory or leave through
    [sys.exit] run in a small state-and-exit monad over the files of the
    cache directory and the lines written to standard output. *)

From Stdlib Require Import ZArith NArith List Bool Lia String Ascii DecimalNat.
Import ListNotations.


(* ================================================================== *)
(** ** Python strings *)
(* ================================================================== *)

Module Py.

(** A [str] is a list of code points; [len] is [length]. *)
Definition pystr := list N.

(** An ASCII literal of the source. *)
Definition lit (s : string) : pystr := map N_of_ascii (list_ascii_of_string s).

Definition dquote : pystr := [34%N].          (* the double-quote character *)
Definition emdash : pystr := [8212%N].        (* "—" *)
Definition newline : N := 10%N.
Definition space : N := 32%N.

Fixpoint str_eqb (a b : pystr) : bool :=
  match a, b with
  | [], [] => true
  | x :: a', y :: b' => (x =? y)%N && str_eqb a' b'
  | _, _ => false
  end.

(** [s.startswith(p)] *)
Fixpoint startswith (s p : pystr) {struct p} : bool :=
  match p, s with
  | [], _ => true
  | _ :: _, [] => false
  | x :: p', y :: s' => (x =? y)%N && startswith s' p'
  end.

(** [sub in s] *)
Fixpoint contains (s sub : pystr) : bool :=
  startswith s sub ||
  match s with
  | [] => false
  | _ :: s' => contains s' sub
  end.

(** [str.isspace] on one code point: the characters [str.strip()] removes. *)
Definition isspace (c : N) : bool :=
  ((9 <=? c) && (c <=? 13) || (28 <=? c) && (c <=? 32) ||
   (c =? 133) || (c =? 160) || (c =? 5760) ||
   (8192 <=? c) && (c <=? 8202) || (c =? 8232) || (c =? 8233) ||
   (c =? 8239) || (c =? 8287) || (c =? 12288))%N.

Fixpoint lstrip (s : pystr) : pystr :=
  match s with
  | [] => []
  | c :: s' => if isspace c then lstrip s' else s
  end.

Definition rstrip (s : pystr) : pystr := rev (lstrip (rev s)).

(** [s.strip()] *)
Definition strip (s : pystr) : pystr := rstrip (lstrip s).

(** [s.replace(c, r)] for a one-character pattern [c]. *)
Definition replace_char (c : N) (r : pystr) (s : pystr) : pystr :=
  flat_map (fun x => if (x =? c)%N then r else [x]) s.

(** [sep.join(parts)] *)
Fixpoint join (sep : pystr) (parts : list pystr) : pystr :=
  match parts with
  | [] => []
  | [p] => p
  | p :: rest => p ++ sep ++ join sep rest
  end.

(** [s.split(sep)] for a non-empty separator.  [skip] counts the characters
    of a separator just matched that are still to be passed over. *)
Fixpoint split_aux (sep : pystr) (skip : nat) (cur : pystr) (s : pystr)
  : list pystr :=
  match s with
  | [] => [rev cur]
  | c :: s' =>
      match skip with
      | S k => split_aux sep k cur s'
      | O =>
          if startswith s sep
          then rev cur :: split_aux sep (List.length sep - 1) [] s'
          else split_aux sep 0 (c :: cur) s'
      end
  end.

Definition split (sep s : pystr) : list pystr := split_aux sep 0 [] s.






(** Decimal rendering of a natural number, as an f-string prints an index. *)
Fixpoint uint_codes (d : Decimal.uint) : pystr :=
  match d with
  | Decimal.Nil => []
  | Decimal.D0 d => 48%N :: uint_codes d
  | Decimal.D1 d => 49%N :: uint_codes d
  | Decimal.D2 d => 50%N :: uint_codes d
  | Decimal.D3 d => 51%N :: uint_codes d
  | Decimal.D4 d => 52%N :: uint_codes d
  | Decimal.D5 d => 53%N :: uint_codes d
  | Decimal.D6 d => 54%N :: uint_codes d
  | Decimal.D7 d => 55%N :: uint_codes d
  | Decimal.D8 d => 56%N :: uint_codes d
  | Decimal.D9 d => 57%N :: uint_codes d
  end.

Definition dec (n : nat) : pystr := uint_codes (Nat.to_uint n).

(** Lexicographic order on code points: [a < b] on [str]. *)
Fixpoint str_ltb (a b : pystr) : bool :=
  match a, b with
  | _, [] => false
  | [], _ :: _ => true
  | x :: a', y :: b' => (x <? y)%N || (x =? y)%N && str_ltb a' b'
  end.

Fixpoint insert_sorted (x : pystr) (l : list pystr) : list pystr :=
  match l with
  | [] => [x]
  | y :: l' => if str_ltb y x then y :: insert_sorted x l' else x :: l
  end.

(** [sorted(xs)] on strings. *)
Definition sorted (l : list pystr) : list pystr :=
  fold_right insert_sorted [] l.

(** Lower-casing of the ASCII range. *)
Definition ascii_lower (c : N) : N :=
  if ((65 <=? c) && (c <=? 90))%N then (c + 32)%N else c.

Definition is_ascii (c : N) : Prop := (c < 128)%N.

End Py.
Import Py.

(* ================================================================== *)
(** ** JSON values, exceptions *)
(* ================================================================== *)

(** What [json.loads] returns.  A [float] is kept as its IEEE-754 binary64
    bit pattern; a [dict] as its items in insertion order. *)
#[warnings="-register-all"]
Inductive json : Type :=
| JNull
| JBool (b : bool)
| JInt (z : Z)
| JFloat (bits : N)
| JStr (s : pystr)
| JList (l : list json)
| JDict (d : list (pystr * json)).

Inductive exn : Type :=
| TypeError | AttributeError | KeyError | IndexError | ValueError.

Inductive result (A : Type) : Type :=
| Ok (a : A)
| Raise (e : exn).
Arguments Ok {A} a.
Arguments Raise {A} e.

Definition rbind {A B} (r : result A) (k : A -> result B) : result B :=
  match r with
  | Ok a => k a
  | Raise e => Raise e
  end.

Declare Scope result_scope.
Delimit Scope result_scope with result.
Notation "x <- e ;; k" := (rbind e (fun x => k))
  (at level 61, e at next level, right associativity) : result_scope.

Fixpoint assoc {V} (k : pystr) (d : list (pystr * V)) : option V :=
  match d with
  | [] => None
  | (k', v) :: d' => if str_eqb k k' then Some v else assoc k d'
  end.

(** [d.get(k, default)] on a dict. *)
Definition dict_get (d : list (pystr * json)) (k : pystr) (default : json) : json :=
  match assoc k d with
  | Some v => v
  | None => default
  end.

(** [k in d] on a dict. *)
Definition dict_has (d : list (pystr * json)) (k : pystr) : bool :=
  match assoc k d with
  | Some _ => true
  | None => false
  end.

(** [x.get(k, default)]: only a dict has the method. *)
Definition py_get (x : json) (k : pystr) (default : json) : result json :=
  match x with
  | JDict d => Ok (dict_get d k default)
  | _ => Raise AttributeError
  end.

(** [type(x).__name__] *)
Definition type_name (x : json) : pystr :=
  match x with
  | JNull => lit "NoneType"
  | JBool _ => lit "bool"
  | JInt _ => lit "int"
  | JFloat _ => lit "float"
  | JStr _ => lit "str"
  | JList _ => lit "list"
  | JDict _ => lit "dict"
  end.

(** Truth value of [x] in a condition. *)
Definition truthy (x : json) : bool :=
  match x with
  | JNull => false
  | JBool b => b
  | JInt z => negb (z =? 0)%Z
  | JFloat bits => negb (N.land bits (2 ^ 63 - 1) =? 0)%N
  | JStr s => match s with [] => false | _ => true end
  | JList l => match l with [] => false | _ => true end
  | JDict d => match d with [] => false | _ => true end
  end.

Definition is_none (x : json) : bool :=
  match x with JNull => true | _ => false end.

Definition is_str (x : json) : bool :=
  match x with JStr _ => true | _ => false end.

(** [x == "literal"] *)
Definition eq_str (x : json) (s : pystr) : bool :=
  match x with JStr t => str_eqb t s | _ => false end.

(** [x in S] for a set [S] of strings: the value is hashed first, and a
    list or a dict is unhashable. *)
Definition set_contains (S : list pystr) (x : json) : result bool :=
  match x with
  | JList _ | JDict _ => Raise TypeError
  | JStr s => Ok (existsb (str_eqb s) S)
  | _ => Ok false
  end.

(** The parts of the Python runtime the program calls and this development
    does not spell out: full Unicode lower-casing, the text an f-string
    gives a value, and ISO-8601 parsing.  A parsed timestamp is an instant
    in microseconds since the epoch, either with an offset (aware) or
    without one (naive). *)
Variant datetime : Type :=
| Aware (us : Z)
| Naive (us : Z).

Class PyRuntime : Type := {
  str_lower : pystr -> pystr;                       (* str.lower() *)
  py_str : json -> pystr;                           (* format(x, "") *)
  fromisoformat : pystr -> option datetime;         (* None: ValueError *)
  str_lower_ascii :
    forall s, Forall is_ascii s -> str_lower s = map ascii_lower s;
  py_str_str : forall s, py_str (JStr s) = s
}.

(* ================================================================== *)
(** ** Chapter validation *)
(* ================================================================== *)

Definition VALID_SEGMENT_TYPES : list pystr :=
  [ lit "text"; lit "dialogue"; lit "monolog"; lit "whisper"; lit "shout";
    lit "emphasis"; lit "center"; lit "right"; lit "scene_break"; lit "heading" ].

Definition NARRATIVE_TYPES : list pystr :=
  [ lit "dialogue"; lit "monolog"; lit "whisper"; lit "shout" ].

Definition _RAW_TAGS : list pystr :=
  [ lit "thought"; lit "whisper"; lit "shout"; lit "emphasis"; lit "center";
    lit "right" ].

Definition _TAG_TO_TYPE : list (pystr * pystr) :=
  [ (lit "thought", lit "monolog"); (lit "whisper", lit "whisper");
    (lit "shout", lit "shout"); (lit "emphasis", lit "emphasis");
    (lit "center", lit "center"); (lit "right", lit "right") ].

(** [d[k]] on a dict of strings. *)
Definition dict_index {V} (d : list (pystr * V)) (k : pystr) : result V :=
  match assoc k d with
  | Some v => Ok v
  | None => Raise KeyError
  end.

Definition seg_prefix (i : nat) : pystr := lit "segments[" ++ dec i ++ lit "]".

Definition msg_not_object (data : json) : pystr :=
  lit "Input must be a JSON object (dict), not " ++ type_name data.

Definition msg_missing_title : pystr := lit "Missing required field: 'title'".
Definition msg_bad_title : pystr := lit "'title' must be a non-empty string".
Definition msg_missing_segments : pystr := lit "Missing required field: 'segments'".
Definition msg_segments_not_array : pystr := lit "'segments' must be an array".
Definition msg_segments_empty : pystr := lit "'segments' must not be empty".

Definition msg_seg_not_object (prefix : pystr) : pystr :=
  prefix ++ lit ": each segment must be an object".

Definition msg_missing_type (prefix : pystr) : pystr :=
  prefix ++ lit ": missing required field 'type'".

Definition msg_unknown_type `{PyRuntime} (prefix : pystr) (stype : json) : pystr :=
  prefix ++ lit ": unknown type '" ++ py_str stype ++ lit "'. Valid: " ++
  join (lit ", ") (sorted VALID_SEGMENT_TYPES).

Definition msg_scene_break_text (prefix : pystr) : pystr :=
  prefix ++ lit ": 'scene_break' must not have a 'text' field".

Definition msg_scene_break_narrative (prefix : pystr) : pystr :=
  prefix ++ lit ": 'scene_break' does not support 'narrative' field".

Definition msg_requires_text `{PyRuntime} (prefix : pystr) (stype : json) : pystr :=
  prefix ++ lit ": '" ++ py_str stype ++ lit "' requires a 'text' field".

Definition msg_bad_text (prefix : pystr) : pystr :=
  prefix ++ lit ": 'text' must be a non-empty string".

Definition msg_narrative_unsupported `{PyRuntime} (prefix : pystr) (stype : json)
  : pystr :=
  prefix ++ lit ": '" ++ py_str stype ++
  lit "' does not support 'narrative' field. " ++
  lit "Only " ++ join (lit ", ") (sorted NARRATIVE_TYPES) ++ lit " do.".

Definition msg_bad_narrative (prefix : pystr) : pystr :=
  prefix ++ lit ": 'narrative' must be a non-empty string".

Definition msg_raw_tag (prefix raw_tag seg_type : pystr) : pystr :=
  prefix ++ lit ": text contains raw '[" ++ raw_tag ++ lit "]' tag. " ++
  lit "Use {" ++ dquote ++ lit "type" ++ dquote ++ lit ": " ++
  dquote ++ seg_type ++ dquote ++
  lit "} segment instead of putting tags in text.".

Definition msg_dialogue_dash (prefix dash : pystr) : pystr :=
  prefix ++ lit ": text starts with dialogue dash '" ++ dash ++ lit "'. " ++
  lit "Use {" ++ dquote ++ lit "type" ++ dquote ++ lit ": " ++
  dquote ++ lit "dialogue" ++ dquote ++ lit "} segment instead.".

Definition msg_duplicate_title : pystr :=
  lit "segments[0]: heading text duplicates the chapter title. " ++
  lit "Remove this segment " ++ emdash ++
  lit " the title field is displayed automatically.".

(** [not isinstance(x, str) or not x.strip()] *)
Definition not_nonempty_str (x : json) : bool :=
  match x with
  | JStr s => match strip s with [] => true | _ => false end
  | _ => true
  end.

(** The title block: the errors it appends. *)
Definition title_errors (title : json) : list pystr :=
  if is_none title then [msg_missing_title]
  else if not_nonempty_str title then [msg_bad_title]
  else [].

(** The test of the raw-tag loop for one tag. *)
Definition has_raw_tag `{PyRuntime} (text raw_tag : pystr) : bool :=
  contains (str_lower text) (lit "[" ++ raw_tag ++ lit "]") ||
  contains (str_lower text) (lit "[/" ++ raw_tag ++ lit "]").

(** The raw-tag loop: the first tag of [_RAW_TAGS] found gives one error and
    the loop breaks. *)
Definition raw_tag_errors `{PyRuntime} (prefix text : pystr)
  : result (list pystr) :=
  match find (has_raw_tag text) _RAW_TAGS with
  | Some raw_tag =>
      (seg_type <- dict_index _TAG_TO_TYPE raw_tag ;;
       Ok [msg_raw_tag prefix raw_tag seg_type])%result
  | None => Ok []
  end.

(** The dialogue-dash check on a non-empty string [text]. *)
Definition dash_errors (prefix : pystr) (stype : json) (text : pystr)
  : list pystr :=
  if eq_str stype (lit "text") &&
     (startswith text (emdash ++ lit " ") || startswith text (lit "- "))
  then
    let dash := if startswith text emdash then emdash else lit "-" in
    [msg_dialogue_dash prefix dash]
  else [].

(** The required-text check of a segment that is not a scene break. *)
Definition text_errors `{PyRuntime} (prefix : pystr) (stype text : json)
  : list pystr :=
  if is_none text then [msg_requires_text prefix stype]
  else if not_nonempty_str text then [msg_bad_text prefix]
  else [].

(** The narrative check on the segment dict [d]. *)
Definition narrative_errors `{PyRuntime} (prefix : pystr) (stype : json)
  (d : list (pystr * json)) : result (list pystr) :=
  if dict_has d (lit "narrative") then
    (speech <- set_contains NARRATIVE_TYPES stype ;;
     if negb speech then Ok [msg_narrative_unsupported prefix stype]
     else
       narr <- dict_index d (lit "narrative") ;;
       Ok (if not_nonempty_str narr then [msg_bad_narrative prefix] else []))%result
  else Ok [].

(** The checks run when [text] is a non-empty string: raw tags, then the
    dialogue dash. *)
Definition content_errors `{PyRuntime} (prefix : pystr) (stype text : json)
  : result (list pystr) :=
  match text with
  | JStr ((_ :: _) as t) =>
      (e_raw <- raw_tag_errors prefix t ;;
       Ok (e_raw ++ dash_errors prefix stype t))%result
  | _ => Ok []
  end.

(** The body of the loop over the segments: the errors segment [i] appends. *)
Definition segment_errors `{PyRuntime} (i : nat) (seg : json)
  : result (list pystr) :=
  let prefix := seg_prefix i in
  match seg with
  | JDict d =>
      let stype := dict_get d (lit "type") JNull in
      if is_none stype then Ok [msg_missing_type prefix] else
      (known <- set_contains VALID_SEGMENT_TYPES stype ;;
       if negb known then Ok [msg_unknown_type prefix stype] else
       if eq_str stype (lit "scene_break") then
         Ok ((if dict_has d (lit "text")
              then [msg_scene_break_text prefix] else []) ++
             (if dict_has d (lit "narrative")
              then [msg_scene_break_narrative prefix] else []))
       else
         let text := dict_get d (lit "text") JNull in
         let e_text := text_errors prefix stype text in
         e_narr <- narrative_errors prefix stype d ;;
         e_content <- content_errors prefix stype text ;;
         Ok (e_text ++ e_narr ++ e_content))%result
  | _ => Ok [msg_seg_not_object prefix]
  end.

(** [for i, seg in enumerate(segments)], from index [i] on, appending to
    [errors]. *)
Fixpoint segments_loop `{PyRuntime} (i : nat) (segments : list json)
  (errors : list pystr) : result (list pystr) :=
  match segments with
  | [] => Ok errors
  | seg :: rest =>
      (e <- segment_errors i seg ;;
       segments_loop (S i) rest (errors ++ e))%result
  end.

(** The closing check: a first heading that repeats the chapter title. *)
Definition duplicate_title_errors `{PyRuntime} (title : json)
  (segments : list json) : list pystr :=
  match segments with
  | JDict first :: _ =>
      match dict_get first (lit "text") JNull, title with
      | JStr ftext, JStr t =>
          if eq_str (dict_get first (lit "type") JNull) (lit "heading") &&
             truthy (JStr (strip t))
          then
            let first_text := str_lower (strip ftext) in
            let title_lower := str_lower (strip t) in
            if str_eqb first_text title_lower || contains first_text title_lower
            then [msg_duplicate_title] else []
          else []
      | _, _ => []
      end
  | _ => []
  end.

Definition _validate_chapter_json `{PyRuntime} (data : json)
  : result (list pystr) :=
  match data with
  | JDict d =>
      let title := dict_get d (lit "title") JNull in
      let errors := title_errors title in
      let segments := dict_get d (lit "segments") JNull in
      match segments with
      | JNull => Ok (errors ++ [msg_missing_segments])
      | JList [] => Ok (errors ++ [msg_segments_empty])
      | JList segs =>
          (errors <- segments_loop 0 segs errors ;;
           Ok (errors ++ duplicate_title_errors title segs))%result
      | _ => Ok (errors ++ [msg_segments_not_array])
      end
  | _ => Ok [msg_not_object data]
  end.

(* ================================================================== *)
(** ** Markup rendering *)
(* ================================================================== *)

(** One iteration of the loop of [_segments_to_markup]: what segment [seg]
    appends to [parts].  [text] and [narrative] are interpolated by
    f-strings, except for a "text" segment, whose text is appended as it
    is. *)
Definition segment_parts `{PyRuntime} (seg : json) : result (list json) :=
  match seg with
  | JDict d =>
      (stype <- dict_index d (lit "type") ;;
       let text := dict_get d (lit "text") (JStr []) in
       let narrative := dict_get d (lit "narrative") (JStr []) in
       let wrapped tag :=
         lit "[" ++ tag ++ lit "]" ++ py_str text ++ lit "[/" ++ tag ++ lit "]" in
       let with_narrative line :=
         if truthy narrative then line ++ lit " " ++ py_str narrative else line in
       Ok (if eq_str stype (lit "text") then [text]
           else if eq_str stype (lit "dialogue") then
             let line := emdash ++ lit " " ++ py_str text in
             [JStr (if truthy narrative
                    then line ++ lit " " ++ emdash ++ lit " " ++ py_str narrative
                    else line)]
           else if eq_str stype (lit "monolog") then
             [JStr (with_narrative (wrapped (lit "thought")))]
           else if eq_str stype (lit "whisper") then
             [JStr (with_narrative (wrapped (lit "whisper")))]
           else if eq_str stype (lit "shout") then
             [JStr (with_narrative (wrapped (lit "shout")))]
           else if eq_str stype (lit "emphasis") then
             [JStr (wrapped (lit "emphasis"))]
           else if eq_str stype (lit "center") then
             [JStr (wrapped (lit "center"))]
           else if eq_str stype (lit "right") then
             [JStr (wrapped (lit "right"))]
           else if eq_str stype (lit "scene_break") then [JStr (lit "---")]
           else if eq_str stype (lit "heading") then
             [JStr (lit "### " ++ py_str text)]
           else []))%result
  | _ => Raise TypeError
  end.

Fixpoint markup_parts `{PyRuntime} (segments : list json) : result (list json) :=
  match segments with
  | [] => Ok []
  | seg :: rest =>
      (p <- segment_parts seg ;;
       ps <- markup_parts rest ;;
       Ok (p ++ ps))%result
  end.

(** [sep.join(items)]: every item must be a [str]. *)
Fixpoint py_join_items (items : list json) : result (list pystr) :=
  match items with
  | [] => Ok []
  | JStr s :: rest => (ss <- py_join_items rest ;; Ok (s :: ss))%result
  | _ :: _ => Raise TypeError
  end.

Definition py_join (sep : pystr) (items : list json) : result pystr :=
  (ss <- py_join_items items ;; Ok (join sep ss))%result.

Definition _segments_to_markup `{PyRuntime} (segments : list json)
  : result pystr :=
  (parts <- markup_parts segments ;;
   py_join (lit (String (ascii_of_nat 10) (String (ascii_of_nat 10) EmptyString)))
           parts)%result.

(* ================================================================== *)
(** ** Collections as the interpreter sees them *)
(* ================================================================== *)

(** [len(x)] *)
Definition py_len (x : json) : result nat :=
  match x with
  | JStr s => Ok (List.length s)
  | JList l => Ok (List.length l)
  | JDict d => Ok (List.length d)
  | _ => Raise TypeError
  end.

(** The items a [for] loop over [x] visits. *)
Definition py_iter (x : json) : result (list json) :=
  match x with
  | JList l => Ok l
  | JStr s => Ok (map (fun c => JStr [c]) s)
  | JDict d => Ok (map (fun kv => JStr (fst kv)) d)
  | _ => Raise TypeError
  end.

(** [l[i]] on a list of strings. *)
Definition list_index (l : list pystr) (i : nat) : result pystr :=
  match nth_error l i with
  | Some x => Ok x
  | None => Raise IndexError
  end.

Definition dec_Z (z : Z) : pystr :=
  if (z <? 0)%Z then lit "-" ++ dec (Z.to_nat (- z)) else dec (Z.to_nat z).

(** The chapter list inside a response of the chapters endpoint. *)
Definition chapters_of_response (resp : json) : json :=
  match resp with
  | JDict d => dict_get d (lit "chapters") (JList [])
  | JList _ => resp
  | _ => JList []
  end.

(* ================================================================== *)
(** ** The book cache: summary text *)
(* ================================================================== *)

(** The preview of a chapter whose content is the string [ch_content]. *)
Definition chapter_preview (ch_content : pystr) : pystr :=
  let preview := strip (replace_char newline [space] (firstn 200 ch_content)) in
  if (200 <? List.length ch_content)%nat then preview ++ lit "..." else preview.

(** [ch_content[:200].replace(..).strip()] and the suffix, on any value: a
    list can be sliced but has no [replace]; the other values cannot be
    sliced (a dict raises [KeyError] instead from Python 3.12 on). *)
Definition preview_of (ch_content : json) : result pystr :=
  match ch_content with
  | JStr s => Ok (chapter_preview s)
  | JList _ => Raise AttributeError
  | _ => Raise TypeError
  end.

(** The line the summary keeps for chapter [ch] at position [i]. *)
Definition chapter_line `{PyRuntime} (i : nat) (ch : json) : result pystr :=
  (ch_title <- py_get ch (lit "title") (JStr (lit "Chapter " ++ dec (i + 1))) ;;
   ch_content <- py_get ch (lit "content") (JStr []) ;;
   ch_id <- py_get ch (lit "_id") (JStr []) ;;
   preview <- preview_of ch_content ;;
   Ok (lit "- **" ++ py_str ch_title ++ lit "** (id: " ++ py_str ch_id ++
       lit "): " ++ preview))%result.

Fixpoint chapter_lines `{PyRuntime} (i : nat) (chapters : list json)
  : result (list pystr) :=
  match chapters with
  | [] => Ok []
  | ch :: rest =>
      (l <- chapter_line i ch ;;
       ls <- chapter_lines (S i) rest ;;
       Ok (l :: ls))%result
  end.

(** The fields both [cmd_read] and [_rebuild_book_cache] read from the book
    before anything else: title, author, publisher, category, description. *)
Definition book_fields (book : json) : result (json * json * json * json * json) :=
  (title <- py_get book (lit "title") (JStr (lit "Untitled")) ;;
   creator <- py_get book (lit "creator") (JDict []) ;;
   author <- py_get creator (lit "name") (JStr (lit "Unknown")) ;;
   publisher_obj <- py_get book (lit "publisher") (JDict []) ;;
   publisher <- py_get publisher_obj (lit "name") (JStr (lit "Unknown")) ;;
   category <- py_get book (lit "category") (JStr []) ;;
   desc <- py_get book (lit "description") (JStr []) ;;
   Ok (title, author, publisher, category, desc))%result.

(** The summary text: header, optional description, one line per chapter.
    [cmd_read] and [_rebuild_book_cache] build it with the same statements.
    [now] is the formatted current time. *)
Definition summary_text `{PyRuntime} (book_id : pystr)
  (fields : json * json * json * json * json) (chapters : json) (now : pystr)
  : result pystr :=
  let '(title, author, publisher, category, desc) := fields in
  (count <- py_len chapters ;;
   let lines :=
     [ JStr (lit "# Book Summary: " ++ py_str title);
       JStr (lit "**Book ID**: " ++ book_id);
       JStr (lit "**Author**: " ++ py_str author);
       JStr (lit "**Publisher**: " ++ py_str publisher) ] ++
     (if truthy category
      then [JStr (lit "**Category**: " ++ py_str category)] else []) ++
     [ JStr (lit "**Last Read**: " ++ now);
       JStr (lit "**Chapters**: " ++ dec count);
       JStr [] ] ++
     (if truthy desc then [JStr (lit "## Description"); desc; JStr []] else []) ++
     [ JStr (lit "## Chapters") ] in
   items <- py_iter chapters ;;
   ch_lines <- chapter_lines 0 items ;;
   py_join [newline] (lines ++ map JStr ch_lines))%result.

Definition build_summary `{PyRuntime} (book_id : pystr) (book chapters : json)
  (now : pystr) : result pystr :=
  (fields <- book_fields book ;;
   summary_text book_id fields chapters now)%result.

(* ================================================================== *)
(** ** Cache freshness *)
(* ================================================================== *)







(* ================================================================== *)
(** ** Commands: state, output and exits *)
(* ================================================================== *)

(** The [*.md] files of the cache directory, by stem, in the order [glob]
    yields them, and the lines printed so far. *)
Record world : Type := {
  files : list (pystr * pystr);
  stdout : list pystr
}.

(** The places where the modelled commands leave through [sys.exit(1)]. *)
Inductive exit_site : Type :=
| ExitApiError          (* [_api] without [quiet] on a failed request *)
| ExitChapterIdGiven    (* [cmd_read]: the id is a chapter id *)
| ExitBookNotFound      (* [cmd_read]: no such book *)
| ExitUnrecoverable     (* [cmd_chapter_read]: no cached book has the id *)
| ExitBookDeleted       (* [cmd_chapter_read]: the cached book is gone *)
| ExitNoChapters        (* [cmd_chapter_read]: the book has no chapters *)
| ExitAmbiguous.        (* [cmd_chapter_read]: manual fallback *)

Inductive outcome (A : Type) : Type :=
| Return (a : A)
| Exit (site : exit_site)
| Raised (e : exn).
Arguments Return {A} a.
Arguments Exit {A} site.
Arguments Raised {A} e.

Definition M (A : Type) : Type := world -> outcome A * world.

Definition ret {A} (a : A) : M A := fun w => (Return a, w).

Definition bind {A B} (m : M A) (k : A -> M B) : M B :=
  fun w =>
    match m w with
    | (Return a, w') => k a w'
    | (Exit s, w') => (Exit s, w')
    | (Raised e, w') => (Raised e, w')
    end.

Declare Scope cmd_scope.
Delimit Scope cmd_scope with cmd.
Notation "x <- e ;; k" := (bind e (fun x => k))
  (at level 61, e at next level, right associativity) : cmd_scope.
Notation "e ;; k" := (bind e (fun _ => k))
  (at level 61, right associativity) : cmd_scope.

Definition sys_exit {A} (s : exit_site) : M A := fun w => (Exit s, w).

Definition lift {A} (r : result A) : M A :=
  fun w => match r with Ok a => (Return a, w) | Raise e => (Raised e, w) end.

Definition print (line : pystr) : M unit :=
  fun w => (Return tt, {| files := files w; stdout := stdout w ++ [line] |}).

Fixpoint print_all (lines : list pystr) : M unit :=
  match lines with
  | [] => ret tt
  | l :: rest => (print l ;; print_all rest)%cmd
  end.

Fixpoint remove_file (stem : pystr) (fs : list (pystr * pystr))
  : list (pystr * pystr) :=
  match fs with
  | [] => []
  | (s, c) :: fs' =>
      if str_eqb stem s then remove_file stem fs' else (s, c) :: remove_file stem fs'
  end.

Fixpoint put_file (stem content : pystr) (fs : list (pystr * pystr))
  : list (pystr * pystr) :=
  match fs with
  | [] => [(stem, content)]
  | (s, c) :: fs' =>
      if str_eqb stem s then (s, content) :: fs' else (s, c) :: put_file stem content fs'
  end.

(** [path.exists()] and [path.read_text()] for the file [stem].md *)
Definition read_file (stem : pystr) : M (option pystr) :=
  fun w => (Return (assoc stem (files w)), w).

(** [path.unlink()] *)
Definition unlink (stem : pystr) : M unit :=
  fun w => (Return tt, {| files := remove_file stem (files w); stdout := stdout w |}).

(** [path.write_text(content)] *)
Definition write_text (stem content : pystr) : M unit :=
  fun w => (Return tt, {| files := put_file stem content (files w); stdout := stdout w |}).

(** The Remote Content Service, one function per request the commands
    make; [None] is a request that ends in an HTTP or transport error. *)
Record remote : Type := {
  api_content : pystr -> option json;            (* GET /content?id=ID *)
  api_chapter : pystr -> option json;            (* GET /chapters?id=ID *)
  api_chapter_for_agent : pystr -> option json;  (* GET /chapters?id=ID&forAgent=true *)
  api_chapters : pystr -> option json;           (* GET /chapters?contentId=ID *)
  api_chapters_for_agent : pystr -> option json  (* GET /chapters?contentId=ID&forAgent=true *)
}.

(** [_api(..., quiet=True)]: a failed request gives [None]. *)
Definition quiet (r : option json) : json :=
  match r with Some j => j | None => JNull end.

(** [_api(...)]: a failed request prints its diagnosis and exits. *)
Definition loud (r : option json) : M json :=
  match r with Some j => ret j | None => sys_exit ExitApiError end.

(** [_rebuild_book_cache(book_id, book, chapters)] at time [now]. *)
Definition _rebuild_book_cache `{PyRuntime} (now : pystr) (book_id : pystr)
  (book chapters : json) : M unit :=
  (summary <- lift (build_summary book_id book chapters now) ;;
   write_text book_id summary)%cmd.


(* ================================================================== *)
(** ** Stale chapter ids *)
(* ================================================================== *)

(** The inner loop of the scan: the title between the first two "**" of
    the last line of [content] that contains the id and starts with
    "- **". *)
Definition title_hint (chapter_id content : pystr) : option pystr :=
  fold_left
    (fun info line =>
       if contains line chapter_id && startswith line (lit "- **") then
         match list_index (split (lit "**") line) 1 with
         | Ok title_part => Some title_part
         | Raise _ => info
         end
       else info)
    (split [newline] content) None.

(** The scan over the cache files: the first file whose text contains the
    id, and the hint taken from it. *)
Fixpoint scan_cache (chapter_id : pystr) (fs : list (pystr * pystr))
  : option (pystr * option pystr) :=
  match fs with
  | [] => None
  | (stem, content) :: rest =>
      if contains content chapter_id
      then Some (stem, title_hint chapter_id content)
      else scan_cache chapter_id rest
  end.

(** The rematch loop: the first chapter whose title, lower-cased and
    trimmed, is [target_title]. *)
Fixpoint match_by_title `{PyRuntime} (target_title : pystr) (chapters : list json)
  : result (option json) :=
  match chapters with
  | [] => Ok None
  | ch :: rest =>
      (title <- py_get ch (lit "title") (JStr []) ;;
       match title with
       | JStr t =>
           if str_eqb (strip (str_lower t)) target_title then Ok (Some ch)
           else match_by_title target_title rest
       | _ => Raise AttributeError
       end)%result
  end.

(** The line of the manual-fallback listing for chapter [ch] at index [i]. *)
Definition listing_line `{PyRuntime} (i : nat) (ch : json) : result pystr :=
  (title <- py_get ch (lit "title") (JStr (lit "Untitled")) ;;
   id <- py_get ch (lit "_id") (JStr (lit "?")) ;;
   Ok (lit "    " ++ dec (i + 1) ++ lit ". " ++ py_str title ++
       lit " (id: " ++ py_str id ++ lit ")"))%result.

Fixpoint listing_lines `{PyRuntime} (i : nat) (chapters : list json)
  : result (list pystr) :=
  match chapters with
  | [] => Ok []
  | ch :: rest =>
      (l <- listing_line i ch ;;
       ls <- listing_lines (S i) rest ;;
       Ok (l :: ls))%result
  end.

Fixpoint print_listing `{PyRuntime} (i : nat) (chapters : list json) : M unit :=
  match chapters with
  | [] => ret tt
  | ch :: rest =>
      (line <- lift (listing_line i ch) ;;
       print line ;;
       print_listing (S i) rest)%cmd
  end.

(** The manual fallback: list the current chapters, rebuild the cache file,
    leave. *)
Definition manual_fallback `{PyRuntime} {A} (stamp stale_book : pystr)
  (book chapters : json) : M A :=
  (print (lit "  Could not auto-match chapter. Here are current chapters:") ;;
   items <- lift (py_iter chapters) ;;
   print_listing 0 items ;;
   print [] ;;
   print (lit "  action: Use 'chapter-read NEW_CHAPTER_ID' with one of the IDs above.") ;;
   _rebuild_book_cache stamp stale_book book chapters ;;
   sys_exit ExitAmbiguous)%cmd.

(** No cached book has the id. *)
Definition chapter_not_found {A} (chapter_id : pystr) : M A :=
  (print (lit "ERROR: Chapter not found (id: " ++ chapter_id ++ lit ")") ;;
   print [] ;;
   print (lit "  This chapter ID may be from stale cache data.") ;;
   print (lit "  action: If you have a cached book, run 'read BOOK_ID --refresh' to update it.") ;;
   print (lit "  hint: To clear book cache: rm -rf moltpad/memory/books/*") ;;
   sys_exit ExitUnrecoverable)%cmd.

(** The title search of the rematch step: it runs only with a non-empty
    title hint. *)
Definition rematch `{PyRuntime} (stale_chapter_info : option pystr)
  (chapters : json) : result (option json) :=
  match stale_chapter_info with
  | Some ((_ :: _) as title) =>
      (items <- py_iter chapters ;;
       match_by_title (strip (str_lower title)) items)%result
  | _ => Ok None
  end.

(** The branch of [cmd_chapter_read] taken when the chapter was not found:
    it returns the chapter to show and its identifier, or leaves. *)
Definition resolve_stale_id `{PyRuntime} (api : remote) (stamp : pystr)
  (chapter_id : pystr) : M (json * json) :=
  (print (lit "  Chapter ID not found, checking for stale cache...") ;;
   fs <- (fun w => (Return (files w), w)) ;;
   match scan_cache chapter_id fs with
   | Some (stale_book, stale_chapter_info) =>
       if truthy (JStr stale_book) then
         print (lit "  Found stale ID in cached book: " ++ stale_book) ;;
         print (lit "  Auto-refreshing book cache...") ;;
         unlink stale_book ;;
         let book := quiet (api_content api stale_book) in
         if negb (truthy book) then
           print (lit "ERROR: Book " ++ stale_book ++ lit " no longer exists.") ;;
           print (lit "  The book may have been deleted.") ;;
           sys_exit ExitBookDeleted
         else
           let chapters :=
             chapters_of_response (quiet (api_chapters_for_agent api stale_book)) in
           if negb (truthy chapters) then
             print (lit "ERROR: Book " ++ stale_book ++ lit " has no chapters.") ;;
             sys_exit ExitNoChapters
           else
             matched_chapter <- lift (rematch stale_chapter_info chapters) ;;
             match matched_chapter with
             | Some ch =>
                 if truthy ch then
                   found_title <- lift (py_get ch (lit "title") JNull) ;;
                   print (lit "  Found matching chapter: " ++ py_str found_title) ;;
                   found_id <- lift (py_get ch (lit "_id") JNull) ;;
                   print (lit "  New chapter ID: " ++ py_str found_id) ;;
                   print [] ;;
                   new_id <- lift (py_get ch (lit "_id") (JStr chapter_id)) ;;
                   _rebuild_book_cache stamp stale_book book chapters ;;
                   ret (ch, new_id)
                 else manual_fallback stamp stale_book book chapters
             | None => manual_fallback stamp stale_book book chapters
             end
       else chapter_not_found chapter_id
   | None => chapter_not_found chapter_id
   end)%cmd.

(** [cmd_chapter_read] *)
Definition cmd_chapter_read `{PyRuntime} (api : remote) (stamp : pystr)
  (chapter_id : pystr) : M unit :=
  (let chapter := quiet (api_chapter_for_agent api chapter_id) in
   found <-
     (if negb (truthy chapter) then resolve_stale_id api stamp chapter_id
      else ret (chapter, JStr chapter_id)) ;;
   let '(chapter, chapter_id) := found in
   ch_title <- lift (py_get chapter (lit "title") (JStr (lit "Untitled"))) ;;
   ch_content <- lift (py_get chapter (lit "content") (JStr [])) ;;
   content_id <- lift (py_get chapter (lit "contentId") (JStr (lit "?"))) ;;
   order_index <- lift (py_get chapter (lit "orderIndex") (JInt 0)) ;;
   char_count <- lift (py_len ch_content) ;;
   print (lit "OK: Chapter retrieved") ;;
   print (lit "  chapter_id: " ++ py_str chapter_id) ;;
   print (lit "  book_id: " ++ py_str content_id) ;;
   print (lit "  title: " ++ py_str ch_title) ;;
   print (lit "  order_index: " ++ py_str order_index) ;;
   print (lit "  character_count: " ++ dec char_count) ;;
   print [] ;;
   print (lit "--- FULL CONTENT ---") ;;
   print (py_str ch_content) ;;
   print (lit "--- END CONTENT ---") ;;
   print [] ;;
   print (lit "  hint: To update this chapter, use: chapter-update " ++
          py_str chapter_id ++ lit " --content " ++ dquote ++ lit "new content" ++
          dquote))%cmd.

(* ================================================================== *)
(** ** The order index of a new chapter *)
(* ================================================================== *)

(** [_order_value(ch)]: a [bool] is an [int] for [isinstance], with
    [True] counting as 1 and [False] as 0. *)
Definition _order_value (ch : json) : result Z :=
  (v <- py_get ch (lit "orderIndex") JNull ;;
   Ok (match v with
       | JInt z => z
       | JBool b => if b then 1 else 0
       | _ => -1
       end)%Z)%result.

(** [max(items, key=_order_value)] after the first item: the item kept is
    replaced only by one with a strictly larger key. *)
Fixpoint max_by_order (best : json) (best_key : Z) (rest : list json)
  : result json :=
  match rest with
  | [] => Ok best
  | ch :: rest' =>
      (k <- _order_value ch ;;
       if (best_key <? k)%Z then max_by_order ch k rest'
       else max_by_order best best_key rest')%result
  end.

Definition max_order (items : list json) : result json :=
  match items with
  | [] => Raise ValueError
  | ch :: rest => (k <- _order_value ch ;; max_by_order ch k rest)%result
  end.

(** Step 3 of [cmd_chapter_add]: the [orderIndex] sent with the new chapter,
    from the response [existing] of the chapters request.  The hints it
    prints and the state file it saves in between do not assign
    [order_index]. *)
Definition chapter_add_order_index (existing : json) : result Z :=
  let ch_list := chapters_of_response existing in
  if truthy ch_list then
    (items <- py_iter ch_list ;;
     last_ch <- max_order items ;;
     last_value <- _order_value last_ch ;;
     count <- py_len ch_list ;;
     Ok (Z.max last_value (Z.of_nat count - 1) + 1)%Z)%result
  else Ok 0%Z.

(* ================================================================== *)
(** ** A runtime to evaluate examples with *)
(* ================================================================== *)

Module Sample.

(** Formatting of the values whose text is easy to state; a float, a list
    and a dict are shown by their type name only. *)
Definition format (x : json) : pystr :=
  match x with
  | JStr s => s
  | JNull => lit "None"
  | JBool b => if b then lit "True" else lit "False"
  | JInt z => dec_Z z
  | _ => lit "<" ++ type_name x ++ lit ">"
  end.

Definition digit (c : N) : option Z :=
  if ((48 <=? c) && (c <=? 57))%N then Some (Z.of_N c - 48)%Z else None.

Fixpoint number (acc : Z) (s : pystr) : option Z :=
  match s with
  | [] => Some acc
  | c :: s' =>
      match digit c with
      | Some d => number (10 * acc + d)%Z s'
      | None => None
      end
  end.

Definition leap (y : Z) : bool :=
  ((y mod 4 =? 0) && (negb (y mod 100 =? 0) || (y mod 400 =? 0)))%Z.

Definition days_in_month (y m : Z) : Z :=
  (if m =? 2 then (if leap y then 29 else 28)
   else if (m =? 4) || (m =? 6) || (m =? 9) || (m =? 11) then 30 else 31)%Z.

(** Days from 1970-01-01 to the civil date [y]-[m]-[d]. *)
Definition days_from_civil (y m d : Z) : Z :=
  (let y' := if m <=? 2 then y - 1 else y in
   let era := y' / 400 in
   let yoe := y' - era * 400 in
   let doy := (153 * (if 2 <? m then m - 3 else m + 9) + 2) / 5 + d - 1 in
   let doe := yoe * 365 + yoe / 4 - yoe / 100 + doy in
   era * 146097 + doe - 719468)%Z.

(** Timestamps of the shape YYYY-MM-DDTHH:MM:SS, alone (naive) or followed
    by +00:00 (aware): the shape the program writes, once its Z is
    replaced. *)
Definition parse_timestamp (s : pystr) : option datetime :=
  match number 0 (firstn 4 s), number 0 (firstn 2 (skipn 5 s)),
        number 0 (firstn 2 (skipn 8 s)), number 0 (firstn 2 (skipn 11 s)),
        number 0 (firstn 2 (skipn 14 s)), number 0 (firstn 2 (skipn 17 s)) with
  | Some y, Some m, Some d, Some hh, Some mm, Some ss =>
      if (str_eqb (firstn 1 (skipn 4 s)) (lit "-") &&
          str_eqb (firstn 1 (skipn 7 s)) (lit "-") &&
          str_eqb (firstn 1 (skipn 10 s)) (lit "T") &&
          str_eqb (firstn 1 (skipn 13 s)) (lit ":") &&
          str_eqb (firstn 1 (skipn 16 s)) (lit ":") &&
          (19 <=? List.length s)%nat &&
          (1 <=? y)%Z && (1 <=? m)%Z && (m <=? 12)%Z && (1 <=? d)%Z &&
          (d <=? days_in_month y m)%Z && (hh <? 24)%Z && (mm <? 60)%Z &&
          (ss <? 60)%Z)%bool
      then
        let us :=
          ((((days_from_civil y m d * 24 + hh) * 60 + mm) * 60 + ss) * 1000000)%Z in
        if str_eqb (skipn 19 s) [] then Some (Naive us)
        else if str_eqb (skipn 19 s) (lit "+00:00") then Some (Aware us)
        else None
      else None
  | _, _, _, _, _, _ => None
  end.

Definition runtime : PyRuntime.
Proof.
  refine {| str_lower := map ascii_lower;
            py_str := format;
            fromisoformat := parse_timestamp |}.
  - intros s _. reflexivity.
  - intros s. reflexivity.
Defined.

End Sample.

(* ================================================================== *)
(** ** Vocabulary of the statements *)
(* ================================================================== *)

Definition is_digit (c : N) : Prop := (48 <= c <= 57)%N.

Definition hashable (x : json) : Prop :=
  match x with
  | JList _ | JDict _ => False
  | _ => True
  end.

(** The structured type a raw tag stands for, as the specification words
    it: "thought" is "monolog", every other tag is the type of its name. *)
Definition type_for_tag (raw_tag : pystr) : pystr :=
  if str_eqb raw_tag (lit "thought") then lit "monolog" else raw_tag.

Definition all_ascii (s : pystr) : bool := forallb (fun c => (c <? 128)%N) s.

(** Message [m] is about segment [i]: it starts with "segments[i]: ". *)
Definition attributed (i : nat) (m : pystr) : bool :=
  startswith m (seg_prefix i ++ lit ": ").

Definition about (j : nat) (m : pystr) : Prop :=
  exists r, m = seg_prefix j ++ lit ": " ++ r.

(** A raw-tag violation about segment [k]. *)
Definition raw_tag_violation (k : nat) (m : pystr) : bool :=
  startswith m (seg_prefix k ++ lit ": text contains raw '[").

(** A dialogue-dash violation about segment [k]. *)
Definition dash_violation (k : nat) (m : pystr) : bool :=
  startswith m (seg_prefix k ++ lit ": text starts with dialogue dash '").

(** What the narrative check appends for a segment of type [s]. *)
Definition narrative_list `{PyRuntime} (prefix s : pystr) (d : list (pystr * json))
  : list pystr :=
  if dict_has d (lit "narrative") then
    if negb (existsb (str_eqb s) NARRATIVE_TYPES)
    then [msg_narrative_unsupported prefix (JStr s)]
    else if not_nonempty_str (dict_get d (lit "narrative") JNull)
         then [msg_bad_narrative prefix] else []
  else [].

(** What the raw-tag loop appends for the text [t]. *)
Definition raw_tag_list `{PyRuntime} (prefix t : pystr) : list pystr :=
  match find (has_raw_tag t) _RAW_TAGS with
  | Some raw_tag => [msg_raw_tag prefix raw_tag (type_for_tag raw_tag)]
  | None => []
  end.

(** What the checks on a non-empty string text append. *)
Definition content_list `{PyRuntime} (prefix : pystr) (stype text : json)
  : list pystr :=
  match text with
  | JStr ((_ :: _) as t) => raw_tag_list prefix t ++ dash_errors prefix stype t
  | _ => []
  end.

Definition scene_break_list (prefix : pystr) (d : list (pystr * json)) : list pystr :=
  (if dict_has d (lit "text") then [msg_scene_break_text prefix] else []) ++
  (if dict_has d (lit "narrative") then [msg_scene_break_narrative prefix] else []).

Definition head_ok (s : pystr) : bool :=
  match s with
  | [] => true
  | c :: _ => negb (isspace c)
  end.

(** The part of a preview taken from the content. *)
Definition preview_body (ch_content : pystr) : pystr :=
  strip (replace_char newline [space] (firstn 200 ch_content)).

(** The [orderIndex] of a chapter as the computation reads it: the integer
    it holds ([True] is 1 and [False] is 0), or -1 without one. *)
Definition order_of (ch : json) : Z :=
  match ch with
  | JDict d =>
      match dict_get d (lit "orderIndex") JNull with
      | JInt z => z
      | JBool b => if b then 1 else 0
      | _ => -1
      end
  | _ => -1
  end.

Definition is_dict (x : json) : Prop :=
  match x with JDict _ => True | _ => False end.

(** The world after printing [lines]. *)
Definition printed (w : world) (lines : list pystr) : world :=
  {| files := files w; stdout := stdout w ++ lines |}.




(** No chapter of [chapters] has the title [target], once lower-cased and
    trimmed; every chapter is an object whose title, if any, is a string. *)
Definition no_title_match `{PyRuntime} (target : pystr) (chapters : list json)
  : Prop :=
  forall c, In c chapters ->
    exists cd t, c = JDict cd /\
                 dict_get cd (lit "title") (JStr []) = JStr t /\
                 strip (str_lower t) <> target.

Definition found_stale (stale_book : pystr) : list pystr :=
  [ lit "  Chapter ID not found, checking for stale cache...";
    lit "  Found stale ID in cached book: " ++ stale_book;
    lit "  Auto-refreshing book cache..." ].

(** The world in which the fetches of the resolver run: the three opening
    lines are printed and the stale summary is deleted. *)
Definition refreshing (w : world) (stale_book : pystr) : world :=
  {| files := remove_file stale_book (files w);
     stdout := stdout w ++ found_stale stale_book |}.

(** What the resolver does once the rematch has run. *)
Definition conclude `{PyRuntime} (stamp chapter_id stale_book : pystr)
  (book chapters : json) (matched_chapter : option json) : M (json * json) :=
  match matched_chapter with
  | Some ch =>
      if truthy ch then
        (found_title <- lift (py_get ch (lit "title") JNull) ;;
         print (lit "  Found matching chapter: " ++ py_str found_title) ;;
         found_id <- lift (py_get ch (lit "_id") JNull) ;;
         print (lit "  New chapter ID: " ++ py_str found_id) ;;
         print [] ;;
         new_id <- lift (py_get ch (lit "_id") (JStr chapter_id)) ;;
         _rebuild_book_cache stamp stale_book book chapters ;;
         ret (ch, new_id))%cmd
      else manual_fallback stamp stale_book book chapters
  | None => manual_fallback stamp stale_book book chapters
  end.

Definition not_found_lines (chapter_id : pystr) : list pystr :=
  [ lit "  Chapter ID not found, checking for stale cache...";
    lit "ERROR: Chapter not found (id: " ++ chapter_id ++ lit ")";
    [];
    lit "  This chapter ID may be from stale cache data.";
    lit "  action: If you have a cached book, run 'read BOOK_ID --refresh' to update it.";
    lit "  hint: To clear book cache: rm -rf moltpad/memory/books/*" ].

(* ================================================================== *)
(** ** Example documents and scenarios *)
(* ================================================================== *)

Definition obj (fields : list (string * json)) : json :=
  JDict (map (fun kv => (lit (fst kv), snd kv)) fields).

Definition str (s : string) : json := JStr (lit s).

Definition dialogue_segments : list json :=
  [ obj [("type", str "dialogue"); ("text", str "Hello");
         ("narrative", str "she said")]%string ].

Definition dialogue_document : json :=
  obj [("title", str "Ch1"); ("segments", JList dialogue_segments)]%string.



Definition scene_break_document : json :=
  obj [("title", str "Ch1");
       ("segments", JList [obj [("type", str "scene_break"); ("text", str "x")]])]%string.

Definition two_field_scene_break : list (pystr * json) :=
  [(lit "type", str "scene_break"); (lit "text", str "x");
   (lit "narrative", str "y")].

Definition indented_dash_document : json :=
  obj [("title", str "Ch1");
       ("segments", JList [obj [("type", str "text"); ("text", str "  - hi")]])]%string.

Definition unhashable_type_document : json :=
  obj [("title", str "Ch1"); ("segments", JList [obj [("type", JList [])]])]%string.

Definition long_chapter : json :=
  JDict [(lit "title", str "One"); (lit "_id", str "c1");
         (lit "content", JStr (repeat 97%N 201))].

Definition sample_summary : pystr :=
  lit "# Book Summary: My Book" ++ [newline] ++
  lit "**Book ID**: B" ++ [newline] ++
  lit "**Last Read**: 2024-01-01T00:00:00Z" ++ [newline] ++
  lit "## Chapters" ++ [newline] ++
  lit "- **Intro** (id: X): Hello world".

Definition three_chapters : json :=
  JDict [(lit "chapters",
          JList [JDict [(lit "orderIndex", JInt 5)];
                 JDict [(lit "title", str "untitled")];
                 JDict [(lit "orderIndex", JFloat 0)]])].

Definition stamp_2024 : pystr := lit "2024-01-01T00:00:00Z".

Definition cached_world : world :=
  {| files := [(lit "A", lit "nothing"); (lit "B", sample_summary)];
     stdout := [] |}.

Definition my_book : json :=
  obj [("title", str "My Book"); ("creator", obj [("name", str "Ann")])]%string.

Definition chapter (title id content : string) : json :=
  obj [("title", str title); ("_id", str id); ("content", str content)]%string.

(** A service that no longer knows chapter X and answers [chapters] for the
    chapters of book B. *)
Definition service (chapters : list json) : remote :=
  {| api_content := fun id => if str_eqb id (lit "B") then Some my_book else None;
     api_chapter := fun _ => None;
     api_chapter_for_agent := fun _ => None;
     api_chapters := fun _ => None;
     api_chapters_for_agent := fun _ => Some (obj [("chapters", JList chapters)]%string) |}.

Definition renamed_chapters : list json :=
  [chapter "Prologue" "P" "Hello world"; chapter "Two" "Z" "abc"].



(* ================================================================== *)
(** ** More of the program, and the vocabulary of its properties *)
(* ================================================================== *)

(** *** Well-formed chapters *)

(** A string with a character that is not white space. *)
Definition nonblank_str (x : json) : Prop :=
  exists t, x = JStr t /\ strip t <> [].

(** The text [t] of a segment of type [s] passes the content checks: no raw
    tag of [_RAW_TAGS], open or closed, in any case; no dialogue dash at the
    start of a "text" segment. *)
Definition clean_text `{PyRuntime} (s t : pystr) : Prop :=
  (forall raw_tag, In raw_tag _RAW_TAGS -> has_raw_tag t raw_tag = false) /\
  (s = lit "text" ->
   startswith t (emdash ++ lit " ") = false /\ startswith t (lit "- ") = false).

(** A segment as the data model wants it: an object of one of the ten kinds;
    a scene break with neither text nor narrative; any other kind with a
    non-blank clean text, and a narrative only on the four speech kinds,
    non-blank when present. *)
Definition well_formed_segment `{PyRuntime} (seg : json) : Prop :=
  exists d s,
    seg = JDict d /\
    dict_get d (lit "type") JNull = JStr s /\
    In s VALID_SEGMENT_TYPES /\
    if str_eqb s (lit "scene_break")
    then dict_has d (lit "text") = false /\ dict_has d (lit "narrative") = false
    else (exists t, dict_get d (lit "text") JNull = JStr t /\ strip t <> [] /\
                    clean_text s t) /\
         (dict_has d (lit "narrative") = true ->
          In s NARRATIVE_TYPES /\ nonblank_str (dict_get d (lit "narrative") JNull)).

(** The first segment is a heading whose text, trimmed and lower-cased, is
    or contains the title, trimmed and lower-cased. *)
Definition repeats_title `{PyRuntime} (title : json) (segs : list json) : Prop :=
  exists first rest ftext t,
    segs = JDict first :: rest /\
    dict_get first (lit "type") JNull = JStr (lit "heading") /\
    dict_get first (lit "text") JNull = JStr ftext /\
    title = JStr t /\ strip t <> [] /\
    (str_lower (strip ftext) = str_lower (strip t) \/
     contains (str_lower (strip ftext)) (str_lower (strip t)) = true).

Definition well_formed_chapter `{PyRuntime} (data : json) : Prop :=
  exists d segs,
    data = JDict d /\
    nonblank_str (dict_get d (lit "title") JNull) /\
    dict_get d (lit "segments") JNull = JList segs /\
    segs <> [] /\
    Forall well_formed_segment segs /\
    ~ repeats_title (dict_get d (lit "title") JNull) segs.

(** A violation that says the kind [s] of segment [k] takes no narrative. *)
Definition narrative_unsupported (s : pystr) (k : nat) (m : pystr) : bool :=
  startswith m (seg_prefix k ++ lit ": '" ++ s ++
                lit "' does not support 'narrative' field").

(** The violation of the closing check, as a kind. *)
Definition heading_violation (k : nat) (m : pystr) : bool :=
  startswith m (seg_prefix k ++ lit ": heading text duplicates").

(** *** More example documents *)

(** The violations of a document, for the examples. *)
Definition violations_of (data : json) : list pystr :=
  match @_validate_chapter_json Sample.runtime data with
  | Ok errors => errors
  | Raise _ => []
  end.

Definition segments_of (data : json) : list json :=
  match data with
  | JDict d => match dict_get d (lit "segments") JNull with
               | JList segs => segs
               | _ => []
               end
  | _ => []
  end.

Definition fields_of (data : json) : list (pystr * json) :=
  match data with JDict d => d | _ => [] end.

(** A good first segment, then a number in place of a segment, a segment
    without type, one of an unknown type with more fields, and an emphasis
    with a narrative. *)
Definition mixed_document : json :=
  obj [("title", str "Ch1");
       ("segments",
        JList [obj [("type", str "text"); ("text", str "Once")];
               JInt 7;
               obj [("text", str "no type")];
               obj [("type", str "poem"); ("text", str "[shout]x[/shout]");
                    ("narrative", JInt 1)];
               obj [("type", str "emphasis"); ("text", str "really");
                    ("narrative", str "he said")]])]%string.

(** The same segments under another title, after a first segment of
    another kind. *)
Definition other_document : json :=
  obj [("title", str "Ch2");
       ("segments",
        JList [obj [("type", str "scene_break")];
               JInt 7;
               obj [("text", str "no type")];
               obj [("type", str "poem"); ("text", str "[shout]x[/shout]");
                    ("narrative", JInt 1)]])]%string.

Definition repeated_title_document : json :=
  obj [("title", str " The End ");
       ("segments",
        JList [obj [("type", str "heading"); ("text", str "Chapter 9: the end")];
               obj [("type", str "text"); ("text", str "Done.")]])]%string.

(** *** Rendering *)

(** A segment the renderer takes: an object with a "type" entry; when the
    type is "text", its text (the empty string when absent) is a string. *)
Definition renderable (seg : json) : Prop :=
  exists d,
    seg = JDict d /\
    dict_has d (lit "type") = true /\
    (dict_get d (lit "type") JNull = JStr (lit "text") ->
     is_str (dict_get d (lit "text") (JStr [])) = true).

(** The blank line between two fragments of the markup. *)
Definition paragraph_break : pystr := [newline; newline].

Definition plain (text : string) : json :=
  obj [("type", str "text"); ("text", str text)]%string.

(** *** The cache under the commands *)

(** A computation that leaves the cache files as they are, however it
    ends. *)
Definition keeps_files {A} (m : M A) : Prop :=
  forall w o w', m w = (o, w') -> files w' = files w.

(** A computation that leaves alone every cache file but that of [stem],
    however it ends. *)
Definition touches_only {A} (stem : pystr) (m : M A) : Prop :=
  forall w o w', m w = (o, w') ->
    forall s, s <> stem -> assoc s (files w') = assoc s (files w).







(** The world after [chapter-read X] when the chapters of book B were
    renamed, and when the service answers nothing. *)
Definition fallback_world : world :=
  snd (@cmd_chapter_read Sample.runtime (service renamed_chapters) stamp_2024
         (lit "X") cached_world).


(** *** The title hint *)

(** The character [x] does not occur in [s]. *)
Definition no_char (x : N) (s : pystr) : bool :=
  forallb (fun c => negb (c =? x)%N) s.

(** A line the inner loop of the cache scan takes its hint from. *)
Definition hint_line (chapter_id line : pystr) : bool :=
  contains line chapter_id && startswith line (lit "- **").

(** *** Requests: [_api] *)

Definition BASE_URL : pystr := lit "https://moltpad.space/api".

(** What [urlopen] does with one request: it gives a response, whose
    decoded body is [raw], or raises [HTTPError] with a status code and a
    body, or raises [URLError] with a reason (here as it is printed).  Other
    failures of the transport are left out. *)
Inductive reply : Type :=
| Body (raw : pystr)
| HttpError (code : Z) (err_body : pystr)
| UrlError (reason : pystr).

(** The requests made and the seconds slept by one call. *)
Record traffic : Type := {
  sent : nat;
  slept : Z
}.

(** [e.code in (500, 502, 503, 504)] *)
Definition transient_code (code : Z) : bool :=
  existsb (Z.eqb code) [500; 502; 503; 504]%Z.

(** The two lines printed for the status [code] of a final HTTP error. *)
Definition http_hint (retries code : Z) : list pystr :=
  if (code =? 404)%Z then
    [ lit "  hint: The resource was not found. Verify the ID you passed is correct.";
      lit "  action: STOP. Report this error to your human. Do NOT try alternative approaches." ]
  else if (code =? 400)%Z then
    [ lit "  hint: Bad request. A required parameter may be missing or malformed.";
      lit "  action: STOP. Check the command arguments and retry with correct values." ]
  else if (code =? 403)%Z then
    [ lit "  hint: Permission denied. You may not have access to this resource.";
      lit "  action: STOP. Report this to your human." ]
  else if (500 <=? code)%Z then
    [ lit "  hint: Server error (retried " ++ dec_Z retries ++
      lit " time(s)). The API may be temporarily down.";
      lit "  action: STOP. Try again later during your next heartbeat cycle." ]
  else
    [ lit "  hint: Unexpected error.";
      lit "  action: STOP. Report this error to your human. Do NOT invent workarounds." ].

Section Requests.
Context `{PyRuntime}.

(** [json.loads] on a text; [None] when it raises [JSONDecodeError]. *)
Variable loads : pystr -> option json.

(** [json.loads(raw) if raw.strip() else {}] *)
Definition parse_body (raw : pystr) : result json :=
  match strip raw with
  | [] => Ok (JDict [])
  | _ =>
      match loads raw with
      | Some j => Ok j
      | None => Raise ValueError
      end
  end.

(** The [try] block of the report of an HTTP error: the message of the
    error body when it is JSON, its first 200 characters when it is not. *)
Definition error_detail (err_body : pystr) : M unit :=
  match loads err_body with
  | Some err =>
      (fallback <- lift (py_get err (lit "message") (JStr (firstn 200 err_body))) ;;
       msg <- lift (py_get err (lit "error") fallback) ;;
       print (lit "  message: " ++ py_str msg))%cmd
  | None => print (lit "  body: " ++ firstn 200 err_body)
  end.

(** The final report of an HTTP error. *)
Definition http_error_report (method path : pystr) (retries code : Z)
  (err_body : pystr) : M json :=
  (print (lit "ERROR: " ++ method ++ lit " " ++ path ++ lit " returned " ++
          dec_Z code) ;;
   error_detail err_body ;;
   print_all (http_hint retries code) ;;
   sys_exit ExitApiError)%cmd.

(** The final report of a request that did not reach the service. *)
Definition url_error_report (path reason : pystr) : M json :=
  (print (lit "ERROR: Cannot reach " ++ BASE_URL ++ path) ;;
   print (lit "  reason: " ++ reason) ;;
   print (lit "  action: STOP. The API is unreachable. Try again later. Do NOT construct manual requests.") ;;
   sys_exit ExitApiError)%cmd.

(** The loop [for attempt in range(1 + retries)] with [n] iterations left.
    [replies k] is what the request number [k] of the call meets.  When the
    loop runs out the function returns [None]. *)
Fixpoint api_attempts (method path : pystr) (quiet : bool) (retries : Z)
  (replies : nat -> reply) (n : nat) (attempt : Z) (t : traffic) (w : world)
  : outcome json * world * traffic :=
  match n with
  | O => (Return JNull, w, t)
  | S n' =>
      let t1 := {| sent := S (sent t); slept := slept t |} in
      let again :=
        api_attempts method path quiet retries replies n' (attempt + 1)%Z
          {| sent := S (sent t); slept := (slept t + 2)%Z |} w in
      match replies (sent t) with
      | Body raw =>
          match parse_body raw with
          | Ok j => (Return j, w, t1)
          | Raise e => (Raised e, w, t1)
          end
      | HttpError code err_body =>
          if quiet then (Return JNull, w, t1)
          else if transient_code code && (attempt <? retries)%Z then again
          else (http_error_report method path retries code err_body w, t1)
      | UrlError reason =>
          if quiet then (Return JNull, w, t1)
          else if (attempt <? retries)%Z then again
          else (url_error_report path reason w, t1)
      end
  end.

(** [_api(method, path, data, quiet, retries)] against [replies]. *)
Definition _api (method path : pystr) (quiet : bool) (retries : Z)
  (replies : nat -> reply) (w : world) : outcome json * world * traffic :=
  api_attempts method path quiet retries replies (Z.to_nat (1 + retries)) 0%Z
    {| sent := 0; slept := 0%Z |} w.

(** What the call ends with when request [r] is its last. *)
Definition answer (method path : pystr) (retries : Z) (r : reply) (w : world)
  : outcome json * world :=
  match r with
  | Body raw =>
      match parse_body raw with
      | Ok j => (Return j, w)
      | Raise e => (Raised e, w)
      end
  | HttpError code err_body => http_error_report method path retries code err_body w
  | UrlError reason => url_error_report path reason w
  end.

End Requests.

(** A reply after which a call that is not quiet asks again, while it has
    attempts left. *)
Definition transient (r : reply) : bool :=
  match r with
  | Body _ => false
  | HttpError code _ => transient_code code
  | UrlError _ => true
  end.

(** A small [json.loads] for the examples. *)
Definition sample_loads (raw : pystr) : option json :=
  assoc raw [(lit "{}", JDict []); (lit "[]", JList []); (lit "null", JNull);
             (lit "7", JInt 7)].

(** A service that is down twice and then answers. *)
Definition flaky (k : nat) : reply :=
  match k with
  | 0 => HttpError 503 (lit "busy")
  | 1 => UrlError (lit "timed out")
  | _ => Body (lit "[]")
  end.

(** A service that does not know the resource. *)
Definition missing (k : nat) : reply := HttpError 404 (lit "{}").

Definition quiet_world : world := {| files := []; stdout := [] |}.

(** *** The opening of [cmd_chapter_add] and [cmd_contribute] *)




(* ================================================================== *)
(** * Properties *)
(* ================================================================== *)

(** ** Strings *)

Lemma str_eqb_refl (a : pystr) : str_eqb a a = true.
Proof.
  induction a as [|x a IH]; simpl; [reflexivity|].
  now rewrite N.eqb_refl, IH.
Qed.

Lemma str_eqb_eq (a b : pystr) : str_eqb a b = true <-> a = b.
Proof.
  split; [|intros ->; apply str_eqb_refl].
  revert b; induction a as [|x a IH]; intros [|y b]; simpl; try discriminate; auto.
  intros H. apply andb_true_iff in H as [Hx Hab].
  apply N.eqb_eq in Hx. f_equal; auto.
Qed.

Lemma str_eqb_neq (a b : pystr) : str_eqb a b = false <-> a <> b.
Proof.
  rewrite <- str_eqb_eq. destruct (str_eqb a b); split; congruence.
Qed.

Lemma startswith_spec (s p : pystr) :
  startswith s p = true <-> exists r, s = p ++ r.
Proof.
  revert s; induction p as [|x p IH]; intros [|y s]; simpl.
  - split; [intros _; now exists [] | reflexivity].
  - split; [intros _; now exists (y :: s) | reflexivity].
  - split; [discriminate|]. intros [r Hr]; discriminate.
  - rewrite andb_true_iff, N.eqb_eq, IH. split.
    + intros [-> [r ->]]. now exists r.
    + intros [r Hr]. injection Hr as -> ->. eauto.
Qed.

Lemma startswith_app (p r : pystr) : startswith (p ++ r) p = true.
Proof. apply startswith_spec. eauto. Qed.

Lemma startswith_common (p a b : pystr) :
  startswith (p ++ a) (p ++ b) = startswith a b.
Proof.
  induction p as [|x p IH]; simpl; [reflexivity|].
  now rewrite N.eqb_refl, IH.
Qed.

Lemma startswith_nil (s : pystr) : startswith s [] = true.
Proof. destruct s; reflexivity. Qed.

Lemma contains_startswith (s sub : pystr) :
  startswith s sub = true -> contains s sub = true.
Proof. destruct s; simpl; intros ->; reflexivity. Qed.

Lemma contains_nil (sub : pystr) : contains [] sub = startswith [] sub.
Proof. destruct sub; reflexivity. Qed.

Lemma contains_cons (c : N) (s sub : pystr) :
  contains (c :: s) sub = startswith (c :: s) sub || contains s sub.
Proof. reflexivity. Qed.

Lemma contains_spec (s sub : pystr) :
  contains s sub = true <-> exists a b, s = a ++ sub ++ b.
Proof.
  induction s as [|c s IH].
  - rewrite contains_nil, startswith_spec. split.
    + intros [r Hr]. exists [], r. exact Hr.
    + intros [a [b Hab]]. destruct a; [|discriminate]. eauto.
  - rewrite contains_cons, orb_true_iff, startswith_spec, IH. split.
    + intros [[r Hr] | [a [b Hab]]].
      * exists [], r. exact Hr.
      * exists (c :: a), b. simpl. now rewrite Hab.
    + intros [[|x a] [b Hab]].
      * left. exists b. exact Hab.
      * right. injection Hab as _ Hs. eauto.
Qed.

(** Decimal rendering is injective and made of digits. *)

Lemma uint_codes_digits (d : Decimal.uint) : Forall is_digit (uint_codes d).
Proof.
  induction d; simpl; constructor; auto; unfold is_digit; lia.
Qed.

Lemma uint_codes_inj (d e : Decimal.uint) :
  uint_codes d = uint_codes e -> d = e.
Proof.
  revert e; induction d; intros e; destruct e; simpl; intros H;
    try discriminate; try reflexivity;
    injection H as H; f_equal; auto.
Qed.

Lemma dec_digits (n : nat) : Forall is_digit (dec n).
Proof. apply uint_codes_digits. Qed.

Lemma dec_inj (n m : nat) : dec n = dec m -> n = m.
Proof.
  intros H. apply Unsigned.to_uint_inj, uint_codes_inj, H.
Qed.

(** Two runs of digits, each closed by the same non-digit, that start equal
    strings are equal. *)
Lemma digits_delimited (c : N) (a b ra rb : pystr) :
  ~ is_digit c -> Forall is_digit a -> Forall is_digit b ->
  a ++ c :: ra = b ++ c :: rb -> a = b /\ ra = rb.
Proof.
  intros Hc Ha; revert b; induction Ha as [|x a Hx Ha IH]; intros b Hb H.
  - destruct Hb as [|y b Hy Hb]; simpl in H.
    + injection H as ->. auto.
    + injection H as -> _. contradiction.
  - destruct Hb as [|y b Hy Hb]; simpl in H.
    + injection H as -> _. contradiction.
    + injection H as -> H. destruct (IH _ Hb H) as [-> ->]. auto.
Qed.

Lemma seg_prefix_inj (i j : nat) (a b : pystr) :
  seg_prefix i ++ a = seg_prefix j ++ b -> i = j /\ a = b.
Proof.
  unfold seg_prefix. rewrite <- !app_assoc.
  intros H. apply app_inv_head in H.
  change (lit "]" ++ a) with (93%N :: a) in H.
  change (lit "]" ++ b) with (93%N :: b) in H.
  apply digits_delimited in H; auto using dec_digits.
  - destruct H as [H ->]. split; [now apply dec_inj | reflexivity].
  - unfold is_digit. lia.
Qed.

(** ** Validation: the shape of the result *)

Lemma rbind_ok {A B} (r : result A) (k : A -> result B) (b : B) :
  rbind r k = Ok b -> exists a, r = Ok a /\ k a = Ok b.
Proof. destruct r; simpl; [eauto | discriminate]. Qed.

Lemma dict_has_index (d : list (pystr * json)) (k : pystr) (default : json) :
  dict_has d k = true -> dict_index d k = Ok (dict_get d k default).
Proof.
  unfold dict_has, dict_index, dict_get. destruct (assoc k d); [reflexivity | discriminate].
Qed.

Lemma tag_to_type_lookup (raw_tag : pystr) :
  In raw_tag _RAW_TAGS ->
  dict_index _TAG_TO_TYPE raw_tag = Ok (type_for_tag raw_tag).
Proof.
  unfold _RAW_TAGS. simpl.
  intros [<- | [<- | [<- | [<- | [<- | [<- | []]]]]]]; reflexivity.
Qed.

Lemma raw_tag_errors_eq `{PyRuntime} (prefix text : pystr) :
  raw_tag_errors prefix text =
  Ok match find (has_raw_tag text) _RAW_TAGS with
     | Some raw_tag => [msg_raw_tag prefix raw_tag (type_for_tag raw_tag)]
     | None => []
     end.
Proof.
  unfold raw_tag_errors. destruct (find (has_raw_tag text) _RAW_TAGS) as [tag|] eqn:E.
  - apply find_some in E as [Hin _]. now rewrite (tag_to_type_lookup _ Hin).
  - reflexivity.
Qed.

Lemma narrative_errors_eq `{PyRuntime} (prefix s : pystr) (d : list (pystr * json)) :
  narrative_errors prefix (JStr s) d =
  Ok (if dict_has d (lit "narrative") then
        if negb (existsb (str_eqb s) NARRATIVE_TYPES)
        then [msg_narrative_unsupported prefix (JStr s)]
        else if not_nonempty_str (dict_get d (lit "narrative") JNull)
             then [msg_bad_narrative prefix] else []
      else []).
Proof.
  unfold narrative_errors. destruct (dict_has d (lit "narrative")) eqn:E; [|reflexivity].
  cbn [set_contains rbind].
  destruct (negb (existsb (str_eqb s) NARRATIVE_TYPES)); [reflexivity|].
  now rewrite (dict_has_index _ _ JNull E).
Qed.

Lemma content_errors_eq `{PyRuntime} (prefix : pystr) (stype text : json) :
  content_errors prefix stype text =
  Ok match text with
     | JStr ((_ :: _) as t) =>
         match find (has_raw_tag t) _RAW_TAGS with
         | Some raw_tag => [msg_raw_tag prefix raw_tag (type_for_tag raw_tag)]
         | None => []
         end ++ dash_errors prefix stype t
     | _ => []
     end.
Proof.
  destruct text as [| | | |[|c t]| |]; try reflexivity.
  unfold content_errors. now rewrite raw_tag_errors_eq.
Qed.

Lemma segment_errors_scene_break `{PyRuntime} (i : nat) (d : list (pystr * json)) :
  dict_get d (lit "type") JNull = JStr (lit "scene_break") ->
  segment_errors i (JDict d) =
    Ok ((if dict_has d (lit "text")
         then [msg_scene_break_text (seg_prefix i)] else []) ++
        (if dict_has d (lit "narrative")
         then [msg_scene_break_narrative (seg_prefix i)] else [])).
Proof.
  intros Ht. unfold segment_errors. rewrite Ht. reflexivity.
Qed.

(** Validation of a segment returns normally as soon as its "type", when
    there is one, is hashable. *)
Lemma segment_errors_returns `{PyRuntime} (i : nat) (seg : json) :
  match seg with
  | JDict d => hashable (dict_get d (lit "type") JNull)
  | _ => True
  end ->
  exists e, segment_errors i seg = Ok e.
Proof.
  destruct seg as [| | | | | |d]; try (intros _; eexists; reflexivity).
  intros Hh. unfold segment_errors.
  destruct (dict_get d (lit "type") JNull) as [| | | |s| |] eqn:Ht;
    try contradiction; try (eexists; reflexivity).
  cbn [is_none set_contains rbind eq_str].
  destruct (existsb (str_eqb s) VALID_SEGMENT_TYPES); cbn [negb];
    [|eexists; reflexivity].
  destruct (str_eqb s (lit "scene_break")); [eexists; reflexivity|].
  rewrite narrative_errors_eq, content_errors_eq. eexists; reflexivity.
Qed.

Lemma segments_loop_app `{PyRuntime} (segs : list json) (i : nat)
  (errors : list pystr) :
  segments_loop i segs errors =
  rbind (segments_loop i segs []) (fun e => Ok (errors ++ e)).
Proof.
  revert i errors; induction segs as [|seg segs IH]; intros i errors; simpl.
  - now rewrite app_nil_r.
  - destruct (segment_errors i seg) as [e|x]; simpl; [|reflexivity].
    rewrite (IH (S i) (errors ++ e)), (IH (S i) e).
    destruct (segments_loop (S i) segs []); simpl; [|reflexivity].
    now rewrite app_assoc.
Qed.

Lemma segments_loop_returns `{PyRuntime} (segs : list json) (i : nat)
  (errors : list pystr) :
  Forall (fun seg => match seg with
                     | JDict d => hashable (dict_get d (lit "type") JNull)
                     | _ => True
                     end) segs ->
  exists e, segments_loop i segs errors = Ok e.
Proof.
  intros Hs; revert i errors; induction Hs as [|seg segs Hseg _ IH];
    intros i errors; simpl.
  - eauto.
  - destruct (segment_errors_returns i seg Hseg) as [e ->]. simpl. apply IH.
Qed.

(** A non-object input: one violation, naming the type of the input. *)
Lemma validate_not_object `{PyRuntime} (data : json) :
  (forall d, data <> JDict d) ->
  _validate_chapter_json data =
    Ok [lit "Input must be a JSON object (dict), not " ++ type_name data].
Proof.
  intros Hd. destruct data; try reflexivity. now destruct (Hd d).
Qed.

(** An object input whose segments all have a hashable "type" (or none, or
    are not objects): validation returns its list of violations. *)
Lemma validate_returns `{PyRuntime} (d : list (pystr * json)) :
  (forall segs, dict_get d (lit "segments") JNull = JList segs ->
     Forall (fun seg => match seg with
                        | JDict sd => hashable (dict_get sd (lit "type") JNull)
                        | _ => True
                        end) segs) ->
  exists errors, _validate_chapter_json (JDict d) = Ok errors.
Proof.
  intros Hs. unfold _validate_chapter_json.
  destruct (dict_get d (lit "segments") JNull) as [| | | | |segs|];
    try (eexists; reflexivity).
  destruct segs as [|seg segs]; [eexists; reflexivity|].
  destruct (segments_loop_returns (seg :: segs) 0
              (title_errors (dict_get d (lit "title") JNull))
              (Hs _ eq_refl)) as [e He].
  rewrite He. simpl. eauto.
Qed.

Lemma all_ascii_Forall (s : pystr) : all_ascii s = true -> Forall is_ascii s.
Proof.
  unfold all_ascii. rewrite forallb_forall, Forall_forall.
  intros Hs c Hc. apply N.ltb_lt. auto.
Qed.

Lemma str_lower_all_ascii `{PyRuntime} (s : pystr) :
  all_ascii s = true -> str_lower s = map ascii_lower s.
Proof. intros Hs. apply str_lower_ascii, all_ascii_Forall, Hs. Qed.

Lemma has_raw_tag_ascii `{PyRuntime} (text raw_tag : pystr) :
  all_ascii text = true ->
  has_raw_tag text raw_tag =
  contains (map ascii_lower text) (lit "[" ++ raw_tag ++ lit "]") ||
  contains (map ascii_lower text) (lit "[/" ++ raw_tag ++ lit "]").
Proof. intros Hs. unfold has_raw_tag. now rewrite str_lower_all_ascii. Qed.

Lemma find_raw_tag_ascii `{PyRuntime} (text : pystr) :
  all_ascii text = true ->
  find (has_raw_tag text) _RAW_TAGS =
  find (fun raw_tag =>
          contains (map ascii_lower text) (lit "[" ++ raw_tag ++ lit "]") ||
          contains (map ascii_lower text) (lit "[/" ++ raw_tag ++ lit "]"))
       _RAW_TAGS.
Proof.
  intros Hs. induction _RAW_TAGS as [|t l IH]; simpl; [reflexivity|].
  now rewrite has_raw_tag_ascii, IH.
Qed.

(** C4: the example document with one "dialogue" segment validates with no
    violation, and its segment list renders to an em-dash, a space, the
    text, a space, an em-dash, a space and the narrative. *)
Theorem dialogue_example `{PyRuntime} :
  _validate_chapter_json dialogue_document = Ok [] /\
  _segments_to_markup dialogue_segments =
    Ok (emdash ++ lit " Hello " ++ emdash ++ lit " she said").
Proof.
  pose proof (str_lower_all_ascii (lit "Hello") eq_refl) as Hlow.
  pose proof (py_str_str (lit "Hello")) as Htext.
  pose proof (py_str_str (lit "she said")) as Hnarr.
  vm_compute in Hlow, Htext, Hnarr.
  split.
  - vm_compute. rewrite Hlow. reflexivity.
  - vm_compute. rewrite Htext, Hnarr. reflexivity.
Qed.

(** ** Attribution of violations to segments *)

Lemma attributed_about (i j : nat) (m : pystr) :
  about j m -> attributed i m = Nat.eqb i j.
Proof.
  intros [r ->]. unfold attributed.
  destruct (Nat.eqb_spec i j) as [->|Hij].
  - rewrite app_assoc. apply startswith_app.
  - destruct (startswith (seg_prefix j ++ lit ": " ++ r) (seg_prefix i ++ lit ": "))
      eqn:E; [|reflexivity].
    apply startswith_spec in E as [r' E]. rewrite <- app_assoc in E.
    apply seg_prefix_inj in E as [E _]. congruence.
Qed.

Lemma about_intro (j : nat) (r : pystr) : about j (seg_prefix j ++ lit ": " ++ r).
Proof. now exists r. Qed.

Lemma Ok_inj {A} (a b : A) : Ok a = Ok b -> a = b.
Proof. now intros [= ->]. Qed.

Lemma text_errors_about `{PyRuntime} (j : nat) (stype text : json) :
  Forall (about j) (text_errors (seg_prefix j) stype text).
Proof.
  unfold text_errors. destruct (is_none text); [|destruct (not_nonempty_str text)];
    repeat constructor.
  - unfold msg_requires_text. eexists; reflexivity.
  - unfold msg_bad_text. eexists; reflexivity.
Qed.

Lemma segment_errors_about `{PyRuntime} (j : nat) (seg : json) (e : list pystr) :
  segment_errors j seg = Ok e -> Forall (about j) e.
Proof.
  destruct seg as [| | | | | |d];
    try (intros [= <-]; repeat constructor; unfold msg_seg_not_object;
         eexists; reflexivity).
  unfold segment_errors.
  destruct (dict_get d (lit "type") JNull) as [| | | |s| |] eqn:Ht;
    cbn [is_none set_contains rbind eq_str negb];
    try discriminate;
    try (intros [= <-]; repeat constructor;
         first [ unfold msg_missing_type | unfold msg_unknown_type ];
         eexists; reflexivity).
  destruct (existsb (str_eqb s) VALID_SEGMENT_TYPES); cbn [negb].
  2:{ intros [= <-]. repeat constructor. unfold msg_unknown_type.
      eexists; reflexivity. }
  destruct (str_eqb s (lit "scene_break")).
  { intros E%Ok_inj. subst e. rewrite Forall_app. split.
    - destruct (dict_has d (lit "text")); repeat constructor.
      unfold msg_scene_break_text. eexists; reflexivity.
    - destruct (dict_has d (lit "narrative")); repeat constructor.
      unfold msg_scene_break_narrative. eexists; reflexivity. }
  rewrite narrative_errors_eq, content_errors_eq. cbn [rbind].
  intros E%Ok_inj. subst e. rewrite !Forall_app. split; [|split].
  - apply text_errors_about.
  - destruct (dict_has d (lit "narrative")); [|constructor].
    destruct (negb (existsb (str_eqb s) NARRATIVE_TYPES));
      [|destruct (not_nonempty_str (dict_get d (lit "narrative") JNull))];
      repeat constructor.
    + unfold msg_narrative_unsupported. eexists; reflexivity.
    + unfold msg_bad_narrative. eexists; reflexivity.
  - destruct (dict_get d (lit "text") JNull) as [| | | |[|c t]| |];
      try constructor.
    rewrite Forall_app. split.
    + destruct (find (has_raw_tag (c :: t)) _RAW_TAGS); repeat constructor.
      unfold msg_raw_tag. eexists; reflexivity.
    + unfold dash_errors.
      destruct (eq_str (JStr s) (lit "text") && _); repeat constructor.
      unfold msg_dialogue_dash. eexists; reflexivity.
Qed.

Lemma filter_all {A} (f : A -> bool) (l : list A) :
  Forall (fun x => f x = true) l -> filter f l = l.
Proof.
  induction 1 as [|x l Hx _ IH]; simpl; [reflexivity|]. now rewrite Hx, IH.
Qed.

Lemma filter_none {A} (f : A -> bool) (l : list A) :
  Forall (fun x => f x = false) l -> filter f l = [].
Proof.
  induction 1 as [|x l Hx _ IH]; simpl; [reflexivity|]. now rewrite Hx, IH.
Qed.

Lemma segments_loop_cons `{PyRuntime} (i : nat) (seg : json) (segs : list json)
  (all : list pystr) :
  segments_loop i (seg :: segs) [] = Ok all ->
  exists e rest,
    segment_errors i seg = Ok e /\ segments_loop (S i) segs [] = Ok rest /\
    all = e ++ rest.
Proof.
  simpl. destruct (segment_errors i seg) as [e|x]; simpl; [|discriminate].
  rewrite segments_loop_app.
  destruct (segments_loop (S i) segs []) as [rest|x]; simpl; [|discriminate].
  intros E%Ok_inj. eauto.
Qed.

Lemma segments_loop_about `{PyRuntime} (segs : list json) (i : nat)
  (all : list pystr) :
  segments_loop i segs [] = Ok all ->
  Forall (fun m => exists j, i <= j /\ about j m) all.
Proof.
  revert i all; induction segs as [|seg segs IH]; intros i all Hall.
  - apply Ok_inj in Hall. subst all. constructor.
  - apply segments_loop_cons in Hall as (e & rest & He & Hrest & ->).
    rewrite Forall_app. split.
    + eapply Forall_impl; [|apply (segment_errors_about _ _ _ He)].
      intros m Hm. exists i. auto.
    + eapply Forall_impl; [|apply (IH _ _ Hrest)].
      intros m (j & Hj & Hm). exists j. split; [lia | exact Hm].
Qed.

(** The violations of a run of the loop that are about segment [i + k] are
    the errors of that segment, in the order the loop appended them. *)
Lemma segments_loop_nth `{PyRuntime} (segs : list json) (i k : nat)
  (seg : json) (all : list pystr) :
  segments_loop i segs [] = Ok all ->
  nth_error segs k = Some seg ->
  exists e, segment_errors (i + k) seg = Ok e /\
            filter (attributed (i + k)) all = e.
Proof.
  revert i k all; induction segs as [|seg0 segs IH]; intros i k all Hall Hk.
  - destruct k; discriminate.
  - apply segments_loop_cons in Hall as (e & rest & He & Hrest & ->).
    rewrite filter_app. destruct k as [|k]; simpl in Hk.
    + injection Hk as ->. rewrite Nat.add_0_r. exists e. split; [exact He|].
      rewrite filter_all, filter_none; [apply app_nil_r | |].
      * eapply Forall_impl; [|apply (segments_loop_about _ _ _ Hrest)].
        intros m (j & Hj & Hm). rewrite (attributed_about _ _ _ Hm).
        apply Nat.eqb_neq. lia.
      * eapply Forall_impl; [|apply (segment_errors_about _ _ _ He)].
        intros m Hm. rewrite (attributed_about _ _ _ Hm). apply Nat.eqb_refl.
    + destruct (IH (S i) k rest Hrest Hk) as (e' & He' & Hf).
      replace (i + S k) with (S i + k) by lia.
      exists e'. split; [exact He'|].
      rewrite Hf, filter_none; [reflexivity|].
      eapply Forall_impl; [|apply (segment_errors_about _ _ _ He)].
      intros m Hm. rewrite (attributed_about _ _ _ Hm). apply Nat.eqb_neq. lia.
Qed.

Lemma title_errors_unattributed (i : nat) (title : json) :
  filter (attributed i) (title_errors title) = [].
Proof.
  unfold title_errors.
  destruct (is_none title); [reflexivity|].
  destruct (not_nonempty_str title); reflexivity.
Qed.

Lemma duplicate_title_about : about 0 msg_duplicate_title.
Proof. unfold msg_duplicate_title. eexists; reflexivity. Qed.

Lemma duplicate_title_errors_cases `{PyRuntime} (title : json) (segs : list json) :
  duplicate_title_errors title segs = [] \/
  duplicate_title_errors title segs = [msg_duplicate_title] /\
  exists first rest,
    segs = JDict first :: rest /\
    dict_get first (lit "type") JNull = JStr (lit "heading").
Proof.
  unfold duplicate_title_errors.
  destruct segs as [|[| | | | | |first] rest]; auto.
  destruct (dict_get first (lit "text") JNull); auto.
  destruct title; auto.
  destruct (dict_get first (lit "type") JNull) as [| | | |ty| |] eqn:Ety; auto.
  cbn [eq_str]. destruct (str_eqb ty (lit "heading")) eqn:E; auto.
  apply str_eqb_eq in E. subst ty.
  destruct (truthy _); auto. cbn [andb].
  destruct (_ || _); auto.
  right. split; [reflexivity|]. eauto.
Qed.

(** The violations of a document that are about segment [k]: the errors of
    that segment, followed for the first segment by the duplicate-title
    error when there is one. *)
Lemma violations_of_segment `{PyRuntime} (d : list (pystr * json))
  (segs : list json) (k : nat) (seg : json) (errors : list pystr) :
  dict_get d (lit "segments") JNull = JList segs ->
  nth_error segs k = Some seg ->
  _validate_chapter_json (JDict d) = Ok errors ->
  exists e,
    segment_errors k seg = Ok e /\
    filter (attributed k) errors =
      e ++ filter (attributed k)
             (duplicate_title_errors (dict_get d (lit "title") JNull) segs).
Proof.
  intros Hsegs Hk. unfold _validate_chapter_json. rewrite Hsegs.
  destruct segs as [|seg0 segs]; [destruct k; discriminate|].
  rewrite segments_loop_app.
  destruct (segments_loop 0 (seg0 :: segs) []) as [all|x] eqn:Hall;
    cbn [rbind]; [|discriminate].
  intros E%Ok_inj. subst errors.
  destruct (segments_loop_nth _ 0 k _ _ Hall Hk) as (e & He & Hf).
  simpl in He, Hf. exists e. split; [exact He|].
  now rewrite !filter_app, title_errors_unattributed, Hf.
Qed.

(** ** The kinds of violation a segment can get *)

Lemma segment_errors_cases `{PyRuntime} (k : nat) (seg : json) (e : list pystr) :
  segment_errors k seg = Ok e ->
  e = [msg_seg_not_object (seg_prefix k)] \/
  e = [msg_missing_type (seg_prefix k)] \/
  (exists stype, e = [msg_unknown_type (seg_prefix k) stype]) \/
  (exists d, seg = JDict d /\
             dict_get d (lit "type") JNull = JStr (lit "scene_break") /\
             e = scene_break_list (seg_prefix k) d) \/
  (exists d s, seg = JDict d /\
               dict_get d (lit "type") JNull = JStr s /\
               existsb (str_eqb s) VALID_SEGMENT_TYPES = true /\
               str_eqb s (lit "scene_break") = false /\
               e = text_errors (seg_prefix k) (JStr s) (dict_get d (lit "text") JNull) ++
                   narrative_list (seg_prefix k) s d ++
                   content_list (seg_prefix k) (JStr s) (dict_get d (lit "text") JNull)).
Proof.
  destruct seg as [| | | | | |d]; try (intros E%Ok_inj; subst e; auto; fail).
  unfold segment_errors.
  destruct (dict_get d (lit "type") JNull) as [| | | |s| |] eqn:Ht;
    cbn [is_none set_contains rbind eq_str negb];
    try discriminate; try (intros E%Ok_inj; subst e; eauto 6; fail).
  destruct (existsb (str_eqb s) VALID_SEGMENT_TYPES) eqn:Hv; cbn [negb].
  2:{ intros E%Ok_inj. subst e. eauto 6. }
  destruct (str_eqb s (lit "scene_break")) eqn:Hs.
  { intros E%Ok_inj. subst e. apply str_eqb_eq in Hs. subst s.
    right; right; right; left. eauto. }
  rewrite narrative_errors_eq, content_errors_eq. cbn [rbind].
  intros E%Ok_inj. subst e. right; right; right; right.
  exists d, s. repeat split; auto.
Qed.

Lemma filter_one {A} (f : A -> bool) (m : A) :
  filter f [m] = if f m then [m] else [].
Proof. reflexivity. Qed.

Lemma filter_refine {A} (f g : A -> bool) (l : list A) :
  (forall x, f x = true -> g x = true) ->
  filter f (filter g l) = filter f l.
Proof.
  intros Hfg. induction l as [|x l IH]; simpl; [reflexivity|].
  destruct (g x) eqn:Eg; simpl; rewrite IH; [reflexivity|].
  destruct (f x) eqn:Ef; [|reflexivity]. apply Hfg in Ef. congruence.
Qed.

Lemma startswith_trans (s p q : pystr) :
  startswith s (p ++ q) = true -> startswith s p = true.
Proof.
  rewrite !startswith_spec. intros [r ->]. exists (q ++ r). now rewrite app_assoc.
Qed.

(** A test on what follows "segments[k]" in a message about segment [k]. *)
Lemma tail_test (k : nat) (pat tail : pystr) :
  startswith (seg_prefix k ++ tail) (seg_prefix k ++ pat) = startswith tail pat.
Proof. apply startswith_common. Qed.

Ltac tail_false :=
  unfold raw_tag_violation, dash_violation, msg_seg_not_object, msg_missing_type,
    msg_unknown_type, msg_scene_break_text, msg_scene_break_narrative,
    msg_requires_text, msg_bad_text, msg_narrative_unsupported, msg_bad_narrative,
    msg_raw_tag, msg_dialogue_dash;
  rewrite tail_test; reflexivity.

Section Kinds.
Context `{PyRuntime}.
Variable kind : nat -> pystr -> bool.
Variable k : nat.
Hypothesis kind_not_object : kind k (msg_seg_not_object (seg_prefix k)) = false.
Hypothesis kind_missing_type : kind k (msg_missing_type (seg_prefix k)) = false.
Hypothesis kind_unknown :
  forall stype, kind k (msg_unknown_type (seg_prefix k) stype) = false.
Hypothesis kind_sb_text : kind k (msg_scene_break_text (seg_prefix k)) = false.
Hypothesis kind_sb_narr : kind k (msg_scene_break_narrative (seg_prefix k)) = false.
Hypothesis kind_requires :
  forall stype, kind k (msg_requires_text (seg_prefix k) stype) = false.
Hypothesis kind_bad_text : kind k (msg_bad_text (seg_prefix k)) = false.
Hypothesis kind_narr_unsupported :
  forall stype, kind k (msg_narrative_unsupported (seg_prefix k) stype) = false.
Hypothesis kind_bad_narr : kind k (msg_bad_narrative (seg_prefix k)) = false.

Lemma kind_text_errors (stype text : json) :
  filter (kind k) (text_errors (seg_prefix k) stype text) = [].
Proof.
  unfold text_errors. destruct (is_none text); [|destruct (not_nonempty_str text)];
    rewrite ?filter_one, ?kind_requires, ?kind_bad_text; reflexivity.
Qed.

Lemma kind_narrative_list (s : pystr) (d : list (pystr * json)) :
  filter (kind k) (narrative_list (seg_prefix k) s d) = [].
Proof.
  unfold narrative_list. destruct (dict_has d (lit "narrative")); [|reflexivity].
  destruct (negb (existsb (str_eqb s) NARRATIVE_TYPES));
    [|destruct (not_nonempty_str (dict_get d (lit "narrative") JNull))];
    rewrite ?filter_one, ?kind_narr_unsupported, ?kind_bad_narr; reflexivity.
Qed.

Lemma kind_scene_break_list (d : list (pystr * json)) :
  filter (kind k) (scene_break_list (seg_prefix k) d) = [].
Proof.
  unfold scene_break_list. rewrite filter_app.
  destruct (dict_has d (lit "text")), (dict_has d (lit "narrative"));
    rewrite ?filter_one, ?kind_sb_text, ?kind_sb_narr; reflexivity.
Qed.

(** The violations of kind [kind] among the errors of a segment are among
    those of its content checks. *)
Lemma kind_segment_errors (seg : json) (e : list pystr) :
  segment_errors k seg = Ok e ->
  filter (kind k) e = [] \/
  exists d s, seg = JDict d /\
              dict_get d (lit "type") JNull = JStr s /\
              existsb (str_eqb s) VALID_SEGMENT_TYPES = true /\
              str_eqb s (lit "scene_break") = false /\
              filter (kind k) e =
                filter (kind k)
                  (content_list (seg_prefix k) (JStr s)
                     (dict_get d (lit "text") JNull)).
Proof.
  intros He. apply segment_errors_cases in He
    as [-> | [-> | [[stype ->] | [(d & _ & _ & ->) | (d & s & -> & Ht & Hv & Hs & ->)]]]].
  - left. now rewrite filter_one, kind_not_object.
  - left. now rewrite filter_one, kind_missing_type.
  - left. now rewrite filter_one, kind_unknown.
  - left. apply kind_scene_break_list.
  - right. exists d, s. repeat split; auto.
    now rewrite !filter_app, kind_text_errors, kind_narrative_list.
Qed.
End Kinds.


Lemma dash_segment `{PyRuntime} (k : nat) (seg : json) (e : list pystr) :
  segment_errors k seg = Ok e ->
  filter (dash_violation k) e = [] \/
  exists d s, seg = JDict d /\
              dict_get d (lit "type") JNull = JStr s /\
              existsb (str_eqb s) VALID_SEGMENT_TYPES = true /\
              str_eqb s (lit "scene_break") = false /\
              filter (dash_violation k) e =
                filter (dash_violation k)
                  (content_list (seg_prefix k) (JStr s)
                     (dict_get d (lit "text") JNull)).
Proof. apply kind_segment_errors; intros; tail_false. Qed.


Lemma dash_content `{PyRuntime} (k : nat) (stype : json) (t : pystr) :
  filter (dash_violation k) (content_list (seg_prefix k) stype (JStr t)) =
  dash_errors (seg_prefix k) stype t.
Proof.
  destruct t as [|c t].
  - unfold dash_errors. cbn. now rewrite andb_false_r.
  - cbn [content_list]. rewrite filter_app. unfold raw_tag_list, dash_errors.
    destruct (find (has_raw_tag (c :: t)) _RAW_TAGS) as [tag|];
      destruct (eq_str stype (lit "text") && _);
      rewrite ?filter_one; cbn [filter app];
      unfold dash_violation, msg_raw_tag, msg_dialogue_dash;
      rewrite ?tail_test; reflexivity.
Qed.

Lemma content_list_not_str `{PyRuntime} (prefix : pystr) (stype text : json) :
  (forall t, text <> JStr t) -> content_list prefix stype text = [].
Proof. destruct text; try reflexivity. intros Ht. now destruct (Ht s). Qed.

(** The duplicate-title error is neither a raw-tag nor a dash violation, and
    it is about the first segment only. *)
Lemma kind_duplicate_title `{PyRuntime} (kind : nat -> pystr -> bool) (k : nat)
  (title : json) (segs : list json) :
  kind k msg_duplicate_title = false ->
  filter (kind k) (duplicate_title_errors title segs) = [].
Proof.
  intros Hk.
  destruct (duplicate_title_errors_cases title segs) as [-> | [-> _]];
    [reflexivity|]. now rewrite filter_one, Hk.
Qed.


Lemma dash_duplicate_title (k : nat) :
  dash_violation k msg_duplicate_title = false.
Proof.
  destruct (dash_violation k msg_duplicate_title) eqn:E; [|reflexivity].
  assert (Ha : attributed k msg_duplicate_title = true)
    by (apply (startswith_trans _ _ (lit "text starts with dialogue dash '"));
        rewrite <- app_assoc; exact E).
  rewrite (attributed_about _ _ _ duplicate_title_about) in Ha.
  apply Nat.eqb_eq in Ha. subst k. discriminate E.
Qed.


Lemma dash_attributed (k : nat) (m : pystr) :
  dash_violation k m = true -> attributed k m = true.
Proof.
  intros E. apply (startswith_trans _ _ (lit "text starts with dialogue dash '")).
  now rewrite <- app_assoc.
Qed.

(** The violations of one kind that a document gets about segment [k] are
    those among the errors of that segment, when the kind is not that of the
    duplicate-title error. *)
Lemma kind_violations_of_segment `{PyRuntime} (kind : nat -> pystr -> bool)
  (d : list (pystr * json)) (segs : list json) (k : nat) (seg : json)
  (errors : list pystr) :
  (forall m, kind k m = true -> attributed k m = true) ->
  kind k msg_duplicate_title = false ->
  dict_get d (lit "segments") JNull = JList segs ->
  nth_error segs k = Some seg ->
  _validate_chapter_json (JDict d) = Ok errors ->
  exists e, segment_errors k seg = Ok e /\
            filter (kind k) errors = filter (kind k) e.
Proof.
  intros Hatt Hdup Hsegs Hk Hv.
  destruct (violations_of_segment d segs k seg errors Hsegs Hk Hv) as (e & He & Hf).
  exists e. split; [exact He|].
  rewrite <- (filter_refine (kind k) (attributed k) errors Hatt), Hf.
  rewrite !filter_app, (filter_refine _ _ _ Hatt).
  rewrite (kind_duplicate_title kind k _ _ Hdup).
  apply app_nil_r.
Qed.

(** A segment whose type is one of the ten kinds other than "scene_break":
    its errors are those of the text, narrative and content checks, in this
    order. *)
Lemma segment_errors_known `{PyRuntime} (k : nat) (d : list (pystr * json))
  (s : pystr) :
  dict_get d (lit "type") JNull = JStr s ->
  existsb (str_eqb s) VALID_SEGMENT_TYPES = true ->
  str_eqb s (lit "scene_break") = false ->
  segment_errors k (JDict d) =
    Ok (text_errors (seg_prefix k) (JStr s) (dict_get d (lit "text") JNull) ++
        narrative_list (seg_prefix k) s d ++
        content_list (seg_prefix k) (JStr s) (dict_get d (lit "text") JNull)).
Proof.
  intros Ht Hv Hs. unfold segment_errors. rewrite Ht.
  cbn [is_none set_contains rbind eq_str]. rewrite Hv. cbn [negb].
  rewrite Hs. now rewrite narrative_errors_eq, content_errors_eq.
Qed.







Lemma duplicate_title_not_heading `{PyRuntime} (k : nat) (title : json)
  (segs : list json) (sd : list (pystr * json)) :
  nth_error segs k = Some (JDict sd) ->
  dict_get sd (lit "type") JNull <> JStr (lit "heading") ->
  filter (attributed k) (duplicate_title_errors title segs) = [].
Proof.
  intros Hk Hty.
  destruct (duplicate_title_errors_cases title segs)
    as [-> | [-> (first & rest & -> & Hfirst)]]; [reflexivity|].
  rewrite filter_one, (attributed_about _ _ _ duplicate_title_about).
  destruct k as [|k]; [|reflexivity].
  simpl in Hk. injection Hk as ->. contradiction.
Qed.

(** C7: the violations a document gets about a "scene_break" segment are one
    for a "text" field that is present and one for a "narrative" field that
    is present, two when both are; the example document gets exactly the
    violation that names the "text" field of a scene break. *)
Theorem scene_break_violations `{PyRuntime} :
  (forall d segs k sd errors,
     dict_get d (lit "segments") JNull = JList segs ->
     nth_error segs k = Some (JDict sd) ->
     dict_get sd (lit "type") JNull = JStr (lit "scene_break") ->
     _validate_chapter_json (JDict d) = Ok errors ->
     filter (attributed k) errors =
       (if dict_has sd (lit "text")
        then [seg_prefix k ++ lit ": 'scene_break' must not have a 'text' field"]
        else []) ++
       (if dict_has sd (lit "narrative")
        then [seg_prefix k ++ lit ": 'scene_break' does not support 'narrative' field"]
        else []) /\
     (dict_has sd (lit "text") = true -> dict_has sd (lit "narrative") = true ->
      List.length (filter (attributed k) errors) = 2%nat)) /\
  _validate_chapter_json scene_break_document =
    Ok [lit "segments[0]: 'scene_break' must not have a 'text' field"].
Proof.
  split; [|reflexivity].
  intros d segs k sd errors Hsegs Hk Hty Hv.
  destruct (violations_of_segment d segs k (JDict sd) errors Hsegs Hk Hv)
    as (e & He & Hf).
  rewrite (segment_errors_scene_break k sd Hty) in He. apply Ok_inj in He. subst e.
  rewrite (duplicate_title_not_heading k _ segs sd Hk) in Hf
    by (rewrite Hty; discriminate).
  rewrite app_nil_r in Hf. split; [exact Hf|].
  intros Ht Hn. rewrite Hf, Ht, Hn. reflexivity.
Qed.

Lemma scene_break_violations_witness :
  List.length
    (filter (attributed 0)
       [lit "segments[0]: 'scene_break' must not have a 'text' field";
        lit "segments[0]: 'scene_break' does not support 'narrative' field"]) = 2%nat.
Proof.
  refine (proj2 (proj1 (@scene_break_violations Sample.runtime)
                  [(lit "title", str "Ch1");
                   (lit "segments", JList [JDict two_field_scene_break])]
                  _ 0 two_field_scene_break _ eq_refl eq_refl eq_refl eq_refl)
            eq_refl eq_refl).
Defined.

(** C6, as the code has it: the dash violations a document gets about a
    "text" segment whose text is the string [t] are one when [t] itself, not
    trimmed, starts with an em-dash and a space or a hyphen and a space, and
    none otherwise; the message quotes the dash and tells to use a
    "dialogue" segment. *)
Theorem text_dash_violation `{PyRuntime} (d : list (pystr * json))
  (segs : list json) (k : nat) (sd : list (pystr * json)) (t : pystr)
  (errors : list pystr) :
  dict_get d (lit "segments") JNull = JList segs ->
  nth_error segs k = Some (JDict sd) ->
  dict_get sd (lit "type") JNull = JStr (lit "text") ->
  dict_get sd (lit "text") JNull = JStr t ->
  _validate_chapter_json (JDict d) = Ok errors ->
  filter (dash_violation k) errors =
    if startswith t (emdash ++ lit " ") || startswith t (lit "- ")
    then [seg_prefix k ++ lit ": text starts with dialogue dash '" ++
          (if startswith t emdash then emdash else lit "-") ++ lit "'. " ++
          lit "Use {" ++ dquote ++ lit "type" ++ dquote ++ lit ": " ++
          dquote ++ lit "dialogue" ++ dquote ++ lit "} segment instead."]
    else [].
Proof.
  intros Hsegs Hk Hty Htext Hv.
  destruct (kind_violations_of_segment dash_violation d segs k (JDict sd) errors
              (dash_attributed k) (dash_duplicate_title k) Hsegs Hk Hv)
    as (e & He & ->).
  rewrite (segment_errors_known k sd (lit "text") Hty eq_refl eq_refl) in He.
  apply Ok_inj in He. subst e.
  rewrite !filter_app.
  rewrite (kind_text_errors dash_violation k), (kind_narrative_list dash_violation k);
    try (intros; tail_false).
  rewrite Htext, dash_content. reflexivity.
Qed.

Lemma text_dash_violation_witness :
  filter (dash_violation 0)
    [lit "segments[0]: text starts with dialogue dash '-'. " ++
     lit "Use {" ++ dquote ++ lit "type" ++ dquote ++ lit ": " ++
     dquote ++ lit "dialogue" ++ dquote ++ lit "} segment instead."] =
  [lit "segments[0]: text starts with dialogue dash '-'. " ++
   lit "Use {" ++ dquote ++ lit "type" ++ dquote ++ lit ": " ++
   dquote ++ lit "dialogue" ++ dquote ++ lit "} segment instead."].
Proof.
  refine (@text_dash_violation Sample.runtime
            [(lit "title", str "Ch1");
             (lit "segments", JList [obj [("type", str "text"); ("text", str "- hi")]%string])]
            _ 0 _ (lit "- hi") _ eq_refl eq_refl eq_refl eq_refl eq_refl).
Defined.

(** C6, as stated, fails: the text "  - hi", once trimmed, starts with a
    hyphen and a space, and the document validates with no violation. *)
Lemma trimmed_dash_not_flagged :
  startswith (strip (lit "  - hi")) (lit "- ") = true /\
  (forall R : PyRuntime, @_validate_chapter_json R indented_dash_document = Ok []).
Proof.
  split; [reflexivity|]. intros R.
  pose proof (str_lower_all_ascii (lit "  - hi") eq_refl) as Hlow.
  vm_compute in Hlow. vm_compute. rewrite Hlow. reflexivity.
Qed.

(** C1 fails on the code: the membership test on a "type" that is a list or a
    dict raises [TypeError], whatever comes after the segment. *)
Theorem unhashable_type_raises `{PyRuntime} :
  (forall d sd rest,
     dict_get d (lit "segments") JNull = JList (JDict sd :: rest) ->
     ~ hashable (dict_get sd (lit "type") JNull) ->
     _validate_chapter_json (JDict d) = Raise TypeError) /\
  _validate_chapter_json unhashable_type_document = Raise TypeError.
Proof.
  split; [|reflexivity].
  intros d sd rest Hsegs Hty. unfold _validate_chapter_json. rewrite Hsegs.
  cbn [segments_loop]. unfold segment_errors.
  destruct (dict_get sd (lit "type") JNull); simpl in Hty; try tauto; reflexivity.
Qed.

Lemma unhashable_type_raises_witness :
  @_validate_chapter_json Sample.runtime
    (JDict [(lit "segments", JList [JDict [(lit "type", JDict [])]; JNull])])
  = Raise TypeError.
Proof.
  refine (proj1 (@unhashable_type_raises Sample.runtime)
            [(lit "segments", JList [JDict [(lit "type", JDict [])]; JNull])]
            [(lit "type", JDict [])] [JNull] eq_refl _).
  intros Hh; exact Hh.
Defined.

(** ** Previews *)

Lemma lstrip_head_ok (s : pystr) : head_ok (lstrip s) = true.
Proof.
  induction s as [|c s IH]; simpl; [reflexivity|].
  destruct (isspace c) eqn:E; [exact IH|]. simpl. now rewrite E.
Qed.

Lemma lstrip_fixed (s : pystr) : head_ok s = true -> lstrip s = s.
Proof.
  destruct s as [|c s]; simpl; [reflexivity|].
  destruct (isspace c); [discriminate | reflexivity].
Qed.

Lemma lstrip_split (s : pystr) :
  exists sp, s = sp ++ lstrip s /\ Forall (fun c => isspace c = true) sp.
Proof.
  induction s as [|c s (sp & Hs & Hsp)]; simpl.
  - exists []. auto.
  - destruct (isspace c) eqn:E.
    + exists (c :: sp). split; [simpl; congruence | auto].
    + exists []. auto.
Qed.

Lemma rstrip_split (s : pystr) :
  exists sp, s = rstrip s ++ sp /\ Forall (fun c => isspace c = true) sp.
Proof.
  unfold rstrip. destruct (lstrip_split (rev s)) as (sp & Hs & Hsp).
  exists (rev sp). split.
  - rewrite <- rev_app_distr, <- Hs. now rewrite rev_involutive.
  - now apply Forall_rev.
Qed.

Lemma rstrip_head_ok (s : pystr) : head_ok s = true -> head_ok (rstrip s) = true.
Proof.
  intros Hs. destruct (rstrip_split s) as (sp & Heq & Hsp).
  destruct (rstrip s) as [|c r]; [reflexivity|].
  rewrite Heq in Hs. exact Hs.
Qed.

Lemma strip_head_ok (s : pystr) : head_ok (strip s) = true.
Proof. apply rstrip_head_ok, lstrip_head_ok. Qed.

Lemma strip_last_ok (s : pystr) : head_ok (rev (strip s)) = true.
Proof.
  unfold strip, rstrip. rewrite rev_involutive. apply lstrip_head_ok.
Qed.

(** A string with no white space at either end is its own [strip]. *)
Lemma strip_fixed (s : pystr) :
  head_ok s = true -> head_ok (rev s) = true -> strip s = s.
Proof.
  intros Hh Hl. unfold strip, rstrip.
  now rewrite (lstrip_fixed s Hh), (lstrip_fixed (rev s) Hl), rev_involutive.
Qed.

Lemma lstrip_length (s : pystr) : (List.length (lstrip s) <= List.length s)%nat.
Proof.
  induction s as [|c s IH]; simpl; [lia|]. destruct (isspace c); simpl; lia.
Qed.

Lemma strip_length (s : pystr) : (List.length (strip s) <= List.length s)%nat.
Proof.
  unfold strip, rstrip. rewrite length_rev.
  etransitivity; [apply lstrip_length|]. rewrite length_rev. apply lstrip_length.
Qed.

Lemma lstrip_incl (s : pystr) (c : N) : In c (lstrip s) -> In c s.
Proof.
  induction s as [|x s IH]; simpl; [auto|].
  destruct (isspace x); simpl; auto.
Qed.

Lemma strip_incl (s : pystr) (c : N) : In c (strip s) -> In c s.
Proof.
  unfold strip, rstrip. intros Hc.
  apply in_rev, lstrip_incl, in_rev, lstrip_incl in Hc. exact Hc.
Qed.

Lemma replace_newline_length (s : pystr) :
  List.length (replace_char newline [space] s) = List.length s.
Proof.
  unfold replace_char. induction s as [|c s IH]; simpl; [reflexivity|].
  destruct (c =? newline)%N; simpl; now rewrite IH.
Qed.

Lemma replace_newline_none (s : pystr) :
  ~ In newline (replace_char newline [space] s).
Proof.
  unfold replace_char. induction s as [|c s IH]; simpl; [tauto|].
  destruct (c =? newline)%N eqn:E; simpl.
  - intros [Hc | Hc]; [discriminate | auto].
  - apply N.eqb_neq in E. intros [Hc | Hc]; [congruence | auto].
Qed.

Lemma preview_body_length (c : pystr) : (List.length (preview_body c) <= 200)%nat.
Proof.
  unfold preview_body. etransitivity; [apply strip_length|].
  rewrite replace_newline_length, length_firstn. lia.
Qed.

Lemma preview_body_dots_trimmed (c : pystr) :
  strip (preview_body c ++ lit "...") = preview_body c ++ lit "...".
Proof.
  apply strip_fixed.
  - pose proof (strip_head_ok (replace_char newline [space] (firstn 200 c))) as Hh.
    fold (preview_body c) in Hh. destruct (preview_body c); [reflexivity | exact Hh].
  - rewrite rev_app_distr. reflexivity.
Qed.

Lemma chapter_line_inv `{PyRuntime} (i : nat) (ch : json) (line : pystr) :
  chapter_line i ch = Ok line ->
  exists d content,
    ch = JDict d /\
    dict_get d (lit "content") (JStr []) = JStr content /\
    line = lit "- **" ++
           py_str (dict_get d (lit "title") (JStr (lit "Chapter " ++ dec (i + 1)))) ++
           lit "** (id: " ++ py_str (dict_get d (lit "_id") (JStr [])) ++
           lit "): " ++ chapter_preview content.
Proof.
  unfold chapter_line. destruct ch as [| | | | | |d]; try discriminate.
  cbn [py_get rbind].
  destruct (dict_get d (lit "content") (JStr [])) as [| | | |content| |] eqn:Ec;
    try discriminate.
  cbn [preview_of rbind]. intros E%Ok_inj. subst line. eauto.
Qed.

(** C5, as the code has it: the preview kept for a stored chapter is at most
    200 characters of the content, with every newline replaced by a space,
    trimmed, followed by "..." exactly when the content is longer than 200
    characters; so it has at most 203 characters, holds no newline and is
    trimmed as a whole. *)
Theorem stored_preview `{PyRuntime} (i : nat) (ch : json) (line : pystr) :
  chapter_line i ch = Ok line ->
  exists d content,
    ch = JDict d /\
    dict_get d (lit "content") (JStr []) = JStr content /\
    line = lit "- **" ++
           py_str (dict_get d (lit "title") (JStr (lit "Chapter " ++ dec (i + 1)))) ++
           lit "** (id: " ++ py_str (dict_get d (lit "_id") (JStr [])) ++
           lit "): " ++ chapter_preview content /\
    chapter_preview content =
      strip (replace_char newline [space] (firstn 200 content)) ++
      (if (200 <? List.length content)%nat then lit "..." else []) /\
    (List.length (strip (replace_char newline [space] (firstn 200 content))) <= 200)%nat /\
    (List.length (chapter_preview content) <= 203)%nat /\
    ~ In newline (chapter_preview content) /\
    strip (chapter_preview content) = chapter_preview content.
Proof.
  intros Hl. apply chapter_line_inv in Hl as (d & content & -> & Hc & ->).
  exists d, content. repeat (split; [reflexivity || assumption|]).
  fold (preview_body content). unfold chapter_preview. fold (preview_body content).
  pose proof (preview_body_length content) as Hlen.
  destruct (200 <? List.length content)%nat.
  - split; [reflexivity|]. split; [exact Hlen|]. split; [|split].
    + rewrite length_app. change (List.length (lit "...")) with 3%nat. lia.
    + intros Hin. apply in_app_or in Hin as [Hin | Hin].
      * apply strip_incl in Hin. now apply replace_newline_none in Hin.
      * simpl in Hin. intuition discriminate.
    + apply preview_body_dots_trimmed.
  - rewrite app_nil_r. split; [reflexivity|]. split; [exact Hlen|]. split; [|split].
    + lia.
    + intros Hin. apply strip_incl in Hin. now apply replace_newline_none in Hin.
    + apply strip_fixed; [apply strip_head_ok | apply strip_last_ok].
Qed.

Lemma stored_preview_witness :
  (List.length (chapter_preview (repeat 97%N 201)) <= 203)%nat.
Proof.
  destruct (@stored_preview Sample.runtime 0 long_chapter
              (lit "- **One** (id: c1): " ++ repeat 97%N 200 ++ lit "...") eq_refl)
    as (d & content & Hd & Hc & _ & _ & _ & Hlen & _).
  injection Hd as <-. injection Hc as <-. exact Hlen.
Defined.

(** C5, as stated, fails: a content of 201 characters is stored with a
    preview of 203 characters. *)
Lemma preview_longer_than_200 :
  @chapter_line Sample.runtime 0 long_chapter =
    Ok (lit "- **One** (id: c1): " ++ repeat 97%N 200 ++ lit "...") /\
  chapter_preview (repeat 97%N 201) = repeat 97%N 200 ++ lit "..." /\
  List.length (chapter_preview (repeat 97%N 201)) = 203%nat.
Proof. repeat split; reflexivity. Qed.

(** ** Cache freshness *)








(** ** The order index of a new chapter *)

Lemma order_value_dict (ch : json) : is_dict ch -> _order_value ch = Ok (order_of ch).
Proof. destruct ch; simpl; try contradiction. reflexivity. Qed.

Lemma max_by_order_spec (rest : list json) (best : json) :
  is_dict best -> Forall is_dict rest ->
  exists last_ch,
    max_by_order best (order_of best) rest = Ok last_ch /\
    is_dict last_ch /\
    In last_ch (best :: rest) /\
    (forall ch, In ch (best :: rest) -> order_of ch <= order_of last_ch)%Z.
Proof.
  intros Hbest Hrest; revert best Hbest.
  induction Hrest as [|ch rest Hch _ IH]; intros best Hbest.
  - exists best. simpl. repeat split; auto. intros ch [<- | []]. lia.
  - cbn [max_by_order]. rewrite (order_value_dict ch Hch). cbn [rbind].
    destruct (order_of best <? order_of ch)%Z eqn:E.
    + apply Z.ltb_lt in E. destruct (IH ch Hch) as (last & Hl & Hd & Hin & Hmax).
      exists last. repeat split; auto.
      * simpl in Hin |- *. tauto.
      * intros x [<- | Hx]; [|apply Hmax, Hx].
        specialize (Hmax ch (or_introl eq_refl)). lia.
    + apply Z.ltb_ge in E. destruct (IH best Hbest) as (last & Hl & Hd & Hin & Hmax).
      exists last. repeat split; auto.
      * simpl in Hin |- *. tauto.
      * intros x [<- | [<- | Hx]].
        -- apply Hmax. now left.
        -- specialize (Hmax best (or_introl eq_refl)). lia.
        -- apply Hmax. now right.
Qed.

(** C10: with no existing chapter the new chapter gets order index 0; with
    existing chapters it gets one more than the larger of the largest
    [orderIndex] among them (-1 standing for a missing or non-integer one)
    and their count minus one, which is above the [orderIndex] of every
    existing chapter. *)
Theorem new_chapter_order_index (existing : json) (chapters : list json) :
  chapters_of_response existing = JList chapters ->
  Forall is_dict chapters ->
  (chapters = [] -> chapter_add_order_index existing = Ok 0%Z) /\
  (chapters <> [] ->
   exists largest,
     In largest (map order_of chapters) /\
     (forall ch, In ch chapters -> order_of ch <= largest)%Z /\
     chapter_add_order_index existing =
       Ok (Z.max largest (Z.of_nat (List.length chapters) - 1) + 1)%Z /\
     (forall ch, In ch chapters ->
        order_of ch < Z.max largest (Z.of_nat (List.length chapters) - 1) + 1)%Z).
Proof.
  intros Hresp Hdicts. unfold chapter_add_order_index. rewrite Hresp. split.
  - intros ->. reflexivity.
  - intros Hne. destruct chapters as [|ch0 rest]; [contradiction|].
    cbn [truthy py_iter rbind max_order py_len].
    inversion Hdicts as [|? ? Hch0 Hrest]; subst.
    rewrite (order_value_dict ch0 Hch0). cbn [rbind].
    destruct (max_by_order_spec rest ch0 Hch0 Hrest) as (last & Hl & Hd & Hin & Hmax).
    rewrite Hl. cbn [rbind]. rewrite (order_value_dict last Hd). cbn [rbind].
    exists (order_of last). repeat split.
    + now apply in_map.
    + exact Hmax.
    + intros ch Hch. specialize (Hmax ch Hch). lia.
Qed.

Lemma new_chapter_order_index_witness :
  (exists n, chapter_add_order_index three_chapters = Ok n /\ (5 < n)%Z) /\
  chapter_add_order_index (JList []) = Ok 0%Z.
Proof.
  split.
  - destruct (proj2 (new_chapter_order_index three_chapters
                       [JDict [(lit "orderIndex", JInt 5)];
                        JDict [(lit "title", str "untitled")];
                        JDict [(lit "orderIndex", JFloat 0)]]
                       eq_refl ltac:(repeat constructor))
                ltac:(discriminate))
      as (largest & _ & _ & Heq & Hlt).
    eexists. split; [exact Heq|].
    exact (Hlt (JDict [(lit "orderIndex", JInt 5)]) (or_introl eq_refl)).
  - exact (proj1 (new_chapter_order_index (JList []) [] eq_refl (Forall_nil _)) eq_refl).
Defined.

(** ** Commands *)

Lemma printed_nil (w : world) : printed w [] = w.
Proof. destruct w. unfold printed. simpl. now rewrite app_nil_r. Qed.

Lemma printed_printed (w : world) (a b : list pystr) :
  printed (printed w a) b = printed w (a ++ b).
Proof. unfold printed. simpl. now rewrite app_assoc. Qed.

Lemma print_run (l : pystr) (w : world) : print l w = (Return tt, printed w [l]).
Proof. reflexivity. Qed.


Lemma bind_print {B} (l : pystr) (k : unit -> M B) (w : world) :
  bind (print l) k w = k tt (printed w [l]).
Proof. reflexivity. Qed.


















(** ** Stale chapter ids *)


Lemma scan_cache_some (chapter_id : pystr) (fs : list (pystr * pystr))
  (stem : pystr) (hint : option pystr) :
  scan_cache chapter_id fs = Some (stem, hint) ->
  exists pre content post,
    fs = pre ++ (stem, content) :: post /\
    (forall f, In f pre -> contains (snd f) chapter_id = false) /\
    contains content chapter_id = true /\
    hint = title_hint chapter_id content.
Proof.
  induction fs as [|[s c] fs IH]; simpl; [discriminate|].
  destruct (contains c chapter_id) eqn:Ec.
  - intros [= <- <-]. exists [], c, fs. repeat split; auto. intros f [].
  - intros Hs. destruct (IH Hs) as (pre & content & post & -> & Hpre & Hc & Hh).
    exists ((s, c) :: pre), content, post. repeat split; auto.
    intros f [<- | Hf]; auto.
Qed.



Lemma listing_lines_dicts `{PyRuntime} (chapters : list json) (i : nat) :
  Forall is_dict chapters -> exists lines, listing_lines i chapters = Ok lines.
Proof.
  intros Hd; revert i; induction Hd as [|c chapters Hc _ IH]; intros i; simpl.
  - eauto.
  - destruct c; try contradiction. cbn [listing_line py_get rbind].
    destruct (IH (S i)) as [ls ->]. cbn [rbind]. eauto.
Qed.

Lemma no_title_match_dicts `{PyRuntime} (target : pystr) (chapters : list json) :
  no_title_match target chapters -> Forall is_dict chapters.
Proof.
  intros Hno. apply Forall_forall. intros c Hc.
  destruct (Hno c Hc) as (cd & t & -> & _). exact I.
Qed.


Lemma bind_unlink {B} (stem : pystr) (k : unit -> M B) (w : world) :
  bind (unlink stem) k w =
  k tt {| files := remove_file stem (files w); stdout := stdout w |}.
Proof. reflexivity. Qed.

Lemma chapter_not_found_run {A} (chapter_id : pystr) (w : world) :
  @chapter_not_found A chapter_id
    (printed w [lit "  Chapter ID not found, checking for stale cache..."]) =
  (Exit ExitUnrecoverable, printed w (not_found_lines chapter_id)).
Proof.
  unfold chapter_not_found. rewrite !bind_print. unfold sys_exit.
  now rewrite !printed_printed.
Qed.

(** The resolver, branch by branch. *)
Lemma resolve_cases `{PyRuntime} (api : remote) (stamp chapter_id : pystr)
  (w : world) :
  resolve_stale_id api stamp chapter_id w =
  match scan_cache chapter_id (files w) with
  | Some (stale_book, hint) =>
      let book := quiet (api_content api stale_book) in
      let chapters :=
        chapters_of_response (quiet (api_chapters_for_agent api stale_book)) in
      if truthy (JStr stale_book) then
        if truthy book then
          if truthy chapters then
            bind (lift (rematch hint chapters))
                 (conclude stamp chapter_id stale_book book chapters)
                 (refreshing w stale_book)
          else
            (Exit ExitNoChapters,
             printed (refreshing w stale_book)
               [lit "ERROR: Book " ++ stale_book ++ lit " has no chapters."])
        else
          (Exit ExitBookDeleted,
           printed (refreshing w stale_book)
             [lit "ERROR: Book " ++ stale_book ++ lit " no longer exists.";
              lit "  The book may have been deleted."])
      else (Exit ExitUnrecoverable, printed w (not_found_lines chapter_id))
  | None => (Exit ExitUnrecoverable, printed w (not_found_lines chapter_id))
  end.
Proof.
  unfold resolve_stale_id.
  rewrite bind_print. unfold bind at 1. cbn [printed files].
  destruct (scan_cache chapter_id (files w)) as [[stale_book hint]|];
    [|apply chapter_not_found_run].
  cbv zeta. destruct (truthy (JStr stale_book)); [|apply chapter_not_found_run].
  rewrite !bind_print, bind_unlink.
  destruct (truthy (quiet (api_content api stale_book))); cbn [negb].
  - destruct (truthy (chapters_of_response _)); cbn [negb].
    + unfold refreshing, found_stale, printed. cbn [files stdout].
      rewrite <- !app_assoc. reflexivity.
    + rewrite bind_print. unfold sys_exit, refreshing, found_stale, printed.
      cbn [files stdout]. rewrite <- !app_assoc. reflexivity.
  - rewrite !bind_print. unfold sys_exit, refreshing, found_stale, printed.
    cbn [files stdout]. rewrite <- !app_assoc. reflexivity.
Qed.




Section StaleResolution.
Context `{PyRuntime}.
Variables (api : remote) (stamp chapter_id : pystr) (w : world).
Variables (pre post : list (pystr * pystr)) (stale_book content : pystr).
Variables (book : json) (chapters : list json) (summary : pystr).

(** The first cache file whose text contains the id is that of
    [stale_book]. *)
Hypothesis cache_entry : files w = pre ++ (stale_book, content) :: post.
Hypothesis first_entry :
  forall f, In f pre -> contains (snd f) chapter_id = false.
Hypothesis entry_has_id : contains content chapter_id = true.
Hypothesis book_named : stale_book <> [].
(** The book still exists, and its refreshed chapters are [chapters]. *)
Hypothesis book_exists : api_content api stale_book = Some book.
Hypothesis book_truthy : truthy book = true.
Hypothesis refreshed :
  chapters_of_response (quiet (api_chapters_for_agent api stale_book)) =
  JList chapters.
(** The summary of the refreshed book can be built. *)
Hypothesis rebuilt :
  build_summary stale_book book (JList chapters) stamp = Ok summary.


End StaleResolution.

(** ** Scenarios *)




(* ================================================================== *)
(** * Further properties *)
(* ================================================================== *)

(** ** Validity of a chapter *)

Lemma not_nonempty_str_false (x : json) :
  not_nonempty_str x = false <-> nonblank_str x.
Proof.
  unfold nonblank_str. split.
  - destruct x as [| | | |s| |]; try discriminate. simpl.
    intros E. exists s. split; [reflexivity|]. intros E'. rewrite E' in E. discriminate.
  - intros (t & -> & Ht). simpl. destruct (strip t); [contradiction | reflexivity].
Qed.

Lemma existsb_str_eqb (s : pystr) (l : list pystr) :
  existsb (str_eqb s) l = true <-> In s l.
Proof.
  rewrite existsb_exists. split.
  - intros (x & Hx & E). apply str_eqb_eq in E. now subst x.
  - intros Hin. exists s. split; [exact Hin | apply str_eqb_refl].
Qed.

Lemma raw_tag_list_nil `{PyRuntime} (prefix t : pystr) :
  raw_tag_list prefix t = [] <->
  forall raw_tag, In raw_tag _RAW_TAGS -> has_raw_tag t raw_tag = false.
Proof.
  unfold raw_tag_list.
  destruct (find (has_raw_tag t) _RAW_TAGS) as [tag|] eqn:E; split.
  - discriminate.
  - intros Hall. apply find_some in E as [Hin Htag].
    rewrite (Hall _ Hin) in Htag. discriminate.
  - intros _. apply (find_none _ _ E).
  - reflexivity.
Qed.

Lemma dash_errors_nil (prefix s t : pystr) :
  dash_errors prefix (JStr s) t = [] <->
  (s = lit "text" ->
   startswith t (emdash ++ lit " ") = false /\ startswith t (lit "- ") = false).
Proof.
  unfold dash_errors. cbn [eq_str].
  destruct (str_eqb s (lit "text")) eqn:Es; cbn [andb].
  - apply str_eqb_eq in Es.
    destruct (startswith t (emdash ++ lit " ")), (startswith t (lit "- "));
      cbn [orb]; split; try discriminate; try reflexivity; auto.
    + intros Hs. destruct (Hs Es); discriminate.
    + intros Hs. destruct (Hs Es); discriminate.
    + intros Hs. destruct (Hs Es); discriminate.
  - apply str_eqb_neq in Es. split; [intros _ E; contradiction | reflexivity].
Qed.

Lemma narrative_list_nil `{PyRuntime} (prefix s : pystr) (d : list (pystr * json)) :
  narrative_list prefix s d = [] <->
  (dict_has d (lit "narrative") = true ->
   In s NARRATIVE_TYPES /\ nonblank_str (dict_get d (lit "narrative") JNull)).
Proof.
  unfold narrative_list. destruct (dict_has d (lit "narrative")).
  2:{ split; [discriminate | reflexivity]. }
  destruct (existsb (str_eqb s) NARRATIVE_TYPES) eqn:En; cbn [negb].
  - apply existsb_str_eqb in En.
    destruct (not_nonempty_str (dict_get d (lit "narrative") JNull)) eqn:Enn.
    + split; [discriminate|]. intros Hn. destruct (Hn eq_refl) as [_ Hb].
      apply not_nonempty_str_false in Hb. congruence.
    + apply not_nonempty_str_false in Enn. split; auto.
  - split; [discriminate|]. intros Hn. destruct (Hn eq_refl) as [Hin _].
    apply existsb_str_eqb in Hin. congruence.
Qed.

Lemma text_errors_nil `{PyRuntime} (prefix : pystr) (stype text : json) :
  text_errors prefix stype text = [] <-> nonblank_str text.
Proof.
  unfold text_errors. rewrite <- not_nonempty_str_false.
  destruct text; simpl; try (split; discriminate).
  destruct (strip s); split; congruence.
Qed.

Lemma strip_nil : strip [] = [].
Proof. reflexivity. Qed.

(** A segment gets no violation exactly when it is well formed. *)
Lemma segment_errors_nil `{PyRuntime} (i : nat) (seg : json) :
  segment_errors i seg = Ok [] <-> well_formed_segment seg.
Proof.
  split.
  - intros He. apply segment_errors_cases in He
      as [E | [E | [[stype E] | [(d & -> & Ht & E) | (d & s & -> & Ht & Hv & Hs & E)]]]];
      try discriminate.
    + exists d, (lit "scene_break"). split; [reflexivity|]. split; [exact Ht|].
      split; [apply existsb_str_eqb; reflexivity|].
      rewrite str_eqb_refl. unfold scene_break_list in E.
      destruct (dict_has d (lit "text")), (dict_has d (lit "narrative"));
        try discriminate. auto.
    + symmetry in E. apply app_eq_nil in E as [Et E]. apply app_eq_nil in E as [En Ec].
      exists d, s. split; [reflexivity|]. split; [exact Ht|].
      split; [now apply existsb_str_eqb|]. rewrite Hs.
      apply text_errors_nil in Et. destruct Et as (t & Etext & Hstrip).
      rewrite Etext in Ec. split.
      * exists t. split; [exact Etext|]. split; [exact Hstrip|].
        destruct t as [|c t]; [now destruct Hstrip|].
        cbn [content_list] in Ec. apply app_eq_nil in Ec as [Er Ed].
        split; [now apply (raw_tag_list_nil (seg_prefix i)) |
                now apply (dash_errors_nil (seg_prefix i))].
      * now apply (narrative_list_nil (seg_prefix i)).
  - intros (d & s & -> & Ht & Hin & Hrest).
    destruct (str_eqb s (lit "scene_break")) eqn:Hs.
    + apply str_eqb_eq in Hs. subst s.
      rewrite (segment_errors_scene_break i d Ht).
      destruct Hrest as [-> ->]. reflexivity.
    + destruct Hrest as [(t & Etext & Hstrip & Hraw & Hdash) Hnarr].
      rewrite (segment_errors_known i d s Ht (proj2 (existsb_str_eqb _ _) Hin) Hs).
      rewrite Etext.
      rewrite (proj2 (text_errors_nil (seg_prefix i) (JStr s) (JStr t)))
        by (exists t; auto).
      rewrite (proj2 (narrative_list_nil (seg_prefix i) s d) Hnarr).
      destruct t as [|c t]; [reflexivity|]. cbn [content_list app].
      rewrite (proj2 (raw_tag_list_nil (seg_prefix i) (c :: t)) Hraw).
      now rewrite (proj2 (dash_errors_nil (seg_prefix i) s (c :: t)) Hdash).
Qed.

Lemma segments_loop_nil `{PyRuntime} (segs : list json) (i : nat) :
  segments_loop i segs [] = Ok [] <-> Forall well_formed_segment segs.
Proof.
  revert i; induction segs as [|seg segs IH]; intros i.
  - split; [constructor | reflexivity].
  - split.
    + intros Hl. apply segments_loop_cons in Hl as (e & rest & He & Hrest & E).
      symmetry in E. apply app_eq_nil in E as [-> ->].
      constructor; [now apply (segment_errors_nil i) | now apply (IH (S i))].
    + intros Hs. inversion Hs as [|? ? Hseg Hrest]; subst.
      cbn [segments_loop]. rewrite (proj2 (segment_errors_nil i seg) Hseg).
      cbn [rbind app]. now apply IH.
Qed.

Lemma duplicate_title_errors_cons `{PyRuntime} (title : json) (segs : list json)
  (m : pystr) (ms : list pystr) :
  duplicate_title_errors title segs = m :: ms -> repeats_title title segs.
Proof.
  intros E. unfold duplicate_title_errors in E.
  destruct segs as [|[| | | | | |first] rest]; try discriminate.
  destruct (dict_get first (lit "text") JNull) as [| | | |ftext| |] eqn:Etx;
    try discriminate.
  destruct title as [| | | |t| |]; try discriminate.
  destruct (dict_get first (lit "type") JNull) as [| | | |ty| |] eqn:Ety;
    cbn [eq_str andb] in E; try discriminate.
  destruct (str_eqb ty (lit "heading")) eqn:Eh; cbn [andb] in E; [|discriminate].
  apply str_eqb_eq in Eh. subst ty.
  destruct (truthy (JStr (strip t))) eqn:Et; [|discriminate].
  destruct (str_eqb (str_lower (strip ftext)) (str_lower (strip t))) eqn:Eeq.
  - apply str_eqb_eq in Eeq. exists first, rest, ftext, t.
    repeat split; auto. intros E0. rewrite E0 in Et. discriminate.
  - cbn [orb] in E.
    destruct (contains (str_lower (strip ftext)) (str_lower (strip t))) eqn:Ec;
      [|discriminate].
    exists first, rest, ftext, t.
    repeat split; auto. intros E0. rewrite E0 in Et. discriminate.
Qed.

Lemma duplicate_title_errors_nil `{PyRuntime} (title : json) (segs : list json) :
  duplicate_title_errors title segs = [] <-> ~ repeats_title title segs.
Proof.
  split.
  - intros E (first & rest & ftext & t & -> & Hty & Htx & -> & Hne & Hor).
    unfold duplicate_title_errors in E. rewrite Htx, Hty in E.
    cbn [eq_str] in E. rewrite str_eqb_refl in E.
    assert (Ht : truthy (JStr (strip t)) = true)
      by (simpl; destruct (strip t); congruence).
    rewrite Ht in E. cbn [andb] in E.
    destruct Hor as [Heq | Hc].
    + rewrite (proj2 (str_eqb_eq _ _) Heq) in E. discriminate.
    + rewrite Hc, orb_true_r in E. discriminate.
  - intros Hn. destruct (duplicate_title_errors title segs) as [|m ms] eqn:E;
      [reflexivity|]. exfalso. apply Hn. exact (duplicate_title_errors_cons _ _ _ _ E).
Qed.

Lemma title_errors_nil (title : json) :
  title_errors title = [] <-> nonblank_str title.
Proof.
  unfold title_errors. rewrite <- not_nonempty_str_false.
  destruct title; simpl; try (split; discriminate).
  destruct (strip s); split; congruence.
Qed.

(** What a document that validation accepts is made of. *)
Lemma validate_accepts `{PyRuntime} (data : json) :
  _validate_chapter_json data = Ok [] -> well_formed_chapter data.
Proof.
  destruct data as [| | | | | |d]; try discriminate.
  unfold _validate_chapter_json.
  destruct (dict_get d (lit "segments") JNull) as [| | | | |segs|] eqn:Hsegs;
    try (intros E; apply Ok_inj in E; apply app_eq_nil in E as [_ E]; discriminate).
  destruct segs as [|seg segs];
    [intros E; apply Ok_inj in E; apply app_eq_nil in E as [_ E]; discriminate|].
  rewrite segments_loop_app.
  destruct (segments_loop 0 (seg :: segs) []) as [all|x] eqn:Hall;
    cbn [rbind]; [|discriminate].
  intros E. apply Ok_inj in E. apply app_eq_nil in E as [E Hdup].
  apply app_eq_nil in E as [Htitle ->].
  exists d, (seg :: segs). split; [reflexivity|].
  split; [now apply title_errors_nil|]. split; [exact Hsegs|].
  split; [discriminate|].
  split; [now apply (segments_loop_nil _ 0) | now apply duplicate_title_errors_nil].
Qed.

(** A well-formed chapter gets no violation. *)
Lemma well_formed_validates `{PyRuntime} (data : json) :
  well_formed_chapter data -> _validate_chapter_json data = Ok [].
Proof.
  intros (d & segs & -> & Htitle & Hsegs & Hne & Hwf & Hdup).
  unfold _validate_chapter_json. rewrite Hsegs.
  destruct segs as [|seg segs]; [now destruct Hne|].
  rewrite segments_loop_app, (proj2 (segments_loop_nil _ 0) Hwf).
  cbn [rbind]. rewrite (proj2 (title_errors_nil _) Htitle).
  now rewrite (proj2 (duplicate_title_errors_nil _ _) Hdup).
Qed.

(** X1: validation accepts a document (returns the empty list) exactly when
    the document is a well-formed chapter: an object with a non-blank string
    title and a non-empty array of well-formed segments whose first segment
    is not a heading repeating the title. *)
Theorem valid_iff_well_formed `{PyRuntime} (data : json) :
  _validate_chapter_json data = Ok [] <-> well_formed_chapter data.
Proof.
  split.
  - intros Hv. now apply validate_accepts.
  - intros Hwf. now apply well_formed_validates.
Qed.

(** ** What validation raises *)

Lemma segment_errors_raise `{PyRuntime} (i : nat) (seg : json) (e : exn) :
  segment_errors i seg = Raise e ->
  e = TypeError /\
  exists sd, seg = JDict sd /\ ~ hashable (dict_get sd (lit "type") JNull).
Proof.
  intros He.
  destruct seg as [| | | | | |d]; try discriminate.
  destruct (dict_get d (lit "type") JNull) as [| | | |s| |] eqn:Ht;
    try (destruct (segment_errors_returns i (JDict d)) as [x Hx];
         [change (hashable (dict_get d (lit "type") JNull)); rewrite Ht; exact I
         | congruence]).
  - unfold segment_errors in He. rewrite Ht in He.
    cbn [is_none set_contains rbind] in He.
    assert (E : e = TypeError) by congruence. subst e.
    split; [reflexivity|]. exists d. rewrite Ht. split; [reflexivity | simpl; tauto].
  - unfold segment_errors in He. rewrite Ht in He.
    cbn [is_none set_contains rbind] in He.
    assert (E : e = TypeError) by congruence. subst e.
    split; [reflexivity|]. exists d. rewrite Ht. split; [reflexivity | simpl; tauto].
Qed.

Lemma segment_errors_unhashable `{PyRuntime} (i : nat) (sd : list (pystr * json)) :
  ~ hashable (dict_get sd (lit "type") JNull) ->
  segment_errors i (JDict sd) = Raise TypeError.
Proof.
  intros Hh. unfold segment_errors.
  destruct (dict_get sd (lit "type") JNull); simpl in Hh; try tauto; reflexivity.
Qed.

Lemma segments_loop_raise `{PyRuntime} (segs : list json) (i : nat)
  (errors : list pystr) (e : exn) :
  segments_loop i segs errors = Raise e <->
  e = TypeError /\
  exists sd, In (JDict sd) segs /\ ~ hashable (dict_get sd (lit "type") JNull).
Proof.
  revert i errors; induction segs as [|seg segs IH]; intros i errors.
  - split; [discriminate | intros (_ & sd & [] & _)].
  - cbn [segments_loop]. destruct (segment_errors i seg) as [x|x] eqn:Hseg;
      cbn [rbind].
    + rewrite IH. split.
      * intros (-> & sd & Hin & Hh). split; [reflexivity|]. exists sd. simpl. auto.
      * intros (-> & sd & [-> | Hin] & Hh).
        -- rewrite (segment_errors_unhashable i sd Hh) in Hseg. discriminate.
        -- split; [reflexivity|]. eauto.
    + apply segment_errors_raise in Hseg as (-> & sd & -> & Hh). split.
      * intros E. injection E as <-. split; [reflexivity|]. exists sd. simpl. auto.
      * now intros (-> & _).
Qed.

(** X2: validation raises exactly when some segment is an object whose
    "type" is a list or an object, and what it raises is then TypeError; on
    every other input it returns its list of violations. *)
Theorem validation_raises_iff `{PyRuntime} (data : json) (e : exn) :
  _validate_chapter_json data = Raise e <->
  e = TypeError /\
  exists d segs sd,
    data = JDict d /\
    dict_get d (lit "segments") JNull = JList segs /\
    In (JDict sd) segs /\
    ~ hashable (dict_get sd (lit "type") JNull).
Proof.
  split.
  - destruct data as [| | | | | |d]; try discriminate.
    unfold _validate_chapter_json.
    destruct (dict_get d (lit "segments") JNull) as [| | | | |segs|] eqn:Hsegs;
      try discriminate.
    destruct segs as [|seg segs]; [discriminate|].
    destruct (segments_loop 0 (seg :: segs) _) as [all|x] eqn:Hall;
      cbn [rbind]; [discriminate|].
    intros E. injection E as ->.
    apply segments_loop_raise in Hall as (-> & sd & Hin & Hh).
    split; [reflexivity|]. exists d, (seg :: segs), sd. auto.
  - intros (-> & d & segs & sd & -> & Hsegs & Hin & Hh).
    unfold _validate_chapter_json. rewrite Hsegs.
    destruct segs as [|seg segs]; [destruct Hin|].
    rewrite (proj2 (segments_loop_raise (seg :: segs) 0 _ TypeError)); [reflexivity|].
    split; [reflexivity|]. eauto.
Qed.

(** ** Segments that are not checked further *)

Lemma duplicate_title_other `{PyRuntime} (k : nat) (title : json)
  (segs : list json) (seg : json) :
  nth_error segs k = Some seg ->
  (forall sd, seg = JDict sd ->
              dict_get sd (lit "type") JNull <> JStr (lit "heading")) ->
  filter (attributed k) (duplicate_title_errors title segs) = [].
Proof.
  intros Hk Hty.
  destruct (duplicate_title_errors_cases title segs)
    as [-> | [-> (first & rest & -> & Hfirst)]]; [reflexivity|].
  rewrite filter_one, (attributed_about _ _ _ duplicate_title_about).
  destruct k as [|k]; [|reflexivity].
  simpl in Hk. injection Hk as <-. now destruct (Hty first eq_refl).
Qed.

Lemma sorted_valid_types :
  join (lit ", ") (sorted VALID_SEGMENT_TYPES) =
  lit "center, dialogue, emphasis, heading, monolog, right, scene_break, shout, text, whisper".
Proof. reflexivity. Qed.

(** X3: a segment that is not an object, has no type, or has a type that is
    not one of the ten kinds gets exactly one violation, whatever else it
    holds: the segment is not checked further.  The message for an unknown
    type lists the ten kinds in alphabetical order. *)
Theorem malformed_segment_one_violation `{PyRuntime} (d : list (pystr * json))
  (segs : list json) (k : nat) (seg : json) (errors : list pystr) :
  dict_get d (lit "segments") JNull = JList segs ->
  nth_error segs k = Some seg ->
  _validate_chapter_json (JDict d) = Ok errors ->
  (~ is_dict seg ->
   filter (attributed k) errors =
     [seg_prefix k ++ lit ": each segment must be an object"]) /\
  (forall sd, seg = JDict sd ->
     dict_get sd (lit "type") JNull = JNull ->
     filter (attributed k) errors =
       [seg_prefix k ++ lit ": missing required field 'type'"]) /\
  (forall sd, seg = JDict sd ->
     dict_get sd (lit "type") JNull <> JNull ->
     (forall s, In s VALID_SEGMENT_TYPES ->
                dict_get sd (lit "type") JNull <> JStr s) ->
     filter (attributed k) errors =
       [seg_prefix k ++ lit ": unknown type '" ++
        py_str (dict_get sd (lit "type") JNull) ++ lit "'. Valid: " ++
        lit "center, dialogue, emphasis, heading, monolog, right, scene_break, shout, text, whisper"]).
Proof.
  intros Hsegs Hk Hv.
  destruct (violations_of_segment d segs k seg errors Hsegs Hk Hv) as (e & He & Hf).
  rewrite Hf. clear Hf. repeat split.
  - intros Hnd. rewrite (duplicate_title_other k _ segs seg Hk), app_nil_r.
    + destruct seg; try (simpl in Hnd; tauto); cbn in He; now apply Ok_inj in He.
    + intros sd ->. simpl in Hnd. tauto.
  - intros sd -> Hty. rewrite (duplicate_title_other k _ segs _ Hk), app_nil_r.
    + unfold segment_errors in He. rewrite Hty in He. cbn [is_none] in He.
      now apply Ok_inj in He.
    + intros sd' E. injection E as <-. rewrite Hty. discriminate.
  - intros sd -> Hnn Hunk.
    rewrite (duplicate_title_other k _ segs _ Hk), app_nil_r.
    + rewrite <- sorted_valid_types. unfold segment_errors in He.
      destruct (dict_get sd (lit "type") JNull) as [| | | |s| |] eqn:Hty;
        cbn [is_none set_contains rbind negb] in He;
        try discriminate; try (now destruct Hnn); try (now apply Ok_inj in He).
      destruct (existsb (str_eqb s) VALID_SEGMENT_TYPES) eqn:Hin;
        cbn [negb] in He; [|now apply Ok_inj in He].
      apply existsb_str_eqb in Hin. now destruct (Hunk s Hin).
    + intros sd' E. injection E as <-. apply Hunk.
      apply existsb_str_eqb. reflexivity.
Qed.

Lemma malformed_segment_one_violation_witness :
  filter (attributed 1) (violations_of mixed_document) =
    [lit "segments[1]: each segment must be an object"] /\
  filter (attributed 2) (violations_of mixed_document) =
    [lit "segments[2]: missing required field 'type'"] /\
  filter (attributed 3) (violations_of mixed_document) =
    [lit "segments[3]: unknown type 'poem'. Valid: center, dialogue, emphasis, heading, monolog, right, scene_break, shout, text, whisper"].
Proof.
  split; [|split].
  - refine (proj1 (@malformed_segment_one_violation Sample.runtime
              (fields_of mixed_document) (segments_of mixed_document) 1 (JInt 7)
              (violations_of mixed_document) eq_refl eq_refl eq_refl) _).
    intros Hd; exact Hd.
  - refine (proj1 (proj2 (@malformed_segment_one_violation Sample.runtime
              (fields_of mixed_document) (segments_of mixed_document) 2 _
              (violations_of mixed_document) eq_refl eq_refl eq_refl)) _ eq_refl eq_refl).
  - refine (proj2 (proj2 (@malformed_segment_one_violation Sample.runtime
              (fields_of mixed_document) (segments_of mixed_document) 3 _
              (violations_of mixed_document) eq_refl eq_refl eq_refl)) _ eq_refl _ _).
    + discriminate.
    + intros s Hs. simpl in Hs.
      repeat (destruct Hs as [<- | Hs]; [discriminate|]). destruct Hs.
Defined.

(** ** A narrative where the kind takes none *)

Lemma narrative_unsupported_attributed (s : pystr) (k : nat) (m : pystr) :
  narrative_unsupported s k m = true -> attributed k m = true.
Proof.
  intros E.
  apply (startswith_trans _ _ (lit "'" ++ s ++ lit "' does not support 'narrative' field")).
  rewrite <- app_assoc. exact E.
Qed.

Lemma narrative_unsupported_duplicate_title (s : pystr) (k : nat) :
  narrative_unsupported s k msg_duplicate_title = false.
Proof.
  destruct (narrative_unsupported s k msg_duplicate_title) eqn:E; [|reflexivity].
  pose proof (narrative_unsupported_attributed _ _ _ E) as Ha.
  rewrite (attributed_about _ _ _ duplicate_title_about) in Ha.
  apply Nat.eqb_eq in Ha. subst k. discriminate E.
Qed.

Lemma quoted_tail (k : nat) (s a b : pystr) :
  startswith (seg_prefix k ++ lit ": '" ++ s ++ a)
             (seg_prefix k ++ lit ": '" ++ s ++ b) = startswith a b.
Proof. now rewrite !startswith_common. Qed.

Lemma narrative_unsupported_bad_text (s : pystr) (k : nat) :
  In s VALID_SEGMENT_TYPES ->
  narrative_unsupported s k (msg_bad_text (seg_prefix k)) = false.
Proof.
  intros Hin. unfold narrative_unsupported, msg_bad_text. rewrite tail_test.
  simpl in Hin.
  repeat (destruct Hin as [<- | Hin]; [reflexivity|]). destruct Hin.
Qed.

(** X4: a segment of a kind outside the four speech kinds that carries a
    narrative gets exactly one violation saying that its kind does not
    support the field; the message names the four kinds that do, except for
    a scene break. *)
Theorem narrative_on_unsupported_kind `{PyRuntime} (d : list (pystr * json))
  (segs : list json) (k : nat) (sd : list (pystr * json)) (s : pystr)
  (errors : list pystr) :
  dict_get d (lit "segments") JNull = JList segs ->
  nth_error segs k = Some (JDict sd) ->
  dict_get sd (lit "type") JNull = JStr s ->
  In s VALID_SEGMENT_TYPES ->
  ~ In s NARRATIVE_TYPES ->
  dict_has sd (lit "narrative") = true ->
  _validate_chapter_json (JDict d) = Ok errors ->
  filter (narrative_unsupported s k) errors =
    [seg_prefix k ++ lit ": '" ++ s ++ lit "' does not support 'narrative' field" ++
     (if str_eqb s (lit "scene_break") then []
      else lit ". Only dialogue, monolog, shout, whisper do.")].
Proof.
  intros Hsegs Hk Hty Hin Hnot Hnarr Hv.
  destruct (kind_violations_of_segment (narrative_unsupported s) d segs k _ errors
              (narrative_unsupported_attributed s k)
              (narrative_unsupported_duplicate_title s k) Hsegs Hk Hv)
    as (e & He & ->).
  destruct (str_eqb s (lit "scene_break")) eqn:Hs.
  - apply str_eqb_eq in Hs. subst s.
    rewrite (segment_errors_scene_break k sd Hty) in He. apply Ok_inj in He.
    subst e. rewrite Hnarr, filter_app.
    unfold narrative_unsupported, msg_scene_break_text, msg_scene_break_narrative.
    destruct (dict_has sd (lit "text")); rewrite ?filter_one, !tail_test; reflexivity.
  - rewrite (segment_errors_known k sd s Hty (proj2 (existsb_str_eqb _ _) Hin) Hs)
      in He.
    apply Ok_inj in He. subst e. rewrite !filter_app.
    assert (Ht : forall text,
               filter (narrative_unsupported s k)
                 (text_errors (seg_prefix k) (JStr s) text) = []).
    { intros text. unfold text_errors.
      destruct (is_none text); [|destruct (not_nonempty_str text)];
        rewrite ?filter_one, ?(narrative_unsupported_bad_text s k Hin);
        try reflexivity.
      unfold narrative_unsupported, msg_requires_text.
      now rewrite py_str_str, quoted_tail. }
    assert (Hc : forall text,
               filter (narrative_unsupported s k)
                 (content_list (seg_prefix k) (JStr s) text) = []).
    { intros text. destruct text as [| | | |[|c t]| |]; try reflexivity.
      cbn [content_list]. rewrite filter_app. unfold raw_tag_list, dash_errors.
      destruct (find (has_raw_tag (c :: t)) _RAW_TAGS) as [tag|];
        destruct (eq_str (JStr s) (lit "text") && _);
        rewrite ?filter_one; cbn [filter app];
        unfold narrative_unsupported, msg_raw_tag, msg_dialogue_dash;
        rewrite ?tail_test; reflexivity. }
    rewrite Ht, Hc, app_nil_r. cbn [app].
    unfold narrative_list. rewrite Hnarr.
    destruct (existsb (str_eqb s) NARRATIVE_TYPES) eqn:En;
      [apply existsb_str_eqb in En; contradiction|]. cbn [negb].
    rewrite filter_one. unfold narrative_unsupported, msg_narrative_unsupported.
    rewrite py_str_str.
    replace (seg_prefix k ++ lit ": '" ++ s ++
             lit "' does not support 'narrative' field. " ++ lit "Only " ++
             join (lit ", ") (sorted NARRATIVE_TYPES) ++ lit " do.")
      with ((seg_prefix k ++ lit ": '" ++ s ++
             lit "' does not support 'narrative' field") ++
            lit ". Only dialogue, monolog, shout, whisper do.").
    + rewrite startswith_app. now rewrite <- !app_assoc.
    + rewrite <- !app_assoc. reflexivity.
Qed.

Lemma narrative_on_unsupported_kind_witness :
  filter (narrative_unsupported (lit "emphasis") 4) (violations_of mixed_document) =
    [lit "segments[4]: 'emphasis' does not support 'narrative' field. Only dialogue, monolog, shout, whisper do."].
Proof.
  refine (@narrative_on_unsupported_kind Sample.runtime
            (fields_of mixed_document) (segments_of mixed_document) 4 _
            (lit "emphasis") (violations_of mixed_document)
            eq_refl eq_refl eq_refl _ _ eq_refl eq_refl).
  - apply existsb_str_eqb. reflexivity.
  - intros Hs. simpl in Hs.
    repeat (destruct Hs as [E | Hs]; [discriminate E|]). destruct Hs.
Defined.

(** ** The heading that repeats the title *)

Lemma heading_violation_segment `{PyRuntime} (k : nat) (seg : json) (e : list pystr) :
  segment_errors k seg = Ok e -> filter (heading_violation k) e = [].
Proof.
  intros He.
  destruct (kind_segment_errors heading_violation k) with (seg := seg) (e := e)
    as [E | (d & s & _ & _ & _ & _ & E)]; try exact He; try exact E;
    try (intros; unfold heading_violation, msg_seg_not_object, msg_missing_type,
           msg_unknown_type, msg_scene_break_text, msg_scene_break_narrative,
           msg_requires_text, msg_bad_text, msg_narrative_unsupported,
           msg_bad_narrative; rewrite tail_test; reflexivity).
  rewrite E. destruct (dict_get d (lit "text") JNull) as [| | | |[|c t]| |];
    try reflexivity.
  cbn [content_list]. rewrite filter_app. unfold raw_tag_list, dash_errors.
  destruct (find (has_raw_tag (c :: t)) _RAW_TAGS) as [tag|];
    destruct (eq_str (JStr s) (lit "text") && _);
    rewrite ?filter_one; cbn [filter app];
    unfold heading_violation, msg_raw_tag, msg_dialogue_dash;
    rewrite ?tail_test; reflexivity.
Qed.

Lemma duplicate_title_not_in_loop `{PyRuntime} (segs : list json) (all : list pystr) :
  segments_loop 0 segs [] = Ok all -> ~ In msg_duplicate_title all.
Proof.
  intros Hall Hin.
  assert (Hf : In msg_duplicate_title (filter (heading_violation 0) all)).
  { apply filter_In. split; [exact Hin | reflexivity]. }
  destruct segs as [|seg segs].
  - apply Ok_inj in Hall. subst all. destruct Hin.
  - destruct (segments_loop_nth (seg :: segs) 0 0 seg all Hall eq_refl)
      as (e & He & Hfe).
    rewrite <- (filter_refine (heading_violation 0) (attributed 0)) in Hf.
    + cbn [Nat.add] in Hfe, He. rewrite Hfe in Hf.
      rewrite (heading_violation_segment 0 seg e He) in Hf. destruct Hf.
    + intros m E. apply (startswith_trans _ _ (lit "heading text duplicates")).
      rewrite <- app_assoc. exact E.
Qed.

Lemma duplicate_title_not_title_error (title : json) :
  ~ In msg_duplicate_title (title_errors title).
Proof.
  unfold title_errors.
  destruct (is_none title); [|destruct (not_nonempty_str title)];
    simpl; intros Hin; repeat (destruct Hin as [Hin | Hin]; [discriminate Hin|]);
    exact Hin.
Qed.

(** X5: among the violations of a document, the one that says the first
    heading duplicates the chapter title is present exactly when the first
    segment is a heading whose trimmed, lower-cased text is or contains the
    trimmed, lower-cased title; it is then the last violation and occurs
    once. *)
Theorem duplicate_heading_violation `{PyRuntime} (d : list (pystr * json))
  (errors : list pystr) :
  _validate_chapter_json (JDict d) = Ok errors ->
  (forall segs,
     dict_get d (lit "segments") JNull = JList segs ->
     repeats_title (dict_get d (lit "title") JNull) segs ->
     exists before,
       errors = before ++ [msg_duplicate_title] /\ ~ In msg_duplicate_title before) /\
  (In msg_duplicate_title errors ->
   exists segs,
     dict_get d (lit "segments") JNull = JList segs /\
     repeats_title (dict_get d (lit "title") JNull) segs).
Proof.
  unfold _validate_chapter_json.
  destruct (dict_get d (lit "segments") JNull) as [| | | | |segs|] eqn:Hsegs;
    try (intros E%Ok_inj; subst errors; split; [discriminate|];
         intros Hin; apply in_app_or in Hin as [Hin | [Hin | []]];
         [now apply duplicate_title_not_title_error in Hin | discriminate Hin]).
  destruct segs as [|seg segs].
  { intros E%Ok_inj; subst errors; split.
    - intros segs E (first & rest & ftext & t & -> & _). discriminate E.
    - intros Hin; apply in_app_or in Hin as [Hin | [Hin | []]];
        [now apply duplicate_title_not_title_error in Hin | discriminate Hin]. }
  rewrite segments_loop_app.
  destruct (segments_loop 0 (seg :: segs) []) as [all|x] eqn:Hall;
    cbn [rbind]; [|discriminate].
  intros E%Ok_inj. subst errors.
  assert (Hbefore : ~ In msg_duplicate_title
                      (title_errors (dict_get d (lit "title") JNull) ++ all)).
  { intros Hin. apply in_app_or in Hin as [Hin | Hin].
    - now apply duplicate_title_not_title_error in Hin.
    - now apply (duplicate_title_not_in_loop _ _ Hall). }
  split.
  - intros segs' E Hrep. injection E as <-.
    destruct (duplicate_title_errors_cases (dict_get d (lit "title") JNull) (seg :: segs))
      as [E | [E _]].
    + now apply duplicate_title_errors_nil in E.
    + rewrite E. eauto.
  - intros Hin. exists (seg :: segs). split; [reflexivity|].
    apply in_app_or in Hin as [Hin | Hin]; [contradiction|].
    destruct (duplicate_title_errors_cases (dict_get d (lit "title") JNull) (seg :: segs))
      as [E | [E _]].
    + rewrite E in Hin. destruct Hin.
    + exact (duplicate_title_errors_cons _ _ _ _ E).
Qed.

Lemma duplicate_heading_violation_witness :
  exists before,
    violations_of repeated_title_document = before ++ [msg_duplicate_title] /\
    ~ In msg_duplicate_title before.
Proof.
  refine (proj1 (@duplicate_heading_violation Sample.runtime
                   (fields_of repeated_title_document)
                   (violations_of repeated_title_document) eq_refl)
            (segments_of repeated_title_document) eq_refl _).
  exists [(lit "type", str "heading"); (lit "text", str "Chapter 9: the end")],
         [obj [("type", str "text"); ("text", str "Done.")]%string],
         (lit "Chapter 9: the end"), (lit " The End ").
  split; [reflexivity|]. split; [reflexivity|]. split; [reflexivity|].
  split; [reflexivity|]. split; [discriminate|]. right. reflexivity.
Defined.

(** ** Segments are judged one by one *)

Lemma duplicate_title_errors_head `{PyRuntime} (title seg : json)
  (rest rest' : list json) :
  duplicate_title_errors title (seg :: rest) =
  duplicate_title_errors title (seg :: rest').
Proof. reflexivity. Qed.

(** X6: the violations about one segment do not depend on the other
    segments: two documents that hold the same segment at the same position
    (and, for the first position, have the same title) get the same
    violations about it, in the same order.  Validation does not stop at the
    first violation. *)
Theorem segment_violations_independent `{PyRuntime}
  (d1 d2 : list (pystr * json)) (segs1 segs2 : list json) (k : nat) (seg : json)
  (errors1 errors2 : list pystr) :
  dict_get d1 (lit "segments") JNull = JList segs1 ->
  dict_get d2 (lit "segments") JNull = JList segs2 ->
  nth_error segs1 k = Some seg ->
  nth_error segs2 k = Some seg ->
  (k = 0 -> dict_get d1 (lit "title") JNull = dict_get d2 (lit "title") JNull) ->
  _validate_chapter_json (JDict d1) = Ok errors1 ->
  _validate_chapter_json (JDict d2) = Ok errors2 ->
  filter (attributed k) errors1 = filter (attributed k) errors2.
Proof.
  intros Hs1 Hs2 Hk1 Hk2 Ht Hv1 Hv2.
  destruct (violations_of_segment d1 segs1 k seg errors1 Hs1 Hk1 Hv1) as (e1 & He1 & ->).
  destruct (violations_of_segment d2 segs2 k seg errors2 Hs2 Hk2 Hv2) as (e2 & He2 & ->).
  assert (e1 = e2) by congruence. subst e2. f_equal.
  destruct k as [|k].
  - rewrite (Ht eq_refl).
    destruct segs1 as [|s1 r1]; [discriminate|].
    destruct segs2 as [|s2 r2]; [discriminate|].
    simpl in Hk1, Hk2. injection Hk1 as ->. injection Hk2 as ->.
    now rewrite (duplicate_title_errors_head _ seg r1 r2).
  - assert (Hd : forall title segs,
               filter (attributed (S k)) (duplicate_title_errors title segs) = []).
    { intros title segs.
      destruct (duplicate_title_errors_cases title segs) as [-> | [-> _]];
        [reflexivity|].
      now rewrite filter_one, (attributed_about _ _ _ duplicate_title_about). }
    now rewrite !Hd.
Qed.

Lemma segment_violations_independent_witness :
  filter (attributed 3) (violations_of mixed_document) =
  filter (attributed 3) (violations_of other_document).
Proof.
  refine (@segment_violations_independent Sample.runtime
            (fields_of mixed_document) (fields_of other_document)
            (segments_of mixed_document) (segments_of other_document) 3 _
            (violations_of mixed_document) (violations_of other_document)
            eq_refl eq_refl eq_refl eq_refl _ eq_refl eq_refl).
  discriminate.
Defined.

(** ** Rendering *)

Lemma dict_get_assoc (d : list (pystr * json)) (k : pystr) (v : json) :
  dict_get d k JNull = v -> v <> JNull -> assoc k d = Some v.
Proof.
  unfold dict_get. destruct (assoc k d); intros <-; [reflexivity | contradiction].
Qed.

Lemma dict_get_str (d : list (pystr * json)) (k t : pystr) (default : json) :
  dict_get d k JNull = JStr t -> dict_get d k default = JStr t.
Proof.
  intros E. apply dict_get_assoc in E; [|discriminate].
  unfold dict_get. now rewrite E.
Qed.

Lemma strip_nonempty (t : pystr) : strip t <> [] -> t <> [].
Proof. intros Hs ->. now apply Hs. Qed.

(** A well-formed segment gives one fragment, a non-empty string. *)
Lemma well_formed_segment_parts `{PyRuntime} (seg : json) :
  well_formed_segment seg ->
  exists x, segment_parts seg = Ok [JStr x] /\ x <> [].
Proof.
  intros (d & s & -> & Ht & Hin & Hrest).
  pose proof (dict_get_assoc d _ _ Ht ltac:(discriminate)) as Ha.
  unfold segment_parts, dict_index. rewrite Ha. cbn [rbind].
  destruct (str_eqb s (lit "scene_break")) eqn:Hs.
  - apply str_eqb_eq in Hs. subst s. cbn. eexists. split; [reflexivity | discriminate].
  - destruct Hrest as [(t & Etext & Hstrip & _) _].
    rewrite (dict_get_str d _ t (JStr []) Etext). rewrite py_str_str.
    apply strip_nonempty in Hstrip.
    simpl in Hin.
    repeat (destruct Hin as [<- | Hin];
            [cbn; try destruct (truthy _); eexists; (split; [reflexivity|]);
             try exact Hstrip; discriminate|]).
    destruct Hin.
Qed.

Lemma well_formed_markup_parts `{PyRuntime} (segs : list json) :
  Forall well_formed_segment segs ->
  exists fragments,
    markup_parts segs = Ok (map JStr fragments) /\
    List.length fragments = List.length segs /\
    Forall (fun f => f <> []) fragments.
Proof.
  induction 1 as [|seg segs Hseg _ (fs & Hfs & Hlen & Hne)].
  - exists []. repeat split. constructor.
  - destruct (well_formed_segment_parts seg Hseg) as (x & Hx & Hxne).
    exists (x :: fs). cbn [markup_parts]. rewrite Hx, Hfs. cbn.
    repeat split; [now rewrite Hlen | now constructor].
Qed.

Lemma py_join_items_strs (l : list pystr) : py_join_items (map JStr l) = Ok l.
Proof.
  induction l as [|x l IH]; [reflexivity|]. cbn. now rewrite IH.
Qed.

Lemma join_nonempty (sep : pystr) (x : pystr) (l : list pystr) :
  x <> [] -> join sep (x :: l) <> [].
Proof.
  intros Hx. destruct l; cbn [join]; [exact Hx|].
  destruct x; [contradiction | discriminate].
Qed.

(** X7: a document that validation accepts is rendered: the renderer
    returns, and the markup is made of one non-empty fragment per segment,
    joined by blank lines; it is not empty. *)
Theorem valid_chapter_renders `{PyRuntime} (d : list (pystr * json))
  (segs : list json) :
  _validate_chapter_json (JDict d) = Ok [] ->
  dict_get d (lit "segments") JNull = JList segs ->
  exists fragments,
    _segments_to_markup segs = Ok (join paragraph_break fragments) /\
    List.length fragments = List.length segs /\
    Forall (fun f => f <> []) fragments /\
    join paragraph_break fragments <> [].
Proof.
  intros Hv Hsegs.
  assert (Hwf : Forall well_formed_segment segs /\ segs <> []).
  { destruct (validate_accepts _ Hv) as (d' & segs' & E & _ & Hs & Hne & Hwf & _).
    injection E as <-. rewrite Hsegs in Hs. injection Hs as <-. auto. }
  destruct Hwf as [Hwf Hne].
  destruct (well_formed_markup_parts segs Hwf) as (fs & Hfs & Hlen & Hfne).
  exists fs. unfold _segments_to_markup, py_join. rewrite Hfs. cbn [rbind].
  rewrite py_join_items_strs. cbn [rbind].
  repeat split; auto.
  destruct fs as [|f fs]; [destruct segs; [contradiction | discriminate]|].
  apply join_nonempty. now inversion Hfne.
Qed.

Lemma valid_chapter_renders_witness :
  exists fragments,
    @_segments_to_markup Sample.runtime dialogue_segments =
      Ok (join paragraph_break fragments) /\
    List.length fragments = List.length dialogue_segments /\
    Forall (fun f => f <> []) fragments /\
    join paragraph_break fragments <> [].
Proof.
  exact (@valid_chapter_renders Sample.runtime (fields_of dialogue_document)
           dialogue_segments eq_refl eq_refl).
Defined.

Lemma eq_str_true (v : json) (s : pystr) : eq_str v s = true <-> v = JStr s.
Proof.
  destruct v; simpl; try (split; discriminate).
  rewrite str_eqb_eq. split; [now intros -> | now intros [= ->]].
Qed.

Lemma segment_parts_dict `{PyRuntime} (d : list (pystr * json)) (v : json) :
  assoc (lit "type") d = Some v ->
  exists l,
    segment_parts (JDict d) =
      Ok (if eq_str v (lit "text") then [dict_get d (lit "text") (JStr [])]
          else map JStr l).
Proof.
  intros Ha. unfold segment_parts, dict_index. rewrite Ha. cbn [rbind].
  destruct (eq_str v (lit "text")); [exists []; reflexivity|].
  repeat (match goal with
          | |- context [if eq_str v ?s then _ else _] => destruct (eq_str v s)
          end;
          [eexists [_]; reflexivity|]).
  exists []. reflexivity.
Qed.

Lemma segment_parts_raise `{PyRuntime} (seg : json) (e : exn) :
  segment_parts seg = Raise e ->
  (e = TypeError /\ ~ is_dict seg) \/
  (e = KeyError /\ exists d, seg = JDict d /\ dict_has d (lit "type") = false).
Proof.
  destruct seg as [| | | | | |d];
    try (intros [= <-]; left; split; [reflexivity | intros []]).
  destruct (assoc (lit "type") d) as [v|] eqn:Ha.
  - destruct (segment_parts_dict d v Ha) as [l ->]. discriminate.
  - unfold segment_parts, dict_index. rewrite Ha. cbn [rbind]. intros [= <-].
    right. split; [reflexivity|]. exists d. unfold dict_has. now rewrite Ha.
Qed.

Lemma py_join_items_app (a b : list json) :
  py_join_items (a ++ b) =
  (x <- py_join_items a ;; y <- py_join_items b ;; Ok (x ++ y))%result.
Proof.
  induction a as [|v a IH]; cbn [app py_join_items rbind].
  - destruct (py_join_items b); reflexivity.
  - destruct v; try reflexivity. rewrite IH.
    destruct (py_join_items a); cbn [rbind]; [|reflexivity].
    destruct (py_join_items b); reflexivity.
Qed.

Lemma py_join_items_raise (items : list json) (e : exn) :
  py_join_items items = Raise e -> e = TypeError.
Proof.
  induction items as [|v items IH]; [discriminate|].
  destruct v; cbn [py_join_items]; try (now intros [= <-]).
  destruct (py_join_items items); cbn [rbind]; [discriminate|].
  intros [= <-]. now apply IH.
Qed.

Lemma renderable_segment `{PyRuntime} (seg : json) :
  (exists p ss, segment_parts seg = Ok p /\ py_join_items p = Ok ss) <->
  renderable seg.
Proof.
  split.
  - intros (p & ss & Hp & Hss).
    destruct seg as [| | | | | |d]; try discriminate.
    destruct (assoc (lit "type") d) as [v|] eqn:Ha.
    2:{ unfold segment_parts, dict_index in Hp. rewrite Ha in Hp. discriminate. }
    exists d. split; [reflexivity|]. unfold dict_has. rewrite Ha.
    split; [reflexivity|]. intros Ht.
    destruct (segment_parts_dict d v Ha) as [l Hl]. rewrite Hl in Hp.
    unfold dict_get in Ht. rewrite Ha in Ht. subst v.
    rewrite (proj2 (eq_str_true _ _) eq_refl) in Hp. apply Ok_inj in Hp. subst p.
    destruct (dict_get d (lit "text") (JStr [])); try discriminate Hss. reflexivity.
  - intros (d & -> & Hhas & Htext).
    unfold dict_has in Hhas. destruct (assoc (lit "type") d) as [v|] eqn:Ha;
      [|discriminate].
    destruct (segment_parts_dict d v Ha) as [l Hl]. rewrite Hl.
    destruct (eq_str v (lit "text")) eqn:Ev.
    + apply eq_str_true in Ev. subst v.
      unfold dict_get at 1 in Htext. rewrite Ha in Htext.
      specialize (Htext eq_refl).
      destruct (dict_get d (lit "text") (JStr [])) as [| | | |t| |];
        try discriminate.
      exists [JStr t], [t]. split; reflexivity.
    + exists (map JStr l), l. split; [reflexivity | apply py_join_items_strs].
Qed.

Lemma markup_parts_cons `{PyRuntime} (seg : json) (segs : list json)
  (parts : list json) :
  markup_parts (seg :: segs) = Ok parts <->
  exists p ps, segment_parts seg = Ok p /\ markup_parts segs = Ok ps /\
               parts = p ++ ps.
Proof.
  cbn [markup_parts]. destruct (segment_parts seg) as [p|x]; cbn [rbind].
  - destruct (markup_parts segs) as [ps|x]; cbn [rbind]; split.
    + intros E%Ok_inj. eauto.
    + intros (p' & ps' & [= <-] & [= <-] & ->). reflexivity.
    + discriminate.
    + intros (p' & ps' & _ & E & _). discriminate.
  - split; [discriminate | intros (p' & ps' & E & _); discriminate].
Qed.

Lemma py_join_items_app_ok (a b : list json) :
  (exists ss, py_join_items (a ++ b) = Ok ss) <->
  (exists x, py_join_items a = Ok x) /\ (exists y, py_join_items b = Ok y).
Proof.
  rewrite py_join_items_app.
  destruct (py_join_items a) as [x|e], (py_join_items b) as [y|e'];
    cbn [rbind]; split;
    try (intros [ss E]; discriminate);
    try (intros [[x' E] [y' E']]; discriminate);
    eauto.
Qed.

Lemma renderable_segments `{PyRuntime} (segs : list json) :
  (exists parts ss, markup_parts segs = Ok parts /\ py_join_items parts = Ok ss) <->
  Forall renderable segs.
Proof.
  induction segs as [|seg segs IH].
  - split; [constructor | exists [], []; split; reflexivity].
  - split.
    + intros (parts & ss & Hp & Hss).
      apply markup_parts_cons in Hp as (p & ps & Hseg & Hrest & ->).
      destruct (proj1 (py_join_items_app_ok p ps) (ex_intro _ ss Hss))
        as [[x Hx] [y Hy]].
      constructor.
      * apply renderable_segment. eauto.
      * apply IH. eauto.
    + intros Hr. inversion Hr as [|? ? Hseg Hrest]; subst.
      apply renderable_segment in Hseg as (p & x & Hp & Hx).
      apply IH in Hrest as (ps & y & Hps & Hy).
      destruct (proj2 (py_join_items_app_ok p ps)) as [ss Hss]; [eauto|].
      exists (p ++ ps), ss. split; [|exact Hss].
      apply markup_parts_cons. eauto.
Qed.

Lemma markup_parts_raise `{PyRuntime} (segs : list json) (e : exn) :
  markup_parts segs = Raise e -> e = TypeError \/ e = KeyError.
Proof.
  induction segs as [|seg segs IH]; [discriminate|].
  cbn [markup_parts]. destruct (segment_parts seg) as [p|x] eqn:Hseg; cbn [rbind].
  - destruct (markup_parts segs) as [ps|x]; cbn [rbind]; [discriminate|].
    intros [= <-]. now apply IH.
  - intros [= <-]. apply segment_parts_raise in Hseg as [[-> _] | [-> _]]; auto.
Qed.

(** X8: the renderer returns exactly when every segment is an object with a
    "type" entry and every "text" segment holds a string (or no text);
    otherwise it raises, and what it raises is TypeError or KeyError. *)
Theorem renders_iff_renderable `{PyRuntime} (segs : list json) :
  ((exists text, _segments_to_markup segs = Ok text) <-> Forall renderable segs) /\
  (forall e, _segments_to_markup segs = Raise e -> e = TypeError \/ e = KeyError).
Proof.
  unfold _segments_to_markup, py_join. split.
  - rewrite <- renderable_segments. split.
    + intros [text Ht]. destruct (markup_parts segs) as [parts|x]; [|discriminate].
      cbn [rbind] in Ht. destruct (py_join_items parts) as [ss|x] eqn:Hss;
        [|discriminate]. eauto.
    + intros (parts & ss & -> & Hss). cbn [rbind]. rewrite Hss. cbn [rbind]. eauto.
  - intros e. destruct (markup_parts segs) as [parts|x] eqn:Hp; cbn [rbind].
    + destruct (py_join_items parts) as [ss|x] eqn:Hss; cbn [rbind]; [discriminate|].
      intros [= <-]. left. now apply (py_join_items_raise parts).
    + intros [= <-]. now apply (markup_parts_raise segs).
Qed.

Lemma markup_parts_app `{PyRuntime} (a b : list json) :
  markup_parts (a ++ b) =
  (pa <- markup_parts a ;; pb <- markup_parts b ;; Ok (pa ++ pb))%result.
Proof.
  induction a as [|seg a IH]; cbn [app markup_parts rbind].
  - destruct (markup_parts b); reflexivity.
  - destruct (segment_parts seg) as [p|x]; cbn [rbind]; [|reflexivity].
    rewrite IH. destruct (markup_parts a) as [pa|x]; cbn [rbind]; [|reflexivity].
    destruct (markup_parts b) as [pb|x]; cbn [rbind]; [|reflexivity].
    now rewrite app_assoc.
Qed.

(** X9: a segment whose "type" is present but is none of the ten kinds
    leaves no trace in the markup: the document renders as if the segment
    were not there. *)
Theorem unknown_type_not_rendered `{PyRuntime} (a b : list json)
  (sd : list (pystr * json)) :
  dict_has sd (lit "type") = true ->
  (forall s, In s VALID_SEGMENT_TYPES -> dict_get sd (lit "type") JNull <> JStr s) ->
  _segments_to_markup (a ++ JDict sd :: b) = _segments_to_markup (a ++ b).
Proof.
  intros Hhas Hunk. unfold dict_has in Hhas.
  destruct (assoc (lit "type") sd) as [v|] eqn:Ha; [|discriminate].
  assert (Hf : forall s, In s VALID_SEGMENT_TYPES -> eq_str v s = false).
  { intros s Hs. destruct (eq_str v s) eqn:E; [|reflexivity].
    apply eq_str_true in E. destruct (Hunk s Hs).
    unfold dict_get. now rewrite Ha. }
  assert (Hseg : segment_parts (JDict sd) = Ok []).
  { unfold segment_parts, dict_index. rewrite Ha. cbn [rbind].
    rewrite !Hf by (simpl; tauto). reflexivity. }
  unfold _segments_to_markup. rewrite !markup_parts_app.
  cbn [markup_parts]. rewrite Hseg. cbn [rbind].
  destruct (markup_parts a) as [pa|x]; cbn [rbind]; [|reflexivity].
  destruct (markup_parts b) as [pb|x]; cbn [rbind]; reflexivity.
Qed.

Lemma unknown_type_not_rendered_witness :
  @_segments_to_markup Sample.runtime
    ([plain "One"] ++ JDict [(lit "type", str "poem"); (lit "text", JInt 3)] ::
     [plain "Two"]) =
  @_segments_to_markup Sample.runtime ([plain "One"] ++ [plain "Two"]).
Proof.
  refine (@unknown_type_not_rendered Sample.runtime [plain "One"] [plain "Two"]
            [(lit "type", str "poem"); (lit "text", JInt 3)] eq_refl _).
  intros s Hs. simpl in Hs.
  repeat (destruct Hs as [<- | Hs]; [discriminate|]). destruct Hs.
Defined.

(** ** The cache under the commands *)

Lemma keeps_files_ret {A} (a : A) : keeps_files (ret a).
Proof. intros w o w' [= <- <-]. reflexivity. Qed.

Lemma keeps_files_print (l : pystr) : keeps_files (print l).
Proof. intros w o w' [= <- <-]. reflexivity. Qed.

Lemma keeps_files_lift {A} (r : result A) : keeps_files (lift r).
Proof. intros w o w'. destruct r; intros [= <- <-]; reflexivity. Qed.

Lemma keeps_files_exit {A} (s : exit_site) : keeps_files (@sys_exit A s).
Proof. intros w o w' [= <- <-]. reflexivity. Qed.

Lemma keeps_files_read (stem : pystr) : keeps_files (read_file stem).
Proof. intros w o w' [= <- <-]. reflexivity. Qed.

Lemma keeps_files_loud (r : option json) : keeps_files (loud r).
Proof. destruct r; [apply keeps_files_ret | apply keeps_files_exit]. Qed.

Lemma keeps_files_bind {A B} (m : M A) (k : A -> M B) :
  keeps_files m -> (forall a, keeps_files (k a)) -> keeps_files (bind m k).
Proof.
  intros Hm Hk w o w'. unfold bind.
  destruct (m w) as [[a|s|e] w1] eqn:E.
  - intros Hrun. rewrite (Hk a _ _ _ Hrun). exact (Hm _ _ _ E).
  - intros [= <- <-]. exact (Hm _ _ _ E).
  - intros [= <- <-]. exact (Hm _ _ _ E).
Qed.

Lemma keeps_files_touches {A} (stem : pystr) (m : M A) :
  keeps_files m -> touches_only stem m.
Proof. intros Hm w o w' Hrun s _. now rewrite (Hm _ _ _ Hrun). Qed.

Lemma touches_only_bind {A B} (stem : pystr) (m : M A) (k : A -> M B) :
  touches_only stem m -> (forall a, touches_only stem (k a)) ->
  touches_only stem (bind m k).
Proof.
  intros Hm Hk w o w'. unfold bind.
  destruct (m w) as [[a|x|e] w1] eqn:E.
  - intros Hrun s Hs. rewrite (Hk a _ _ _ Hrun s Hs). exact (Hm _ _ _ E s Hs).
  - intros [= <- <-]. exact (Hm _ _ _ E).
  - intros [= <- <-]. exact (Hm _ _ _ E).
Qed.

Lemma put_file_other (stem content s : pystr) (fs : list (pystr * pystr)) :
  s <> stem -> assoc s (put_file stem content fs) = assoc s fs.
Proof.
  intros Hs. induction fs as [|[s0 c0] fs IH]; simpl.
  - apply str_eqb_neq in Hs. now rewrite Hs.
  - destruct (str_eqb stem s0) eqn:E; simpl.
    + apply str_eqb_eq in E. subst s0.
      apply str_eqb_neq in Hs. now rewrite Hs.
    + now rewrite IH.
Qed.

Lemma remove_file_other (stem s : pystr) (fs : list (pystr * pystr)) :
  s <> stem -> assoc s (remove_file stem fs) = assoc s fs.
Proof.
  intros Hs. induction fs as [|[s0 c0] fs IH]; simpl; [reflexivity|].
  destruct (str_eqb stem s0) eqn:E; simpl.
  - apply str_eqb_eq in E. subst s0.
    apply str_eqb_neq in Hs. now rewrite Hs.
  - now rewrite IH.
Qed.


Lemma touches_only_write (stem content : pystr) :
  touches_only stem (write_text stem content).
Proof. intros w o w' [= <- <-] s Hs. now apply put_file_other. Qed.

Lemma touches_only_unlink (stem : pystr) : touches_only stem (unlink stem).
Proof. intros w o w' [= <- <-] s Hs. now apply remove_file_other. Qed.

Lemma touches_only_rebuild `{PyRuntime} (stamp book_id : pystr) (book chapters : json) :
  touches_only book_id (_rebuild_book_cache stamp book_id book chapters).
Proof.
  unfold _rebuild_book_cache. apply touches_only_bind.
  - apply keeps_files_touches, keeps_files_lift.
  - intros summary. apply touches_only_write.
Qed.

Lemma keeps_files_print_listing `{PyRuntime} (items : list json) (i : nat) :
  keeps_files (print_listing i items).
Proof.
  revert i; induction items as [|ch items IH]; intros i; cbn [print_listing].
  - apply keeps_files_ret.
  - apply keeps_files_bind; [apply keeps_files_lift|]. intros line.
    apply keeps_files_bind; [apply keeps_files_print|]. intros _. apply IH.
Qed.

Ltac frame :=
  repeat first
    [ apply keeps_files_ret | apply keeps_files_print | apply keeps_files_lift
    | apply keeps_files_exit | apply keeps_files_read | apply keeps_files_loud
    | apply keeps_files_print_listing
    | apply keeps_files_bind; [|intros] ].

Ltac frame_of stem :=
  repeat first
    [ apply touches_only_write | apply touches_only_unlink
    | apply touches_only_rebuild
    | apply keeps_files_touches; frame; fail
    | apply touches_only_bind; [|intros] ].




(** ** A summary that was written is served *)









(** ** The cache under the stale-id resolver *)

Lemma touches_only_manual_fallback `{PyRuntime} {A} (stamp stale_book : pystr)
  (book chapters : json) :
  touches_only stale_book (@manual_fallback _ A stamp stale_book book chapters).
Proof. unfold manual_fallback. frame_of stale_book. Qed.

Lemma touches_only_conclude `{PyRuntime} (stamp chapter_id stale_book : pystr)
  (book chapters : json) (m : option json) :
  touches_only stale_book (conclude stamp chapter_id stale_book book chapters m).
Proof.
  unfold conclude. destruct m as [ch|]; [|apply touches_only_manual_fallback].
  destruct (truthy ch); [|apply touches_only_manual_fallback].
  frame_of stale_book.
Qed.

Lemma resolve_frame `{PyRuntime} (api : remote) (stamp chapter_id : pystr)
  (w w1 : world) (o : outcome (json * json)) :
  resolve_stale_id api stamp chapter_id w = (o, w1) ->
  (scan_cache chapter_id (files w) = None -> files w1 = files w) /\
  (forall stale hint,
     scan_cache chapter_id (files w) = Some (stale, hint) ->
     forall s, s <> stale -> assoc s (files w1) = assoc s (files w)).
Proof.
  rewrite resolve_cases.
  destruct (scan_cache chapter_id (files w)) as [[stale hint]|].
  2:{ intros [= <- <-]. split; [reflexivity | discriminate]. }
  intros Hrun. split; [discriminate|].
  intros stale' hint' [= <- <-] s Hs. revert Hrun. cbv zeta.
  destruct (truthy (JStr stale)); [|now intros [= <- <-]].
  destruct (truthy (quiet (api_content api stale))).
  2:{ intros [= <- <-]. cbn [printed refreshing files]. now apply remove_file_other. }
  destruct (truthy (chapters_of_response _)).
  2:{ intros [= <- <-]. cbn [printed refreshing files]. now apply remove_file_other. }
  intros Hrun.
  assert (Ht : touches_only stale
                 (bind (lift (rematch hint
                          (chapters_of_response
                             (quiet (api_chapters_for_agent api stale)))))
                       (conclude stamp chapter_id stale
                          (quiet (api_content api stale))
                          (chapters_of_response
                             (quiet (api_chapters_for_agent api stale)))))).
  { apply touches_only_bind; [apply keeps_files_touches, keeps_files_lift|].
    intros m. apply touches_only_conclude. }
  rewrite (Ht _ _ _ Hrun s Hs). cbn [refreshing files]. now apply remove_file_other.
Qed.

Lemma keeps_files_report `{PyRuntime} (found : json * json) :
  keeps_files
    (let '(chapter, chapter_id) := found in
     ch_title <- lift (py_get chapter (lit "title") (JStr (lit "Untitled"))) ;;
     ch_content <- lift (py_get chapter (lit "content") (JStr [])) ;;
     content_id <- lift (py_get chapter (lit "contentId") (JStr (lit "?"))) ;;
     order_index <- lift (py_get chapter (lit "orderIndex") (JInt 0)) ;;
     char_count <- lift (py_len ch_content) ;;
     print (lit "OK: Chapter retrieved") ;;
     print (lit "  chapter_id: " ++ py_str chapter_id) ;;
     print (lit "  book_id: " ++ py_str content_id) ;;
     print (lit "  title: " ++ py_str ch_title) ;;
     print (lit "  order_index: " ++ py_str order_index) ;;
     print (lit "  character_count: " ++ dec char_count) ;;
     print [] ;;
     print (lit "--- FULL CONTENT ---") ;;
     print (py_str ch_content) ;;
     print (lit "--- END CONTENT ---") ;;
     print [] ;;
     print (lit "  hint: To update this chapter, use: chapter-update " ++
            py_str chapter_id ++ lit " --content " ++ dquote ++ lit "new content" ++
            dquote))%cmd.
Proof. destruct found as [chapter id]. frame. Qed.

(** X12: what [cmd_chapter_read] does to the cache, however it ends.  When
    the service knows the chapter, or no cached summary contains the id, the
    cache is left as it was; otherwise only the summary of the first cached
    book that contains the id can change. *)
Theorem chapter_read_cache_frame `{PyRuntime} (api : remote)
  (stamp chapter_id : pystr) (w w' : world) (o : outcome unit) :
  cmd_chapter_read api stamp chapter_id w = (o, w') ->
  (truthy (quiet (api_chapter_for_agent api chapter_id)) = true ->
   files w' = files w) /\
  (scan_cache chapter_id (files w) = None -> files w' = files w) /\
  (forall stale hint,
     scan_cache chapter_id (files w) = Some (stale, hint) ->
     forall s, s <> stale -> assoc s (files w') = assoc s (files w)).
Proof.
  unfold cmd_chapter_read. unfold bind at 1.
  destruct (truthy (quiet (api_chapter_for_agent api chapter_id))) eqn:Hfound;
    cbn [negb].
  - unfold ret at 1. intros Hrun.
    pose proof (keeps_files_report
                  (quiet (api_chapter_for_agent api chapter_id), JStr chapter_id)
                  _ _ _ Hrun) as Hk.
    repeat split; intros; now rewrite Hk.
  - destruct (resolve_stale_id api stamp chapter_id w) as [[found|s|e] w1] eqn:Hres;
      destruct (resolve_frame api stamp chapter_id w w1 _ Hres) as [Hnone Hsome].
    + intros Hrun. pose proof (keeps_files_report found _ _ _ Hrun) as Hk.
      split; [discriminate|]. split.
      * intros Hs. rewrite Hk. now apply Hnone.
      * intros stale hint Hs s0 Hs0. rewrite Hk. now apply (Hsome stale hint).
    + intros [= <- <-]. split; [discriminate|]. split; [exact Hnone | exact Hsome].
    + intros [= <- <-]. split; [discriminate|]. split; [exact Hnone | exact Hsome].
Qed.

Lemma chapter_read_cache_frame_witness :
  assoc (lit "A") (files fallback_world) = assoc (lit "A") (files cached_world).
Proof.
  refine (proj2 (proj2 (@chapter_read_cache_frame Sample.runtime
                          (service renamed_chapters) stamp_2024 (lit "X")
                          cached_world fallback_world (Exit ExitAmbiguous) _))
            (lit "B") _ _ (lit "A") _).
  - reflexivity.
  - reflexivity.
  - discriminate.
Defined.




(** ** The title hint read back from a cached line *)

Lemma no_char_cons (x c : N) (s : pystr) :
  no_char x (c :: s) = true -> (x =? c)%N = false /\ no_char x s = true.
Proof.
  cbn [no_char forallb]. intros Hc. apply andb_true_iff in Hc as [Hc Hs].
  apply negb_true_iff in Hc. split; [now rewrite N.eqb_sym | exact Hs].
Qed.

Lemma split_aux_newline_line (l cur s : pystr) :
  no_char newline l = true ->
  split_aux [newline] 0 cur (l ++ newline :: s) =
    (rev cur ++ l) :: split_aux [newline] 0 [] s.
Proof.
  revert cur; induction l as [|c l IH]; intros cur Hl.
  - cbn. now rewrite app_nil_r.
  - apply no_char_cons in Hl as [Hc Hl].
    cbn [app split_aux startswith]. rewrite Hc. cbn [andb].
    rewrite (IH (c :: cur) Hl). cbn [rev]. now rewrite <- app_assoc.
Qed.

Lemma split_aux_newline_last (l cur : pystr) :
  no_char newline l = true ->
  split_aux [newline] 0 cur l = [rev cur ++ l].
Proof.
  revert cur; induction l as [|c l IH]; intros cur Hl.
  - cbn. now rewrite app_nil_r.
  - apply no_char_cons in Hl as [Hc Hl].
    cbn [split_aux startswith]. rewrite Hc. cbn [andb].
    rewrite (IH (c :: cur) Hl). cbn [rev]. now rewrite <- app_assoc.
Qed.

(** Splitting at line feeds gives back the lines that were joined. *)
Lemma split_join_lines (lines : list pystr) :
  lines <> [] ->
  forallb (no_char newline) lines = true ->
  split [newline] (join [newline] lines) = lines.
Proof.
  induction lines as [|l lines IH]; [contradiction|]. intros _ Hl.
  cbn [forallb] in Hl. apply andb_true_iff in Hl as [Hl Hrest].
  destruct lines as [|r lines].
  - cbn [join]. unfold split. now rewrite split_aux_newline_last.
  - change (join [newline] (l :: r :: lines))
      with (l ++ newline :: join [newline] (r :: lines)).
    unfold split. rewrite (split_aux_newline_line l [] _ Hl).
    cbn [rev app]. f_equal. apply IH; [discriminate | exact Hrest].
Qed.

Lemma split_aux_stars (t cur s : pystr) :
  no_char 42 t = true ->
  split_aux (lit "**") 0 cur (t ++ lit "**" ++ s) =
    (rev cur ++ t) :: split_aux (lit "**") 0 [] s.
Proof.
  revert cur; induction t as [|c t IH]; intros cur Ht.
  - cbn. now rewrite app_nil_r.
  - apply no_char_cons in Ht as [Hc Ht].
    cbn [app]. cbn [split_aux].
    change (startswith (c :: t ++ lit "**" ++ s) (lit "**"))
      with ((42 =? c)%N && startswith (t ++ lit "**" ++ s) [42%N]).
    rewrite Hc. cbn [andb].
    rewrite (IH (c :: cur) Ht). cbn [rev]. now rewrite <- app_assoc.
Qed.

Lemma chapter_line_title `{PyRuntime} (t rest : pystr) :
  no_char 42 t = true ->
  list_index (split (lit "**") (lit "- **" ++ t ++ lit "**" ++ rest)) 1 = Ok t.
Proof.
  intros Ht. unfold split.
  change (lit "- **" ++ t ++ lit "**" ++ rest)
    with (lit "- " ++ lit "**" ++ (t ++ lit "**" ++ rest)).
  rewrite (split_aux_stars (lit "- ") [] _ eq_refl).
  now rewrite (split_aux_stars t [] _ Ht).
Qed.

Lemma title_hint_step (chapter_id : pystr) (lines : list pystr) (info : option pystr) :
  forallb (fun l => negb (hint_line chapter_id l)) lines = true ->
  fold_left
    (fun info line =>
       if contains line chapter_id && startswith line (lit "- **") then
         match list_index (split (lit "**") line) 1 with
         | Ok title_part => Some title_part
         | Raise _ => info
         end
       else info) lines info = info.
Proof.
  revert info; induction lines as [|l lines IH]; intros info Hl; [reflexivity|].
  cbn [forallb] in Hl. apply andb_true_iff in Hl as [Hl Hrest].
  apply negb_true_iff in Hl. unfold hint_line in Hl.
  cbn [fold_left]. rewrite Hl. now apply IH.
Qed.

(** X14: the title hint of the resolver reads back what the summary wrote.
    In a cached text whose lines hold no line feed, when the last line that
    contains the chapter id and starts with "- **" is the line the summary
    keeps for a chapter, the hint is the title of that chapter, provided the
    title holds no asterisk. *)
Theorem title_hint_round_trip `{PyRuntime} (i : nat) (d : list (pystr * json))
  (t line chapter_id : pystr) (before after : list pystr) :
  chapter_line i (JDict d) = Ok line ->
  dict_get d (lit "title") (JStr (lit "Chapter " ++ dec (i + 1))) = JStr t ->
  no_char 42 t = true ->
  contains line chapter_id = true ->
  forallb (no_char newline) (before ++ line :: after) = true ->
  forallb (fun l => negb (hint_line chapter_id l)) after = true ->
  title_hint chapter_id (join [newline] (before ++ line :: after)) = Some t.
Proof.
  intros Hline Ht Hstar Hid Hnl Hafter.
  unfold title_hint. rewrite split_join_lines; [|now destruct before | exact Hnl].
  rewrite fold_left_app. cbn [fold_left]. rewrite Hid.
  unfold chapter_line in Hline. cbn [py_get rbind] in Hline. rewrite Ht in Hline.
  destruct (preview_of (dict_get d (lit "content") (JStr []))) as [preview|e];
    cbn [rbind] in Hline; [|discriminate].
  apply Ok_inj in Hline. subst line. rewrite py_str_str.
  change (startswith (lit "- **" ++ t ++ lit "** (id: " ++
                      py_str (dict_get d (lit "_id") (JStr [])) ++ lit "): " ++ preview)
                     (lit "- **")) with true.
  cbn [andb].
  change (lit "- **" ++ t ++ lit "** (id: " ++
          py_str (dict_get d (lit "_id") (JStr [])) ++ lit "): " ++ preview)
    with (lit "- **" ++ t ++ lit "**" ++ (lit " (id: " ++
          py_str (dict_get d (lit "_id") (JStr [])) ++ lit "): " ++ preview)).
  rewrite (chapter_line_title t _ Hstar).
  now apply title_hint_step.
Qed.

Lemma title_hint_round_trip_witness :
  title_hint (lit "X")
    (join [newline]
       ([lit "# Book Summary: My Book"; lit "## Chapters"] ++
        lit "- **Intro** (id: X): Hello world" :: [lit "- **Two** (id: Z): abc"])) =
  Some (lit "Intro").
Proof.
  exact (@title_hint_round_trip Sample.runtime 0
           [(lit "title", str "Intro"); (lit "_id", str "X");
            (lit "content", str "Hello world")]
           (lit "Intro") (lit "- **Intro** (id: X): Hello world") (lit "X")
           [lit "# Book Summary: My Book"; lit "## Chapters"]
           [lit "- **Two** (id: Z): abc"]
           eq_refl eq_refl eq_refl eq_refl eq_refl eq_refl).
Defined.

(** ** Requests *)

Section RequestProperties.
Context `{PyRuntime}.
Variable loads : pystr -> option json.
Variables (method path : pystr) (retries : Z) (replies : nat -> reply).

Lemma api_attempts_quiet (n : nat) (attempt : Z) (t : traffic) (w : world) :
  api_attempts loads method path true retries replies (S n) attempt t w =
  (match replies (sent t) with
   | Body raw =>
       match parse_body loads raw with
       | Ok j => Return j
       | Raise e => Raised e
       end
   | _ => Return JNull
   end, w, {| sent := S (sent t); slept := slept t |}).
Proof.
  cbn [api_attempts]. destruct (replies (sent t)) as [raw|code body|reason];
    try reflexivity.
  destruct (parse_body loads raw); reflexivity.
Qed.

(** While the replies are transient and attempts are left, the loop asks
    again, two seconds later. *)
Lemma api_attempts_retry (k n : nat) (attempt : Z) (t : traffic) (w : world) :
  (forall j, j < k -> transient (replies (sent t + j)) = true) ->
  (attempt + Z.of_nat k <= retries)%Z ->
  api_attempts loads method path false retries replies (k + n) attempt t w =
  api_attempts loads method path false retries replies n (attempt + Z.of_nat k)%Z
    {| sent := sent t + k; slept := (slept t + 2 * Z.of_nat k)%Z |} w.
Proof.
  revert attempt t; induction k as [|k IH]; intros attempt t Htr Hk.
  - cbn [Nat.add]. destruct t as [s sl]. cbn [sent slept].
    now rewrite Nat.add_0_r, !Z.add_0_r.
  - cbn [Nat.add api_attempts].
    pose proof (Htr 0 ltac:(lia)) as H0. rewrite Nat.add_0_r in H0.
    assert (Hlt : (attempt <? retries)%Z = true) by (apply Z.ltb_lt; lia).
    destruct (replies (sent t)) as [raw|code body|reason];
      cbn [transient] in H0; [discriminate | rewrite H0 | ];
      rewrite Hlt; cbn [andb];
      (rewrite IH;
       [ cbn [sent slept];
         replace (attempt + 1 + Z.of_nat k)%Z with (attempt + Z.of_nat (S k))%Z by lia;
         replace (S (sent t) + k) with (sent t + S k) by lia;
         replace (slept t + 2 + 2 * Z.of_nat k)%Z
           with (slept t + 2 * Z.of_nat (S k))%Z by lia;
         reflexivity
       | intros j Hj; cbn [sent];
         replace (S (sent t) + j) with (sent t + S j) by lia;
         apply Htr; lia
       | lia ]).
Qed.

Lemma api_attempts_final (n : nat) (attempt : Z) (t : traffic) (w : world) :
  transient (replies (sent t)) = false \/ (retries <= attempt)%Z ->
  api_attempts loads method path false retries replies (S n) attempt t w =
  (answer loads method path retries (replies (sent t)) w,
   {| sent := S (sent t); slept := slept t |}).
Proof.
  intros Hlast. cbn [api_attempts]. unfold answer.
  destruct (replies (sent t)) as [raw|code body|reason]; cbn [transient] in Hlast.
  - destruct (parse_body loads raw); reflexivity.
  - destruct Hlast as [-> | Hge]; [reflexivity|].
    rewrite (proj2 (Z.ltb_ge attempt retries) Hge), andb_false_r. reflexivity.
  - destruct Hlast as [Hf | Hge]; [discriminate|].
    now rewrite (proj2 (Z.ltb_ge attempt retries) Hge).
Qed.

(** X15: a quiet call makes one request and no more: it never asks again,
    never sleeps, prints nothing and never leaves through [sys.exit]; it
    returns [None] for any error reply and otherwise what the body parses
    to. *)
Theorem api_quiet_single_request (w : world) :
  (0 <= retries)%Z ->
  _api loads method path true retries replies w =
  (match replies 0 with
   | Body raw =>
       match parse_body loads raw with
       | Ok j => Return j
       | Raise e => Raised e
       end
   | _ => Return JNull
   end, w, {| sent := 1; slept := 0 |}).
Proof.
  intros Hr. unfold _api.
  destruct (Z.to_nat (1 + retries)) as [|n] eqn:E; [lia|].
  apply api_attempts_quiet.
Qed.

(** X16: the retry schedule of a call that is not quiet.  When the first
    [k] replies are transient (a 500, 502, 503 or 504, or an unreachable
    service), [k] is at most [retries], and reply [k] is not transient or
    [k] is [retries], the call makes [k + 1] requests, sleeps two seconds
    before each but the first, and ends with what reply [k] gives: the
    parsed body, or the report of the error and [sys.exit]. *)
Theorem api_retry_schedule (k : nat) (w : world) :
  (Z.of_nat k <= retries)%Z ->
  (forall j, j < k -> transient (replies j) = true) ->
  transient (replies k) = false \/ Z.of_nat k = retries ->
  _api loads method path false retries replies w =
  (answer loads method path retries (replies k) w,
   {| sent := S k; slept := 2 * Z.of_nat k |}).
Proof.
  intros Hk Htr Hlast. unfold _api.
  replace (Z.to_nat (1 + retries)) with (k + S (Z.to_nat retries - k)) by lia.
  rewrite api_attempts_retry; [| exact Htr | lia].
  cbn [sent slept Nat.add Z.add].
  rewrite api_attempts_final; [reflexivity|].
  cbn [sent]. destruct Hlast as [Hf | He]; [now left | right; lia].
Qed.

Lemma api_attempts_bound (quiet : bool) (n : nat) (attempt : Z) (t t' : traffic)
  (w w' : world) (o : outcome json) :
  (retries - attempt < Z.of_nat n)%Z ->
  api_attempts loads method path quiet retries replies n attempt t w = (o, w', t') ->
  sent t < sent t' <= sent t + n /\
  slept t' = (slept t + 2 * Z.of_nat (sent t' - sent t - 1))%Z \/
  sent t' = sent t /\ slept t' = slept t /\ n = 0.
Proof.
  revert attempt t; induction n as [|n IH]; intros attempt t Hn.
  - cbn. intros [= <- <- <-]. right. auto.
  - cbn [api_attempts]. intros Hrun. left.
    assert (Hdone : forall t1, t1 = {| sent := S (sent t); slept := slept t |} ->
              t' = t1 ->
              sent t < sent t' <= sent t + S n /\
              slept t' = (slept t + 2 * Z.of_nat (sent t' - sent t - 1))%Z).
    { intros t1 -> ->. cbn [sent slept]. split; [lia|].
      replace (S (sent t) - sent t - 1) with 0 by lia. lia. }
    assert (Hagain :
              (attempt < retries)%Z ->
              api_attempts loads method path quiet retries replies n (attempt + 1)
                {| sent := S (sent t); slept := slept t + 2 |} w = (o, w', t') ->
              sent t < sent t' <= sent t + S n /\
              slept t' = (slept t + 2 * Z.of_nat (sent t' - sent t - 1))%Z).
    { intros Hlt Hr. apply IH in Hr; [|lia]. cbn [sent slept] in Hr.
      destruct Hr as [[Hs Hsl] | (Hs & Hsl & ->)]; [|lia].
      split; [lia|]. rewrite Hsl.
      replace (sent t' - sent t - 1) with (S (sent t' - S (sent t) - 1)) by lia.
      lia. }
    destruct (replies (sent t)) as [raw|code body|reason].
    + destruct (parse_body loads raw); injection Hrun as <- <- <-;
        now apply (Hdone _ eq_refl).
    + destruct quiet; [injection Hrun as <- <- <-; now apply (Hdone _ eq_refl)|].
      destruct (attempt <? retries)%Z eqn:Hlt.
      * destruct (transient_code code); cbn [andb] in Hrun.
        -- apply Hagain; [now apply Z.ltb_lt | exact Hrun].
        -- destruct (http_error_report loads method path retries code body w)
             as [o1 w1].
           injection Hrun as <- <- <-. now apply (Hdone _ eq_refl).
      * rewrite andb_false_r in Hrun.
        destruct (http_error_report loads method path retries code body w)
          as [o1 w1].
        injection Hrun as <- <- <-. now apply (Hdone _ eq_refl).
    + destruct quiet; [injection Hrun as <- <- <-; now apply (Hdone _ eq_refl)|].
      destruct (attempt <? retries)%Z eqn:Hlt.
      * apply Hagain; [now apply Z.ltb_lt | exact Hrun].
      * destruct (url_error_report path reason w) as [o1 w1].
        injection Hrun as <- <- <-. now apply (Hdone _ eq_refl).
Qed.

(** X17: whatever the service does, a call makes at most [1 + retries]
    requests and sleeps two seconds between two consecutive ones, and no
    longer; with a negative [retries] it makes no request at all. *)
Theorem api_request_bound (quiet : bool) (w w' : world) (o : outcome json)
  (t : traffic) :
  _api loads method path quiet retries replies w = (o, w', t) ->
  sent t <= Z.to_nat (1 + retries) /\
  slept t = (2 * Z.of_nat (sent t - 1))%Z /\
  ((retries < 0)%Z -> sent t = 0 /\ o = Return JNull /\ w' = w).
Proof.
  unfold _api. intros Hrun. split; [|split].
  - apply api_attempts_bound in Hrun; [|lia]. cbn [sent slept] in Hrun.
    destruct Hrun as [[Hs _] | (-> & _)]; lia.
  - apply api_attempts_bound in Hrun; [|lia]. cbn [sent slept] in Hrun.
    destruct Hrun as [[_ ->] | (-> & -> & _)]; [lia | reflexivity].
  - intros Hneg. replace (Z.to_nat (1 + retries)) with 0 in Hrun by lia.
    cbn in Hrun. injection Hrun as <- <- <-. auto.
Qed.

Lemma print_all_run (lines : list pystr) (w : world) :
  print_all lines w = (Return tt, printed w lines).
Proof.
  revert w; induction lines as [|l lines IH]; intros w.
  - cbn. now rewrite printed_nil.
  - cbn [print_all]. rewrite bind_print, IH, printed_printed. reflexivity.
Qed.


(** The report of an HTTP error, case by case on the error body. *)
Lemma http_error_report_run (code : Z) (err_body : pystr) (w : world) :
  http_error_report loads method path retries code err_body w =
  let headline :=
    lit "ERROR: " ++ method ++ lit " " ++ path ++ lit " returned " ++ dec_Z code in
  match loads err_body with
  | None =>
      (Exit ExitApiError,
       printed w ([headline; lit "  body: " ++ firstn 200 err_body] ++
                  http_hint retries code))
  | Some (JDict d) =>
      (Exit ExitApiError,
       printed w ([headline;
                   lit "  message: " ++
                   py_str (dict_get d (lit "error")
                             (dict_get d (lit "message") (JStr (firstn 200 err_body))))] ++
                  http_hint retries code))
  | Some _ => (Raised AttributeError, printed w [headline])
  end.
Proof.
  unfold http_error_report. rewrite bind_print. unfold error_detail.
  destruct (loads err_body) as [[| | | | | |d]|]; try reflexivity.
  - cbn [py_get]. unfold bind at 1. unfold bind at 1. cbn [lift].
    unfold bind at 1. cbn [lift]. rewrite print_run.
    unfold bind at 1. rewrite print_all_run. unfold sys_exit.
    now rewrite !printed_printed.
  - unfold bind at 1. rewrite print_run.
    unfold bind at 1. rewrite print_all_run. unfold sys_exit.
    now rewrite !printed_printed.
Qed.

Lemma url_error_report_run (reason : pystr) (w : world) :
  url_error_report path reason w =
  (Exit ExitApiError,
   printed w
     [ lit "ERROR: Cannot reach " ++ BASE_URL ++ path;
       lit "  reason: " ++ reason;
       lit "  action: STOP. The API is unreachable. Try again later. Do NOT construct manual requests." ]).
Proof.
  unfold url_error_report. rewrite !bind_print. unfold sys_exit.
  now rewrite !printed_printed.
Qed.

Lemma answer_return (r : reply) (w w' : world) (j : json) :
  answer loads method path retries r w = (Return j, w') ->
  exists raw, r = Body raw /\ parse_body loads raw = Ok j /\ w' = w.
Proof.
  unfold answer. destruct r as [raw|code body|reason].
  - destruct (parse_body loads raw) as [j'|e] eqn:Hp; [|discriminate].
    intros [= <- <-]. exists raw. auto.
  - rewrite http_error_report_run. cbv zeta.
    destruct (loads body) as [[| | | | | |d]|]; discriminate.
  - rewrite url_error_report_run. discriminate.
Qed.

Lemma api_attempts_return (n : nat) (attempt : Z) (t t' : traffic)
  (w w' : world) (j : json) :
  (retries - attempt < Z.of_nat n)%Z ->
  n <> 0 ->
  api_attempts loads method path false retries replies n attempt t w
    = (Return j, w', t') ->
  exists raw, replies (sent t' - 1) = Body raw /\ parse_body loads raw = Ok j /\
              w' = w.
Proof.
  revert attempt t; induction n as [|n IH]; intros attempt t Hn Hn0;
    [contradiction|].
  cbn [api_attempts].
  assert (Hagain :
            (attempt < retries)%Z ->
            api_attempts loads method path false retries replies n (attempt + 1)
              {| sent := S (sent t); slept := slept t + 2 |} w = (Return j, w', t') ->
            exists raw, replies (sent t' - 1) = Body raw /\
                        parse_body loads raw = Ok j /\ w' = w).
  { intros Hlt Hr. apply IH in Hr; [exact Hr | lia | lia]. }
  destruct (replies (sent t)) as [raw|code body|reason] eqn:Hreply.
  - destruct (parse_body loads raw) as [j'|e] eqn:Hparse; [|discriminate].
    intros [= <- <- <-]. exists raw. cbn [sent].
    replace (S (sent t) - 1) with (sent t) by lia. auto.
  - destruct (attempt <? retries)%Z eqn:Hlt.
    + destruct (transient_code code); cbn [andb].
      * apply Hagain. now apply Z.ltb_lt.
      * rewrite http_error_report_run. cbv zeta.
        destruct (loads body) as [[| | | | | |d]|]; discriminate.
    + rewrite andb_false_r, http_error_report_run. cbv zeta.
      destruct (loads body) as [[| | | | | |d]|]; discriminate.
  - destruct (attempt <? retries)%Z eqn:Hlt.
    + apply Hagain. now apply Z.ltb_lt.
    + rewrite url_error_report_run. discriminate.
Qed.

(** X18: a call that is not quiet returns only with the body of a response:
    when it returns, its last request met a response whose body parses to
    the value returned (the empty object for a blank body), and nothing was
    printed.  Every error ends the command or is retried; [None] is never
    returned. *)
Theorem api_returns_parsed_body (w w' : world) (j : json) (t : traffic) :
  (0 <= retries)%Z ->
  _api loads method path false retries replies w = (Return j, w', t) ->
  exists raw,
    replies (sent t - 1) = Body raw /\ parse_body loads raw = Ok j /\ w' = w.
Proof.
  intros Hr Hrun. unfold _api in Hrun.
  apply api_attempts_return in Hrun; [exact Hrun | lia | lia].
Qed.


End RequestProperties.

Lemma api_quiet_single_request_witness :
  @_api Sample.runtime sample_loads (lit "GET") (lit "/content?id=B") true 1
    missing quiet_world =
  (Return JNull, quiet_world, {| sent := 1; slept := 0 |}).
Proof.
  refine (@api_quiet_single_request Sample.runtime sample_loads (lit "GET")
            (lit "/content?id=B") 1 missing quiet_world _).
  lia.
Defined.

Lemma api_retry_schedule_witness :
  @_api Sample.runtime sample_loads (lit "GET") (lit "/content") false 2
    flaky quiet_world =
  ((Return (JList []), quiet_world), {| sent := 3; slept := 4 |}).
Proof.
  refine (@api_retry_schedule Sample.runtime sample_loads (lit "GET")
            (lit "/content") 2 flaky 2 quiet_world _ _ _).
  - lia.
  - intros [|[|j]] Hj; [reflexivity | reflexivity | lia].
  - left. reflexivity.
Defined.

Lemma api_request_bound_witness :
  3 <= Z.to_nat (1 + 2) /\
  4%Z = (2 * Z.of_nat (3 - 1))%Z /\
  ((2 < 0)%Z -> 3 = 0 /\ Return (JList []) = Return JNull /\ quiet_world = quiet_world).
Proof.
  exact (@api_request_bound Sample.runtime sample_loads (lit "GET")
           (lit "/content") 2 flaky false quiet_world quiet_world
           (Return (JList [])) {| sent := 3; slept := 4 |} eq_refl).
Defined.

Lemma api_returns_parsed_body_witness :
  exists raw,
    flaky (3 - 1) = Body raw /\
    @parse_body sample_loads raw = Ok (JList []) /\ quiet_world = quiet_world.
Proof.
  refine (@api_returns_parsed_body Sample.runtime sample_loads (lit "GET")
            (lit "/content") 2 flaky quiet_world quiet_world (JList [])
            {| sent := 3; slept := 4 |} _ eq_refl).
  lia.
Defined.


(** ** From the input to the request *)

